(** * ParserBitrixVendors: a shallow embedding of [libs/parser.py] and
    [libs/ydb.py], and the properties of the vendor-report parser, of the
    paginated scrapers and of the batch upsert that follow from the code.

    Conventions of the embedding.
    - A Python [str] is a Rocq [string]; a character is the code point of
      the same number, so the model covers the text whose code points are
      below 256.  [bytes] are lists of numbers below 256.
    - A Python [dict] is an association list in insertion order, written
      through [dict_set] only, which keeps the keys unique.
    - A [float] is a [spec_float] of binary64 (precision 53, emax 1024);
      [float()] rounds to nearest, ties to even.
    - A function that may raise returns [result A]: [Ok a] or [Raise e].
    - The portal and the store are states passed along; every request and
      every call to the store is written in a log.
    - Calls to [logger] leave no trace in the model.

    The file has the library functions the code calls ([int], [float],
    [csv.reader], [strptime], [strftime], [sha256]), then the three
    modules of the repository, then the statements and their proofs. *)

From Stdlib Require Import ZArith List String Ascii Bool Arith Lia.
From Stdlib Require DecimalString DecimalNat Decimal.
From Stdlib Require Import SpecFloat PrimFloat FloatOps.
Import ListNotations.

Local Open Scope list_scope.
Local Open Scope string_scope.
Local Open Scope nat_scope.

Set Implicit Arguments.
Set Warnings "-abstract-large-number".

(* ------------------------------------------------------------------ *)
(** ** Exceptions and results *)

(** Where a [ValueError] comes from. *)
Inductive value_error : Type :=
| SameStructure                 (* ydb.py line 21 *)
| InvalidIntLiteral (s : string)
| ExceedsIntMaxStrDigits
| FloatNaNToInt
| InvalidFloatLiteral (s : string)
| TimeDataMismatch (s : string)
| UnconvertedDataRemains (s : string)
| DateOutOfRange.

(** Where a [csv.Error] comes from. *)
Inductive csv_error : Type :=
| NewlineInUnquotedField
| FieldLargerThanLimit.

Inductive exn : Type :=
| IndexError
| KeyError (key : string)
| ValueError (why : value_error)
| TypeError
| OverflowError
| StopIteration
| AttributeError
| CsvError (why : csv_error)
| RequestException               (* requests.RequestException *)
| YdbError.                      (* what the ydb client raises *)

Inductive result (A : Type) : Type :=
| Ok (a : A)
| Raise (e : exn).

Arguments Ok {A} a.
Arguments Raise {A} e.

Definition bind {A B : Type} (r : result A) (k : A -> result B) : result B :=
  match r with
  | Ok a => k a
  | Raise e => Raise e
  end.

Notation "x <- r ;; k" := (bind r (fun x => k))
  (at level 61, r at next level, right associativity).

(* ------------------------------------------------------------------ *)
(** ** Strings *)

Module Str.

Definition chars (s : string) : list ascii := list_ascii_of_string s.
Definition of_chars (l : list ascii) : string := string_of_list_ascii l.

Definition code (c : ascii) : nat := nat_of_ascii c.

Definition is_digit (c : ascii) : bool :=
  (48 <=? code c) && (code c <=? 57).

Definition digit_value (c : ascii) : nat := code c - 48.

(** [str.isspace] on one character: the code points below 256 that
    Python counts as whitespace. *)
Definition is_unicode_space (c : ascii) : bool :=
  let n := code c in
  ((9 <=? n) && (n <=? 13)) || ((28 <=? n) && (n <=? 32))
  || (n =? 133) || (n =? 160).

(** The whitespace [int()] and [float()] accept around a literal: they
    keep the characters below 127 as they are and test them with the C
    [isspace], and turn the others into a blank when [str.isspace]
    holds. *)
Definition is_number_space (c : ascii) : bool :=
  let n := code c in
  ((9 <=? n) && (n <=? 13)) || (n =? 32) || (n =? 133) || (n =? 160).

Fixpoint lstrip_by (sp : ascii -> bool) (l : list ascii) : list ascii :=
  match l with
  | c :: l' => if sp c then lstrip_by sp l' else l
  | [] => []
  end.

Definition strip_by (sp : ascii -> bool) (l : list ascii) : list ascii :=
  List.rev (lstrip_by sp (List.rev (lstrip_by sp l))).

(** [s.strip()] *)
Definition strip (s : string) : string :=
  of_chars (strip_by is_unicode_space (chars s)).

(** [s.replace(old, new)] for a one-character [old]. *)
Definition replace_char (old : ascii) (new : string) (s : string) : string :=
  of_chars (flat_map (fun c => if Ascii.eqb c old then chars new else [c])
                     (chars s)).

(** [c.upper()] for an ASCII character [c]. *)
Definition upper_char (c : ascii) : ascii :=
  let n := code c in
  if (97 <=? n) && (n <=? 122) then ascii_of_nat (n - 32) else c.

(** [s.upper()], as far as the comparison with ["ID"] goes: among the
    code points below 256 only [i], [I], [d] and [D] have an [I] or a [D]
    in their upper case, so it is enough to move the ASCII letters. *)
Definition upper (s : string) : string :=
  of_chars (map upper_char (chars s)).

(** [sep.join(l)] *)
Fixpoint join (sep : string) (l : list string) : string :=
  match l with
  | [] => ""
  | [s] => s
  | s :: l' => s ++ sep ++ join sep l'
  end.

(** [str(n)] for a natural number. *)
Definition of_nat (n : nat) : string :=
  DecimalString.NilEmpty.string_of_uint (Nat.to_uint n).

(** [str(z)] for an integer. *)
Definition of_Z (z : Z) : string :=
  match z with
  | Zneg p => "-" ++ of_nat (Pos.to_nat p)
  | _ => of_nat (Z.to_nat z)
  end.

(** ["%0<w>d" % n]: at least [w] digits, zeros on the left. *)
Definition zero_pad (w n : nat) : string :=
  let s := of_nat n in
  of_chars (repeat "0"%char (w - String.length s)) ++ s.

(** Number of the decimal numeral in [l], a list of digits. *)
Definition nat_of_digits (l : list ascii) : nat :=
  fold_left (fun acc c => 10 * acc + digit_value c) l 0.

Definition Z_of_digits (l : list ascii) : Z :=
  fold_left (fun acc c => (10 * acc + Z.of_nat (digit_value c))%Z) l 0%Z.

End Str.

(* ------------------------------------------------------------------ *)
(** ** Dictionaries *)

Section Dict.
Variable V : Type.

Definition dict : Type := list (string * V).

Definition keys (d : dict) : list string := map fst d.

(** [d.get(k)] *)
Fixpoint dict_get (d : dict) (k : string) : option V :=
  match d with
  | [] => None
  | (k', v) :: d' => if String.eqb k' k then Some v else dict_get d' k
  end.

(** [d[k]] *)
Definition dict_item (d : dict) (k : string) : result V :=
  match dict_get d k with
  | Some v => Ok v
  | None => Raise (KeyError k)
  end.

(** [d[k] = v]: an existing key keeps its place, a new one goes last. *)
Fixpoint dict_set (d : dict) (k : string) (v : V) : dict :=
  match d with
  | [] => [(k, v)]
  | (k', v') :: d' =>
      if String.eqb k' k then (k, v) :: d' else (k', v') :: dict_set d' k v
  end.

(** A list of pairs is a dictionary when no key comes twice. *)
Definition wf_dict (d : dict) : Prop := NoDup (keys d).

End Dict.

(** [k in l] *)
Definition mem (k : string) (l : list string) : bool :=
  existsb (String.eqb k) l.

(** [set(a) == set(b)] on lists of strings. *)
Definition set_eqb (a b : list string) : bool :=
  forallb (fun k => mem k b) a && forallb (fun k => mem k a) b.

(* ------------------------------------------------------------------ *)
(** ** Python values, [int()], [float()] *)

Module Py.

(** The values a record holds. *)
Inductive value : Type :=
| VStr (s : string)
| VInt (z : Z)
| VFloat (f : spec_float).

(** binary64 *)
Definition prec : Z := 53.
Definition emax : Z := 1024.

Definition split_sign (l : list ascii) : bool * list ascii :=
  match l with
  | "-"%char :: l' => (true, l')
  | "+"%char :: l' => (false, l')
  | _ => (false, l)
  end.

Definition is_underscore (c : ascii) : bool := Ascii.eqb c "_"%char.

(** Underscores of a numeric literal: each one stands after a digit and
    before a digit.  [prev] is the character before [l], if any.  The
    result is the literal without them. *)
Fixpoint drop_underscores (prev : option ascii) (l : list ascii)
  : option (list ascii) :=
  match l with
  | [] =>
      match prev with
      | Some p => if is_underscore p then None else Some []
      | None => Some []
      end
  | c :: l' =>
      if is_underscore c then
        match prev with
        | Some p =>
            if Str.is_digit p then drop_underscores (Some c) l' else None
        | None => None
        end
      else
        match prev with
        | Some p =>
            if is_underscore p && negb (Str.is_digit c) then None
            else option_map (cons c) (drop_underscores (Some c) l')
        | None => option_map (cons c) (drop_underscores (Some c) l')
        end
  end.

Definition signed (neg : bool) (z : Z) : Z := if neg then Z.opp z else z.

(** [sys.get_int_max_str_digits()], the default. *)
Definition int_max_str_digits : nat := 4300.

(** [int(s)] for a string [s], base 10. *)
Definition int_of_string (s : string) : result Z :=
  let l := Str.strip_by Str.is_number_space (Str.chars s) in
  let '(neg, body) := split_sign l in
  match drop_underscores None body with
  | Some ds =>
      if negb (List.length ds =? 0) && forallb Str.is_digit ds then
        if List.length ds <=? int_max_str_digits
        then Ok (signed neg (Str.Z_of_digits ds))
        else Raise (ValueError ExceedsIntMaxStrDigits)
      else Raise (ValueError (InvalidIntLiteral s))
  | None => Raise (ValueError (InvalidIntLiteral s))
  end.

(** The binary64 nearest to [(-1)^neg * m * 10^e], ties to even. *)
Definition float_of_decimal (neg : bool) (m : Z) (e : Z) : spec_float :=
  match m with
  | Zpos p =>
      if (0 <=? e)%Z
      then SFdiv prec emax
             (S754_finite neg (p * Z.to_pos (10 ^ e)) 0)
             (S754_finite false 1 0)
      else SFdiv prec emax
             (S754_finite neg p 0)
             (S754_finite false (Z.to_pos (10 ^ (- e))) 0)
  | _ => S754_zero neg
  end.

Fixpoint span (p : ascii -> bool) (l : list ascii)
  : list ascii * list ascii :=
  match l with
  | c :: l' =>
      if p c then let '(a, b) := span p l' in (c :: a, b) else ([], l)
  | [] => ([], [])
  end.

Definition lower_char (c : ascii) : ascii :=
  let n := Str.code c in
  if (65 <=? n) && (n <=? 90) then ascii_of_nat (n + 32) else c.

Definition lower_eqb (l : list ascii) (t : string) : bool :=
  String.eqb (Str.of_chars (map lower_char l)) t.

(** The exponent part: nothing, or [e] or [E], a sign, digits. *)
Definition parse_exponent (l : list ascii) : option Z :=
  match l with
  | [] => Some 0%Z
  | c :: l' =>
      if Ascii.eqb (lower_char c) "e"%char then
        let '(neg, ds) := split_sign l' in
        if negb (List.length ds =? 0) && forallb Str.is_digit ds
        then Some (signed neg (Str.Z_of_digits ds))
        else None
      else None
  end.

(** A literal without blanks and underscores. *)
Definition parse_float_literal (l : list ascii) : option spec_float :=
  let '(neg, b) := split_sign l in
  if lower_eqb b "inf" || lower_eqb b "infinity" then Some (S754_infinity neg)
  else if lower_eqb b "nan" then Some S754_nan
  else
    let '(ip, r1) := span Str.is_digit b in
    let '(fp, r2) :=
      match r1 with
      | "."%char :: r => span Str.is_digit r
      | _ => ([], r1)
      end in
    if (List.length ip =? 0) && (List.length fp =? 0) then None
    else
      match parse_exponent r2 with
      | Some ex =>
          Some (float_of_decimal neg (Str.Z_of_digits (ip ++ fp)%list)
                                 (ex - Z.of_nat (List.length fp)))
      | None => None
      end.

(** [float(s)] for a string [s]. *)
Definition float_of_string (s : string) : result spec_float :=
  let l := Str.strip_by Str.is_number_space (Str.chars s) in
  match drop_underscores None l with
  | Some l' =>
      match parse_float_literal l' with
      | Some f => Ok f
      | None => Raise (ValueError (InvalidFloatLiteral s))
      end
  | None => Raise (ValueError (InvalidFloatLiteral s))
  end.

(** [int(f)] for a float [f]: towards zero. *)
Definition int_of_float (f : spec_float) : result Z :=
  match f with
  | S754_zero _ => Ok 0%Z
  | S754_infinity _ => Raise OverflowError
  | S754_nan => Raise (ValueError FloatNaNToInt)
  | S754_finite neg m e =>
      Ok (signed neg
            (if (0 <=? e)%Z then Z.shiftl (Zpos m) e
             else Z.shiftr (Zpos m) (- e)))
  end.

(** [int(v)] *)
Definition int (v : value) : result Z :=
  match v with
  | VStr s => int_of_string s
  | VInt z => Ok z
  | VFloat f => int_of_float f
  end.

(** [bool(v)] *)
Definition truthy (v : value) : bool :=
  match v with
  | VStr s => negb (String.eqb s "")
  | VInt z => negb (Z.eqb z 0)
  | VFloat f =>
      match f with
      | S754_zero _ => false
      | _ => true
      end
  end.

End Py.

(* ------------------------------------------------------------------ *)
(** ** [str.encode()] and [hashlib.sha256(...).hexdigest()] *)

Module Sha256.

Local Open Scope Z_scope.

(** [s.encode()]: UTF-8 of code points below 256. *)
Definition encode (s : string) : list Z :=
  flat_map (fun c =>
              let n := Z.of_nat (Str.code c) in
              if n <? 128 then [n]
              else [Z.lor 192 (Z.shiftr n 6); Z.lor 128 (Z.land n 63)])
           (Str.chars s).

Definition w32 (x : Z) : Z := Z.land x 4294967295.
Definition add32 (a b : Z) : Z := w32 (a + b).
Definition rotr (n x : Z) : Z :=
  Z.lor (Z.shiftr x n) (w32 (Z.shiftl x (32 - n))).

Definition Ch (x y z : Z) : Z :=
  Z.lxor (Z.land x y) (Z.land (Z.lxor x 4294967295) z).
Definition Maj (x y z : Z) : Z :=
  Z.lxor (Z.lxor (Z.land x y) (Z.land x z)) (Z.land y z).
Definition Sigma0 (x : Z) : Z :=
  Z.lxor (Z.lxor (rotr 2 x) (rotr 13 x)) (rotr 22 x).
Definition Sigma1 (x : Z) : Z :=
  Z.lxor (Z.lxor (rotr 6 x) (rotr 11 x)) (rotr 25 x).
Definition sigma0 (x : Z) : Z :=
  Z.lxor (Z.lxor (rotr 7 x) (rotr 18 x)) (Z.shiftr x 3).
Definition sigma1 (x : Z) : Z :=
  Z.lxor (Z.lxor (rotr 17 x) (rotr 19 x)) (Z.shiftr x 10).

(** The first 64 primes. *)
Definition is_prime (n : nat) : bool :=
  forallb (fun d => negb (n mod d =? 0)%nat) (seq 2 (n - 2)).

Definition primes : list Z := map Z.of_nat (filter is_prime (seq 2 310)).

(** The integer part of the cube root of [n], for [n] below [2^108]. *)
Definition icbrt (n : Z) : Z :=
  fold_left (fun r b => let r' := r + 2 ^ Z.of_nat b in
                        if r' * r' * r' <=? n then r' else r)
            (List.rev (seq 0 36)) 0.

(** The round constants: the first 32 bits of the fractional part of the
    cube root of each prime. *)
Definition K : list Z := map (fun p => w32 (icbrt (p * 2 ^ 96))) primes.

(** The initial hash value: the same of the square root of the first
    eight primes. *)
Definition H0 : list Z :=
  map (fun p => w32 (Z.sqrt (p * 2 ^ 64))) (firstn 8 primes).

(** The [n] bytes of [x], the most significant first. *)
Definition be_bytes (n : nat) (x : Z) : list Z :=
  map (fun i => Z.land (Z.shiftr x (8 * Z.of_nat i)) 255) (List.rev (seq 0 n)).

(** The message with its padding: a 1 bit, zeros, the length in bits on
    64 bits, a multiple of 64 bytes in all. *)
Definition pad (msg : list Z) : list Z :=
  let len := List.length msg in
  (msg ++ [128] ++ repeat 0 ((119 - len mod 64) mod 64)%nat
       ++ be_bytes 8 (8 * Z.of_nat len))%list.

Definition be_word (b0 b1 b2 b3 : Z) : Z :=
  Z.lor (Z.lor (Z.shiftl b0 24) (Z.shiftl b1 16)) (Z.lor (Z.shiftl b2 8) b3).

(** Big-endian words of a list of bytes, four by four. *)
Fixpoint words (fuel : nat) (l : list Z) : list Z :=
  match fuel, l with
  | S fuel', b0 :: b1 :: b2 :: b3 :: l' => be_word b0 b1 b2 b3 :: words fuel' l'
  | _, _ => []
  end.

(** The schedule, latest word first: [extend n w] adds [n] words. *)
Fixpoint extend (n : nat) (w : list Z) : list Z :=
  match n with
  | O => w
  | S n' =>
      let x := add32 (add32 (sigma1 (nth 1 w 0)) (nth 6 w 0))
                     (add32 (sigma0 (nth 14 w 0)) (nth 15 w 0)) in
      extend n' (x :: w)
  end.

Definition schedule (block : list Z) : list Z :=
  List.rev (extend 48 (List.rev block)).

Record regs : Type :=
  Regs { ra : Z; rb : Z; rc : Z; rd : Z; re : Z; rf : Z; rg : Z; rh : Z }.

Definition round (r : regs) (kw : Z * Z) : regs :=
  let '(k, w) := kw in
  let t1 := add32 (add32 (add32 (rh r) (Sigma1 (re r)))
                         (add32 (Ch (re r) (rf r) (rg r)) k)) w in
  let t2 := add32 (Sigma0 (ra r)) (Maj (ra r) (rb r) (rc r)) in
  Regs (add32 t1 t2) (ra r) (rb r) (rc r) (add32 (rd r) t1)
       (re r) (rf r) (rg r).

Definition regs_of (h : list Z) : regs :=
  Regs (nth 0 h 0) (nth 1 h 0) (nth 2 h 0) (nth 3 h 0)
       (nth 4 h 0) (nth 5 h 0) (nth 6 h 0) (nth 7 h 0).

Definition list_of (r : regs) : list Z :=
  [ra r; rb r; rc r; rd r; re r; rf r; rg r; rh r].

Definition compress (h : list Z) (block : list Z) : list Z :=
  let r := fold_left round (combine K (schedule block)) (regs_of h) in
  map (fun p => add32 (fst p) (snd p)) (combine h (list_of r)).

(** The blocks of sixteen words. *)
Fixpoint blocks (fuel : nat) (ws : list Z) : list (list Z) :=
  match fuel, ws with
  | _, [] => []
  | O, _ => []
  | S fuel', _ => firstn 16 ws :: blocks fuel' (skipn 16 ws)
  end.

Definition digest (msg : list Z) : list Z :=
  let p := pad msg in
  let ws := words (List.length p) p in
  fold_left compress (blocks (List.length ws) ws) H0.

Definition hex_digit (n : Z) : ascii :=
  if n <? 10 then ascii_of_nat (48 + Z.to_nat n)
  else ascii_of_nat (87 + Z.to_nat n).

Definition hex_word (w : Z) : list ascii :=
  map (fun i => hex_digit (Z.land (Z.shiftr w (4 * Z.of_nat i)) 15))
      (List.rev (seq 0 8)).

(** [hashlib.sha256(s.encode()).hexdigest()] *)
Definition hexdigest (s : string) : string :=
  Str.of_chars (flat_map hex_word (digest (encode s))).

End Sha256.

(* ------------------------------------------------------------------ *)
(** ** [datetime]: [strptime(s, '%d.%m.%Y')] and [strftime] *)

Module DateTime.

(** The date of a [datetime]; the time of day plays no part in the
    formats the parser uses. *)
Record datetime : Type := Date { year : nat; month : nat; day : nat }.

Definition is_leap (y : nat) : bool :=
  (y mod 4 =? 0) && (negb (y mod 100 =? 0) || (y mod 400 =? 0)).

Definition days_in_month (y m : nat) : nat :=
  match m with
  | 1 | 3 | 5 | 7 | 8 | 10 | 12 => 31
  | 4 | 6 | 9 | 11 => 30
  | 2 => if is_leap y then 29 else 28
  | _ => 0
  end.

(** The dates a [datetime] can hold. *)
Definition valid (d : datetime) : bool :=
  (1 <=? year d) && (year d <=? 9999)
  && (1 <=? month d) && (month d <=? 12)
  && (1 <=? day d) && (day d <=? days_in_month (year d) (month d)).

Definition in_range (lo hi : nat) (c : ascii) : bool :=
  (lo <=? Str.code c) && (Str.code c <=? hi).

(** The ways [l] starts with a match of
    [3[0-1]|[1-2]\d|0[1-9]|[1-9]| [1-9]], in the order the regular
    expression tries them, each with the day and what follows. *)
Definition match_d (l : list ascii) : list (nat * list ascii) :=
  (match l with
   | c1 :: c2 :: r =>
       (if Ascii.eqb c1 "3" && in_range 48 49 c2
        then [(30 + Str.digit_value c2, r)] else [])
       ++ (if in_range 49 50 c1 && Str.is_digit c2
           then [(10 * Str.digit_value c1 + Str.digit_value c2, r)] else [])
       ++ (if Ascii.eqb c1 "0" && in_range 49 57 c2
           then [(Str.digit_value c2, r)] else [])
   | _ => []
   end
   ++ match l with
      | c1 :: r => if in_range 49 57 c1 then [(Str.digit_value c1, r)] else []
      | _ => []
      end
   ++ match l with
      | c1 :: c2 :: r =>
          if Ascii.eqb c1 " " && in_range 49 57 c2
          then [(Str.digit_value c2, r)] else []
      | _ => []
      end)%list.

(** The same for [1[0-2]|0[1-9]|[1-9]]. *)
Definition match_m (l : list ascii) : list (nat * list ascii) :=
  (match l with
   | c1 :: c2 :: r =>
       (if Ascii.eqb c1 "1" && in_range 48 50 c2
        then [(10 + Str.digit_value c2, r)] else [])
       ++ (if Ascii.eqb c1 "0" && in_range 49 57 c2
           then [(Str.digit_value c2, r)] else [])
   | _ => []
   end
   ++ match l with
      | c1 :: r => if in_range 49 57 c1 then [(Str.digit_value c1, r)] else []
      | _ => []
      end)%list.

(** [\.] *)
Definition match_dot (l : list ascii) : option (list ascii) :=
  match l with
  | c :: r => if Ascii.eqb c "." then Some r else None
  | [] => None
  end.

(** [\d\d\d\d] *)
Definition match_Y (l : list ascii) : option (nat * list ascii) :=
  match l with
  | c1 :: c2 :: c3 :: c4 :: r =>
      if forallb Str.is_digit [c1; c2; c3; c4]
      then Some (Str.nat_of_digits [c1; c2; c3; c4], r) else None
  | _ => None
  end.

(** What follows the day: [\.], the month, [\.], the year. *)
Definition match_after_d (l : list ascii) : option (nat * nat * list ascii) :=
  match match_dot l with
  | Some l1 =>
      hd_error
        (flat_map (fun mr : nat * list ascii =>
                     match match_dot (snd mr) with
                     | Some l2 =>
                         match match_Y l2 with
                         | Some (y, r) => [(fst mr, y, r)]
                         | None => []
                         end
                     | None => []
                     end)
                  (match_m l1))
  | None => None
  end.

(** The first match of the whole expression at the start of [l]:
    day, month, year and the rest of [l]. *)
Definition regex_match (l : list ascii)
  : option (nat * nat * nat * list ascii) :=
  hd_error
    (flat_map (fun dr : nat * list ascii =>
                 match match_after_d (snd dr) with
                 | Some (m, y, r) => [(fst dr, m, y, r)]
                 | None => []
                 end)
              (match_d l)).

(** [datetime.strptime(s, '%d.%m.%Y')] *)
Definition strptime (s : string) : result datetime :=
  match regex_match (Str.chars s) with
  | None => Raise (ValueError (TimeDataMismatch s))
  | Some (d, m, y, r) =>
      match r with
      | _ :: _ => Raise (ValueError (UnconvertedDataRemains s))
      | [] =>
          let dt := Date y m d in
          if valid dt then Ok dt else Raise (ValueError DateOutOfRange)
      end
  end.

(** [%Y]: the year in decimal.  The C library decides whether a year
    below 1000 gets zeros on the left; [pads] tells which. *)
Definition fmt_Y (pads : bool) (y : nat) : string :=
  if pads then Str.zero_pad 4 y else Str.of_nat y.

(** [%m], [%d] *)
Definition fmt_2 (n : nat) : string := Str.zero_pad 2 n.

(** [d.strftime('%Y-%m-%d')] *)
Definition strftime_Ymd (pads : bool) (d : datetime) : string :=
  fmt_Y pads (year d) ++ "-" ++ fmt_2 (month d) ++ "-" ++ fmt_2 (day d).

(** [d.strftime('01-%m-%Y')] *)
Definition strftime_01mY (pads : bool) (d : datetime) : string :=
  "01-" ++ fmt_2 (month d) ++ "-" ++ fmt_Y pads (year d).

(** [d.strftime('%Y-%m-01')] *)
Definition strftime_Ym01 (pads : bool) (d : datetime) : string :=
  fmt_Y pads (year d) ++ "-" ++ fmt_2 (month d) ++ "-01".

End DateTime.

(* ------------------------------------------------------------------ *)
(** ** [csv.reader(StringIO(content), delimiter=';')] *)

Module Csv.

(** The lines [StringIO(content)] yields: each ends with its line feed,
    but for the last one when the text does not end with a line feed. *)
Fixpoint lines_from (cur : list ascii) (l : list ascii)
  : list (list ascii) :=
  match l with
  | [] =>
      match cur with
      | [] => []
      | _ => [List.rev cur]
      end
  | c :: l' =>
      if Ascii.eqb c "010"
      then List.rev (c :: cur) :: lines_from [] l'
      else lines_from (c :: cur) l'
  end.

Definition lines (content : string) : list (list ascii) :=
  lines_from [] (Str.chars content).

(** The states of the reader that the dialect can reach: it has no
    escape character. *)
Inductive parse_state : Type :=
| START_RECORD
| START_FIELD
| IN_FIELD
| IN_QUOTED_FIELD
| QUOTE_IN_QUOTED_FIELD
| EAT_CRNL.

Definition state_eqb (a b : parse_state) : bool :=
  match a, b with
  | START_RECORD, START_RECORD
  | START_FIELD, START_FIELD
  | IN_FIELD, IN_FIELD
  | IN_QUOTED_FIELD, IN_QUOTED_FIELD
  | QUOTE_IN_QUOTED_FIELD, QUOTE_IN_QUOTED_FIELD
  | EAT_CRNL, EAT_CRNL => true
  | _, _ => false
  end.

(** What the reader is fed: a character of a line, or the end of the
    line. *)
Inductive input : Type :=
| Char (c : ascii)
| EOL.

(** [field] is the field being read, last character first; [fields] the
    fields of the record read so far. *)
Record reader : Type :=
  Reader { state : parse_state; field : list ascii; fields : list string }.

Definition parse_reset : reader := Reader START_RECORD [] [].

Definition delimiter : ascii := ";".
Definition quotechar : ascii := "034".
Definition field_limit : Z := 131072.

Definition is_newline (c : ascii) : bool :=
  Ascii.eqb c "010" || Ascii.eqb c "013".

Definition parse_save_field (r : reader) (s : parse_state) : reader :=
  Reader s [] (fields r ++ [Str.of_chars (List.rev (field r))])%list.

Definition parse_add_char (r : reader) (c : ascii) (s : parse_state)
  : result reader :=
  if (field_limit <=? Z.of_nat (List.length (field r)))%Z
  then Raise (CsvError FieldLargerThanLimit)
  else Ok (Reader s (c :: field r) (fields r)).

Definition set_state (r : reader) (s : parse_state) : reader :=
  Reader s (field r) (fields r).

Definition start_field (r : reader) (i : input) : result reader :=
  match i with
  | EOL => Ok (parse_save_field r START_RECORD)
  | Char c =>
      if is_newline c then Ok (parse_save_field r EAT_CRNL)
      else if Ascii.eqb c quotechar then Ok (set_state r IN_QUOTED_FIELD)
      else if Ascii.eqb c delimiter then Ok (parse_save_field r START_FIELD)
      else parse_add_char r c IN_FIELD
  end.

Definition parse_process_char (r : reader) (i : input) : result reader :=
  match state r with
  | START_RECORD =>
      match i with
      | EOL => Ok r
      | Char c =>
          if is_newline c then Ok (set_state r EAT_CRNL)
          else start_field r i
      end
  | START_FIELD => start_field r i
  | IN_FIELD =>
      match i with
      | EOL => Ok (parse_save_field r START_RECORD)
      | Char c =>
          if is_newline c then Ok (parse_save_field r EAT_CRNL)
          else if Ascii.eqb c delimiter
               then Ok (parse_save_field r START_FIELD)
               else parse_add_char r c IN_FIELD
      end
  | IN_QUOTED_FIELD =>
      match i with
      | EOL => Ok r
      | Char c =>
          if Ascii.eqb c quotechar
          then Ok (set_state r QUOTE_IN_QUOTED_FIELD)
          else parse_add_char r c IN_QUOTED_FIELD
      end
  | QUOTE_IN_QUOTED_FIELD =>
      match i with
      | EOL => Ok (parse_save_field r START_RECORD)
      | Char c =>
          if Ascii.eqb c quotechar then parse_add_char r c IN_QUOTED_FIELD
          else if Ascii.eqb c delimiter
               then Ok (parse_save_field r START_FIELD)
               else if is_newline c then Ok (parse_save_field r EAT_CRNL)
                    else parse_add_char r c IN_FIELD
      end
  | EAT_CRNL =>
      match i with
      | EOL => Ok (set_state r START_RECORD)
      | Char c =>
          if is_newline c then Ok r
          else Raise (CsvError NewlineInUnquotedField)
      end
  end.

(** One line, then the end of the line. *)
Fixpoint feed_line (r : reader) (line : list ascii) : result reader :=
  match line with
  | [] => parse_process_char r EOL
  | c :: line' =>
      r' <- parse_process_char r (Char c) ;; feed_line r' line'
  end.

(** The records the reader yields one after the other, and the error
    that ends the iteration if there is one.  [r] is the reader in the
    middle of a record, or [parse_reset] between two records. *)
Fixpoint records (ls : list (list ascii)) (r : reader)
  : list (list string) * option exn :=
  match ls with
  | [] =>
      if negb (List.length (field r) =? 0) || state_eqb (state r) IN_QUOTED_FIELD
      then ([fields (parse_save_field r START_RECORD)], None)
      else ([], None)
  | line :: ls' =>
      match feed_line r line with
      | Raise e => ([], Some e)
      | Ok r' =>
          if state_eqb (state r') START_RECORD
          then let '(rows, e) := records ls' parse_reset in
               (fields r' :: rows, e)
          else records ls' r'
      end
  end.

Definition reader_rows (content : string) : list (list string) * option exn :=
  records (lines content) parse_reset.

End Csv.

(* ------------------------------------------------------------------ *)
(** ** [libs/parser.py]: [ParseVendors._parse_csv_payments] *)

Module Parser.

Import Py.

(** A payment: column name to value. *)
Definition payment : Type := dict value.

(** What the methods read of [self]: the reference date of the run and
    the session token. *)
Record ParseVendors : Type :=
  Self { date_time : DateTime.datetime; session_id : string }.

Definition amount_keys : list string := ["AMOUNT"; "ALL_AMOUNT"].
Definition date_keys : list string :=
  ["DATE_OF_USE"; "SUBSCRIPTION_START"; "SUBSCRIPTION_END"].

(** [except (ValueError, TypeError)] *)
Definition is_value_or_type_error (e : exn) : bool :=
  match e with
  | ValueError _ | TypeError => true
  | _ => false
  end.

(** [value.replace(' ', '').replace(',', '.')] *)
Definition normalize_amount (value : string) : string :=
  Str.replace_char "," "." (Str.replace_char " " "" value).

(** Lines 186 to 189: the converted value of one field. *)
Definition convert (pads : bool) (key value : string) : result Py.value :=
  if mem key amount_keys then
    f <- float_of_string (normalize_amount value) ;; Ok (VFloat f)
  else if mem key date_keys then
    d <- DateTime.strptime value ;; Ok (VStr (DateTime.strftime_Ymd pads d))
  else Ok (VStr value).

(** Lines 185 to 193: [payment[key]] is the converted value, or the raw
    string when the conversion raises [ValueError] or [TypeError]. *)
Definition set_field (pads : bool) (p : payment) (key value : string)
  : result payment :=
  match convert pads key value with
  | Ok v => Ok (dict_set p key v)
  | Raise e =>
      if is_value_or_type_error e then Ok (dict_set p key (VStr value))
      else Raise e
  end.

(** Lines 183 to 193: [for key, value in zip(header, row)]. *)
Fixpoint fill_payment (pads : bool) (p : payment) (kvs : list (string * string))
  : result payment :=
  match kvs with
  | [] => Ok p
  | (key, value) :: kvs' =>
      p' <- set_field pads p key value ;; fill_payment pads p' kvs'
  end.

(** [payment['MEMBER_ID'] + suffix] *)
Definition concat_member (p : payment) (suffix : string) : result string :=
  v <- dict_item p "MEMBER_ID" ;;
  match v with
  | VStr m => Ok (m ++ suffix)
  | _ => Raise TypeError
  end.

(** Lines 194 to 197. *)
Definition add_premium_fields (pads : bool) (self : ParseVendors) (p : payment)
  : result payment :=
  pre <- concat_member p (DateTime.strftime_01mY pads (date_time self)) ;;
  let p1 := dict_set p "hash" (VStr (Sha256.hexdigest pre)) in
  Ok (dict_set p1 "DATE_PARSE"
               (VStr (DateTime.strftime_Ym01 pads (date_time self)))).

(** [payment.get('ID')] as a condition. *)
Definition has_id (p : payment) : bool :=
  match dict_get p "ID" with
  | Some v => truthy v
  | None => false
  end.

(** Lines 180 to 199: the loop over the rows after the header. *)
Fixpoint parse_rows (pads : bool) (self : ParseVendors) (is_premium : bool)
         (header : list string) (rows : list (list string))
         (payments : list payment) : result (list payment) :=
  match rows with
  | [] => Ok payments
  | row :: rows' =>
      if List.length row <=? 1
      then parse_rows pads self is_premium header rows' payments
      else
        p <- fill_payment pads [] (combine header row) ;;
        if is_premium then
          p' <- add_premium_fields pads self p ;;
          parse_rows pads self is_premium header rows' (payments ++ [p'])%list
        else if has_id p then
          parse_rows pads self is_premium header rows' (payments ++ [p])%list
        else
          parse_rows pads self is_premium header rows' payments
  end.

(** Lines 166 to 203.  The reader is read as the loop goes: the rows it
    yields before an error are processed before the error is raised. *)
Definition _parse_csv_payments (pads : bool) (self : ParseVendors)
           (content : string) (is_premium : bool) : result (list payment) :=
  let '(rows, err) := Csv.reader_rows content in
  match rows with
  | [] =>
      match err with
      | Some e => Raise e
      | None => Raise StopIteration
      end
  | first :: rest =>
      let header := removelast first in
      payments <- parse_rows pads self is_premium header rest [] ;;
      match err with
      | Some e => Raise e
      | None => Ok payments
      end
  end.

End Parser.

(* ------------------------------------------------------------------ *)
(** ** [libs/parser.py]: [get_app_list] and [get_client_list] *)

Module Scraper.

Import Parser.

(** [CONFIG['max_pages']] *)
Definition max_pages : nat := 100.

Definition base_url : string := "https://vendors.bitrix24.ru".
Definition ajax_id_app_list : string := "2eac8fa73aa98e2f7e412d509f9fe12b".

(** A [session.get(url, params=...)]. *)
Record request : Type :=
  Request { url : string; params : list (string * string) }.

(** [range(1, max_pages + 1)] *)
Definition page_range : list nat := seq 1 max_pages.

Definition page_param (page : nat) : string := "page-" ++ Str.of_nat page.

(** Lines 258 to 268. *)
Definition app_list_request (self : ParseVendors) (page : nat) : request :=
  Request (base_url ++ "/app/")
          [("internal", "true");
           ("sessid", session_id self);
           ("grid_id", "vendor_app_list");
           ("grid_action", "pagination");
           ("nav-moderator-app-list", page_param page);
           ("bxajaxid", ajax_id_app_list)].

(** Lines 310 to 316. *)
Definition client_list_request (app_id : string) (page : nat) : request :=
  Request (base_url ++ "/sale/clients.php")
          [("ID", app_id); ("nav-client", page_param page)].

(** A listing record: header to cell text. *)
Definition listing : Type := dict string.

(** What [get_app_list] reads of a row of the grid: the text of its
    [td] cells and, when the row has a
    [span.main-grid-row-action-button] with a [data-actions] attribute,
    that attribute. *)
Record app_row : Type :=
  AppRow { cells : list string; data_actions : option string }.

(** What it reads of [table#vendor_app_list_table]: the text of the
    [th] cells of its [thead], if it has a [thead], and its rows of
    class [main-grid-row main-grid-row-body]. *)
Record app_table : Type :=
  AppTable { thead : option (list string); grid_rows : list app_row }.

(** What [get_client_list] reads of [table#mp24_client]: the text of the
    [td] cells of its [tr.bx-grid-head], if there is one, and for each
    [tr] without class or of class [ dru] the text of its [td] cells. *)
Record client_table : Type :=
  ClientTable { head_row : option (list string);
                client_rows : list (list string) }.

(** [{headers[i]: cells[i].text.strip() for i in range(len(headers))}],
    for a row with as many cells as headers at least. *)
Definition row_data (headers cells : list string) : listing :=
  fold_left (fun d hc => dict_set d (fst hc) (Str.strip (snd hc)))
            (combine headers cells) [].

Fixpoint strip_prefix (p l : list ascii) : option (list ascii) :=
  match p, l with
  | [], _ => Some l
  | a :: p', b :: l' => if Ascii.eqb a b then strip_prefix p' l' else None
  | _ :: _, [] => None
  end.

(** A match of [bx24vendorClients\((\d+)\)] at the start of [l]: its
    group. *)
Definition match_clients_here (l : list ascii) : option string :=
  match strip_prefix (Str.chars "bx24vendorClients(") l with
  | Some r =>
      let '(ds, r') := Py.span Str.is_digit r in
      match ds, r' with
      | _ :: _, c :: _ => if Ascii.eqb c ")" then Some (Str.of_chars ds) else None
      | _, _ => None
      end
  | None => None
  end.

(** [re.search(r"bx24vendorClients\((\d+)\)", actions)]: the group of
    the leftmost match. *)
Fixpoint search_clients (l : list ascii) : option string :=
  match match_clients_here l with
  | Some g => Some g
  | None =>
      match l with
      | [] => None
      | _ :: l' => search_clients l'
      end
  end.

(** Lines 285 to 291. *)
Definition app_row_data (headers : list string) (row : app_row) : listing :=
  let d := row_data headers (cells row) in
  match data_actions row with
  | Some actions =>
      match search_clients (Str.chars actions) with
      | Some g => dict_set d "id" g
      | None => d
      end
  | None => d
  end.

(** Lines 281 to 292. *)
Definition app_page_rows (headers : list string) (rows : list app_row)
  : list listing :=
  map (app_row_data headers)
      (filter (fun row => negb (List.length (cells row) <? List.length headers))
              rows).

(** Lines 329 to 333. *)
Definition client_page_rows (headers : list string) (rows : list (list string))
  : list listing :=
  map (row_data headers)
      (filter (fun cs => List.length headers <=? List.length cs) rows).

(** Line 275 *)
Definition app_headers (ths : list string) : list string :=
  filter (fun t => negb (String.eqb t "")) (map Str.strip ths).

(** Line 325 *)
Definition client_headers (tds : list string) : list string :=
  map (fun t => let s := Str.strip t in
                if String.eqb s "" then "actions" else s) tds.

(** What one page does to the loop. *)
Inductive step (A : Type) : Type :=
| Break
| Continue (rows : list A)
| Fail (e : exn).

Arguments Break {A}.
Arguments Continue {A} rows.
Arguments Fail {A} e.

(** Lines 272 to 292, on the table found in the page, if any. *)
Definition app_page (t : option app_table) : step listing :=
  match t with
  | None => Break
  | Some table =>
      match thead table with
      | None => Fail AttributeError
      | Some ths =>
          let headers := app_headers ths in
          match headers, grid_rows table with
          | [], _ => Break
          | _, [] => Break
          | _, rows => Continue (app_page_rows headers rows)
          end
      end
  end.

(** Lines 319 to 333. *)
Definition client_page (t : option client_table) : step listing :=
  match t with
  | None => Break
  | Some table =>
      match head_row table with
      | None => Break
      | Some tds =>
          let headers := client_headers tds in
          if List.length (client_rows table) <=? 1 then Break
          else Continue (client_page_rows headers (client_rows table))
      end
  end.

Section Session.

(** The portal and the network, and what a request does to them:
    [session.get] followed by [raise_for_status] gives the body of
    the response or raises. *)
Variable World : Type.
Variable http_get : World -> request -> World * result string.

(** [BeautifulSoup(text, 'html.parser')] and the searches of the two
    scrapers in it. *)
Variable soup_app_table : string -> option app_table.
Variable soup_client_table : string -> option client_table.

(** The session with the requests it has sent, oldest first. *)
Record net : Type := Net { world : World; sent : list request }.

Definition session_get (n : net) (rq : request) : net * result string :=
  let '(w, r) := http_get (world n) rq in
  (Net w (sent n ++ [rq])%list, r).

(** The loop of both scrapers over the pages left. *)
Fixpoint scrape (A : Type) (req : nat -> request)
         (page_step : string -> step A)
         (pages : list nat) (n : net) (acc : list A)
  : net * result (list A) :=
  match pages with
  | [] => (n, Ok acc)
  | page :: pages' =>
      let '(n', r) := session_get n (req page) in
      match r with
      | Raise RequestException => (n', Ok acc)
      | Raise e => (n', Raise e)
      | Ok text =>
          match page_step text with
          | Break => (n', Ok acc)
          | Fail e => (n', Raise e)
          | Continue rows => scrape req page_step pages' n' (acc ++ rows)%list
          end
      end
  end.

(** Lines 249 to 296. *)
Definition get_app_list (self : ParseVendors) (n : net)
  : net * result (list listing) :=
  scrape (app_list_request self)
         (fun text => app_page (soup_app_table text))
         page_range n [].

(** Lines 298 to 337. *)
Definition get_client_list (app_id : string) (n : net)
  : net * result (list listing) :=
  scrape (client_list_request app_id)
         (fun text => client_page (soup_client_table text))
         page_range n [].

End Session.

End Scraper.

(* ------------------------------------------------------------------ *)
(** ** [libs/ydb.py]: [upset_data] *)

Module Ydb.

Import Py.

(** A record of a batch. *)
Definition record : Type := dict value.

(** [f"${col}_{row_idx}"] *)
Definition param_name (col : string) (row_idx : nat) : string :=
  "$" ++ col ++ "_" ++ Str.of_nat row_idx.

(** [col.upper() == "ID"] *)
Definition is_id (col : string) : bool := String.eqb (Str.upper col) "ID".

(** Lines 43 and 45. *)
Definition declare (col : string) (row_idx : nat) : string :=
  if is_id col
  then "DECLARE " ++ param_name col row_idx ++ " AS Int64;"
  else "DECLARE " ++ param_name col row_idx ++ " AS Utf8;".

(** [f"({', '.join(bind_vars)})"] *)
Definition tuple_text (bind_vars : list string) : string :=
  "(" ++ Str.join ", " bind_vars ++ ")".

(** The three accumulators of the construction. *)
Record statement : Type :=
  Statement { declare_block : list string;
              param_values : dict value;
              bind_vars_rows : list string }.

Definition newline : string := String "010" "".

(** Lines 51 to 55. *)
Definition query_text (table : string) (columns : list string)
           (st : statement) : string :=
  newline ++ "    " ++ Str.join " " (declare_block st) ++ newline
  ++ "    UPSERT INTO `" ++ table ++ "` (" ++ Str.join ", " columns ++ ")"
  ++ newline
  ++ "    VALUES " ++ Str.join ", " (bind_vars_rows st) ++ ";" ++ newline
  ++ "    ".

(** A call to the session of the store. *)
Inductive call : Type :=
| Prepare (query : string)
| Execute (query : string) (params : dict value).

Section Store.

(** [str(f)] for a float [f]. *)
Variable float_repr : spec_float -> string.

(** The remote store, and what [session_pool.prepare(query)] and
    [transaction(SerializableReadWrite()).execute(prepared, params,
    commit_tx=True)] do to it. *)
Variable Store : Type.
Variable store_prepare : Store -> string -> Store * result unit.
Variable store_execute : Store -> string -> dict value -> Store * result unit.

(** The store with the calls it has received, oldest first. *)
Record db : Type := Db { store : Store; calls : list call }.

Definition prepare (s : db) (query : string) : db * result unit :=
  let '(st, r) := store_prepare (store s) query in
  (Db st (calls s ++ [Prepare query])%list, r).

Definition execute (s : db) (query : string) (params : dict value)
  : db * result unit :=
  let '(st, r) := store_execute (store s) query params in
  (Db st (calls s ++ [Execute query params])%list, r).

(** [str(v)] *)
Definition str (v : value) : string :=
  match v with
  | VStr s => s
  | VInt z => Str.of_Z z
  | VFloat f => float_repr f
  end.

(** Lines 36 to 39: the value bound to the parameter. *)
Definition param_value (col : string) (row : record) : result value :=
  v <- dict_item row col ;;
  if is_id col then n <- int v ;; Ok (VInt n) else Ok (VStr (str v)).

(** Lines 31 to 45: the columns of one record.  [bind_vars] is the
    list of the record, the second component of the result. *)
Fixpoint bind_columns (row_idx : nat) (row : record) (cols : list string)
         (st : statement) (bind_vars : list string)
  : result (statement * list string) :=
  match cols with
  | [] => Ok (st, bind_vars)
  | col :: cols' =>
      let name := param_name col row_idx in
      v <- param_value col row ;;
      bind_columns row_idx row cols'
        (Statement (declare_block st ++ [declare col row_idx])%list
                   (dict_set (param_values st) name v)
                   (bind_vars_rows st))
        (bind_vars ++ [name])%list
  end.

(** Lines 29 to 48: [for row_idx, row in enumerate(data)], from
    [row_idx] on. *)
Fixpoint bind_rows (columns : list string) (row_idx : nat)
         (rows : list record) (st : statement) : result statement :=
  match rows with
  | [] => Ok st
  | row :: rows' =>
      r <- bind_columns row_idx row columns st [] ;;
      let '(st', bind_vars) := r in
      bind_rows columns (S row_idx) rows'
        (Statement (declare_block st') (param_values st')
                   (bind_vars_rows st' ++ [tuple_text bind_vars])%list)
  end.

(** Lines 24 to 48. *)
Definition build (columns : list string) (data : list record)
  : result statement :=
  bind_rows columns 0 data (Statement [] [] []).

(** Line 20: [all(set(item.keys()) == set(columns) for item in data)] *)
Definition same_structure (columns : list string) (data : list record)
  : bool :=
  forallb (fun item => set_eqb (keys item) columns) data.

(** Lines 16 to 68. *)
Definition upset_data (table : string) (data : list record) (s : db)
  : db * result bool :=
  match data with
  | [] => (s, Raise IndexError)
  | first :: _ =>
      let columns := keys first in
      if negb (same_structure columns data)
      then (s, Raise (ValueError SameStructure))
      else
        match build columns data with
        | Raise e => (s, Raise e)
        | Ok st =>
            let query := query_text table columns st in
            let '(s1, r1) := prepare s query in
            match r1 with
            | Raise e => (s1, Raise e)
            | Ok _ =>
                let '(s2, r2) := execute s1 query (param_values st) in
                match r2 with
                | Raise e => (s2, Raise e)
                | Ok _ => (s2, Ok true)
                end
            end
        end
  end.

End Store.

End Ydb.

(* ------------------------------------------------------------------ *)
(** ** Constants of the statements *)

Unset Implicit Arguments.

(** The text [s] followed by a line feed. *)
Definition line (s : string) : string := s ++ String "010" "".

(** The export of the end-to-end scenario, as the specification writes
    it, and the same with the final [;] the portal puts on every line. *)
Definition scenario_body : string :=
  line "ID;AMOUNT;DATE_OF_USE;X" ++ line "1;1 234,56;01.06.2024;foo".

Definition scenario_body_trailing : string :=
  line "ID;AMOUNT;DATE_OF_USE;X;" ++ line "1;1 234,56;01.06.2024;foo;".

(** The float Python writes [1234.56]: [(1234.56).hex()] is
    [0x1.34a3d70a3d70ap+10]. *)
Definition float_1234_56 : spec_float := Prim2SF 0x1.34a3d70a3d70ap+10%float.

Definition scenario_record : Parser.payment :=
  [("ID", Py.VStr "1"); ("AMOUNT", Py.VFloat float_1234_56);
   ("DATE_OF_USE", Py.VStr "2024-06-01"); ("X", Py.VStr "foo")].

Definition scenario_record_without_X : Parser.payment :=
  [("ID", Py.VStr "1"); ("AMOUNT", Py.VFloat float_1234_56);
   ("DATE_OF_USE", Py.VStr "2024-06-01")].

(** A run of 15 July 2024. *)
Definition run_2024_07_15 : Parser.ParseVendors :=
  Parser.Self (DateTime.Date 2024 7 15) "0123456789abcdef".

Definition run_2024_07_16 : Parser.ParseVendors :=
  Parser.Self (DateTime.Date 2024 7 16) "0123456789abcdef".

(** The rows of an export that are data rows: more than one field. *)
Definition data_rows (rows : list (list string)) : list (list string) :=
  filter (fun row => negb (List.length row <=? 1)) rows.

(** The value a record holds for a field: the converted one, or the raw
    string when the conversion raises. *)
Definition field_value (pads : bool) (key value : string) : Py.value :=
  match Parser.convert pads key value with
  | Ok v => v
  | Raise _ => Py.VStr value
  end.

(** The record of a row under a header. *)
Definition record_of (pads : bool) (header row : list string) : Parser.payment :=
  fold_left (fun p kv => dict_set p (fst kv) (field_value pads (fst kv) (snd kv)))
            (combine header row) [].

(** A row reaches the column [MEMBER_ID] when the header has it at a
    place where the row has a field. *)
Definition reaches_member (header row : list string) : Prop :=
  In "MEMBER_ID" (map fst (combine header row)).

(** The member identifier of a record. *)
Definition member_of (p : Parser.payment) : string :=
  match dict_get p "MEMBER_ID" with
  | Some (Py.VStr m) => m
  | _ => ""
  end.

(** The string whose digest is the [hash] of a premium record. *)
Definition hash_input (pads : bool) (member : string) (d : DateTime.datetime)
  : string :=
  member ++ "01-" ++ DateTime.fmt_2 (DateTime.month d) ++ "-"
         ++ DateTime.fmt_Y pads (DateTime.year d).

(** The reporting period written in a premium record. *)
Definition period (pads : bool) (d : DateTime.datetime) : string :=
  DateTime.fmt_Y pads (DateTime.year d) ++ "-"
  ++ DateTime.fmt_2 (DateTime.month d) ++ "-01".

(** A record with the two derived fields of the premium report. *)
Definition premium_of (pads : bool) (self : Parser.ParseVendors)
           (p : Parser.payment) : Parser.payment :=
  dict_set
    (dict_set p "hash"
       (Py.VStr (Sha256.hexdigest
                   (hash_input pads (member_of p) (Parser.date_time self)))))
    "DATE_PARSE" (Py.VStr (period pads (Parser.date_time self))).

(** The [hash] field that lines 194 to 196 give a record whose member
    identifier is [member]. *)
Definition premium_hash (pads : bool) (self : Parser.ParseVendors)
           (member : string) : result Py.value :=
  p <- Parser.add_premium_fields pads self [("MEMBER_ID", Py.VStr member)] ;;
  dict_item p "hash".

(** What the portal answers when the requests of [pages] are sent one
    after the other, from the state [w] on. *)
Fixpoint replies (World : Type)
         (http_get : World -> Scraper.request -> World * result string)
         (req : nat -> Scraper.request) (pages : list nat) (w : World)
  : list (result string) :=
  match pages with
  | [] => []
  | page :: pages' =>
      let '(w', r) := http_get w (req page) in
      r :: replies World http_get req pages' w'
  end.

(** The rows of an answer that holds a populated table: the loop goes on
    after it. *)
Definition populated (A : Type) (page_step : string -> Scraper.step A)
           (r : result string) : option (list A) :=
  match r with
  | Ok text =>
      match page_step text with
      | Scraper.Continue rows => Some rows
      | _ => None
      end
  | Raise _ => None
  end.

(** What the loop returns when the answer [r] stops it with the rows
    [acc] gathered: lines 273 to 280 and 293 to 296. *)
Definition stop_outcome (A : Type) (page_step : string -> Scraper.step A)
           (r : result string) (acc : list A) : result (list A) :=
  match r with
  | Raise RequestException => Ok acc
  | Raise e => Raise e
  | Ok text =>
      match page_step text with
      | Scraper.Fail e => Raise e
      | _ => Ok acc
      end
  end.

(** A portal that answers every request with the same page of one row,
    and counts the requests. *)
Definition endless_portal (w : nat) (rq : Scraper.request)
  : nat * result string :=
  (S w, Ok "page").

Definition endless_app_table (text : string) : option Scraper.app_table :=
  Some (Scraper.AppTable (Some [" Name "; "Code"])
          [Scraper.AppRow ["App"; "app.code"]
                          (Some "BX.bx24vendorClients(17)")]).

Definition endless_client_table (text : string) : option Scraper.client_table :=
  Some (Scraper.ClientTable (Some ["Client"; " "])
          [["portal.example"; "x"]; ["other.example"; "y"]]).

(** The listing records of the page of the endless portal. *)
Definition endless_app_rows : list Scraper.listing :=
  [[("Name", "App"); ("Code", "app.code"); ("id", "17")]].

Definition endless_client_rows : list Scraper.listing :=
  [[("Client", "portal.example"); ("actions", "x")];
   [("Client", "other.example"); ("actions", "y")]].

(** A portal whose third answer is a transport failure. *)
Definition failing_portal (w : nat) (rq : Scraper.request)
  : nat * result string :=
  (S w, if w =? 2 then Raise RequestException else Ok "page").

(** The parameter names of the record of index [i], in the order of
    [columns]. *)
Definition names_of (columns : list string) (i : nat) : list string :=
  map (fun col => Ydb.param_name col i) columns.

(** The parameter names of the records of index [i] to [i + n - 1]. *)
Definition all_names (columns : list string) (i n : nat) : list string :=
  flat_map (names_of columns) (seq i n).

(** The declarations of the record of index [i]. *)
Definition declares_of (columns : list string) (i : nat) : list string :=
  map (fun col => Ydb.declare col i) columns.

(** [d] after the assignments [d[k] = v] of [kvs], in order. *)
Definition set_all (d : dict Py.value) (kvs : list (string * Py.value))
  : dict Py.value :=
  fold_left (fun d kv => dict_set d (fst kv) (snd kv)) kvs d.

(** The parameters of the records of index [i] on, with the values
    [vss] bound to them record by record. *)
Fixpoint cells (columns : list string) (i : nat) (vss : list (list Py.value))
  : list (string * Py.value) :=
  match vss with
  | [] => []
  | vs :: vss' => (combine (names_of columns i) vs ++ cells columns (S i) vss')%list
  end.

(** The values bound to the parameters of a record. *)
Definition row_values (float_repr : spec_float -> string) (row : Ydb.record)
           (cols : list string) (vs : list Py.value) : Prop :=
  Forall2 (fun c v => Ydb.param_value float_repr c row = Ok v) cols vs.

(** A store that accepts every query and counts the calls. *)
Definition counting_prepare (s : nat) (query : string) : nat * result unit :=
  (S s, Ok tt).

Definition counting_execute (s : nat) (query : string) (params : dict Py.value)
  : nat * result unit :=
  (S s, Ok tt).

(** A function in the place of [str] on floats, for the examples, which
    hold no float. *)
Definition sample_float_repr (f : spec_float) : string := "nan".

Definition upset_sample (table : string) (data : list Ydb.record)
  : Ydb.db nat * result bool :=
  Ydb.upset_data sample_float_repr counting_prepare counting_execute
                 table data (Ydb.Db 0 []).

(** Two records with the same columns in two orders. *)
Definition batch_two_orders : list Ydb.record :=
  [ [("ID", Py.VStr "1"); ("NAME", Py.VStr "a")];
    [("NAME", Py.VStr "b"); ("ID", Py.VStr "2")] ].

(** Two records with different columns. *)
Definition batch_two_structures : list Ydb.record :=
  [ [("ID", Py.VStr "1"); ("NAME", Py.VStr "a")];
    [("ID", Py.VStr "2"); ("TITLE", Py.VStr "b")] ].

(** A record whose identifier is not an integer. *)
Definition batch_bad_id : list Ydb.record :=
  [ [("id", Py.VStr "1"); ("NAME", Py.VStr "a")];
    [("id", Py.VStr "x2"); ("NAME", Py.VStr "b")] ].

(* ------------------------------------------------------------------ *)
(** ** [libs/parser.py]: [_flatten_dict] *)

Module Flatten.

(** The values at the leaves of the filter: strings and [False]; [None]
    is what [os.environ.get] gives for a variable that is not set. *)
Inductive form_value : Type :=
| FStr (s : string)
| FBool (b : bool)
| FNone.

(** A value of a nested dictionary: a leaf or a dictionary. *)
#[warnings="-register-all"]
Inductive tree : Type :=
| Leaf (v : form_value)
| Node (d : list (string * tree)).

(** [dict(items)] *)
Definition dict_of_items (V : Type) (items : list (string * V)) : dict V :=
  fold_left (fun d kv => dict_set d (fst kv) (snd kv)) items [].

(** Line 54: the key [k] under [parent_key], that is [k] itself when
    [parent_key] is empty and [parent_key], an opening bracket, [k] and
    a closing bracket otherwise. *)
Definition new_key (parent_key k : string) : string :=
  if String.eqb parent_key "" then k else parent_key ++ "[" ++ k ++ "]".

(** Lines 55 to 58: what the value [v] met under the key [key] adds to
    [items]; for a dictionary, the items of its own flattening. *)
Fixpoint flatten_value (v : tree) (key : string) : list (string * form_value) :=
  match v with
  | Leaf x => [(key, x)]
  | Node d =>
      dict_of_items form_value
        (flat_map (fun kv : string * tree =>
                     let '(k, v') := kv in flatten_value v' (new_key key k))
                  d)
  end.

(** Lines 51 to 59, [sep] being the default. *)
Definition _flatten_dict (d : list (string * tree)) (parent_key : string)
  : dict form_value :=
  flatten_value (Node d) parent_key.

(** The leaves under [d] with the key of their path, in the order of the
    dictionaries, when no dictionary is rebuilt on the way. *)
Fixpoint leaves_of (v : tree) (key : string) : list (string * form_value) :=
  match v with
  | Leaf x => [(key, x)]
  | Node d =>
      flat_map (fun kv : string * tree =>
                  let '(k, v') := kv in leaves_of v' (new_key key k))
               d
  end.

(** A flat dictionary as a nested one. *)
Definition as_tree (d : dict form_value) : list (string * tree) :=
  map (fun kv => (fst kv, Leaf (snd kv))) d.

End Flatten.

(* ------------------------------------------------------------------ *)
(** ** [libs/parser.py]: the session, [auth], [set_filter] and the two
    reports *)

Module Portal.

Import Flatten.

(** A [session.post(url, params=..., data=..., headers=...)]. *)
Record post_request : Type :=
  PostRequest { post_url : string;
                post_params : list (string * string);
                post_data : dict form_value;
                post_headers : list (string * string) }.

(** A request of the session. *)
Inductive http_call : Type :=
| Get (rq : Scraper.request)
| Post (rq : post_request).

(** What the methods of this part raise: the exceptions of the rest of
    the program, the [ValueError] of line 76 and the [Exception] of
    line 79. *)
Inductive raised : Type :=
| Exn (e : exn)
| SessionIdNotFound
| AuthenticationError.

Inductive outcome (A : Type) : Type :=
| Returns (a : A)
| Raises (e : raised).

Arguments Returns {A} a.
Arguments Raises {A} e.

Definition quote : ascii := "034".

(** The text that comes before the identifier in the page: a quote,
    [bitrix_sessid], a quote, a colon, a quote. *)
Definition sessid_prefix : string :=
  String quote ("bitrix_sessid" ++ String quote (":" ++ String quote "")).

(** [[a-f0-9]] *)
Definition is_hex (c : ascii) : bool :=
  Str.is_digit c || ((97 <=? Str.code c) && (Str.code c <=? 102)).

(** A match of the pattern of line 71 at the start of [l]: that text, a
    group of one or more [[a-f0-9]], a quote.  The result is the
    group. *)
Definition match_sessid_here (l : list ascii) : option string :=
  match Scraper.strip_prefix (Str.chars sessid_prefix) l with
  | Some r =>
      let '(hs, r') := Py.span is_hex r in
      match hs, r' with
      | _ :: _, c :: _ => if Ascii.eqb c quote then Some (Str.of_chars hs) else None
      | _, _ => None
      end
  | None => None
  end.

(** [re.search] of line 71: the group of the leftmost match. *)
Fixpoint search_sessid (l : list ascii) : option string :=
  match match_sessid_here l with
  | Some g => Some g
  | None =>
      match l with
      | [] => None
      | _ :: l' => search_sessid l'
      end
  end.

(** [os.environ.get(name)] as a value of a form. *)
Definition env_value (v : option string) : form_value :=
  match v with
  | Some s => FStr s
  | None => FNone
  end.

(** Lines 64 to 69. *)
Definition auth_request (login password : option string) : post_request :=
  PostRequest (Scraper.base_url ++ "/auth/") []
              [("AUTH_FORM", FStr "Y"); ("TYPE", FStr "AUTH");
               ("USER_LOGIN", env_value login);
               ("USER_PASSWORD", env_value password)]
              [].

Definition ajax_id_payout : string := "08121894e876869a8373dc61fb5e7f3e".

(** Lines 113 to 141; [label] is the value of ['name'], a word whose
    letters have code points above 255. *)
Definition filter_data (pads : bool) (label : string)
           (self : Parser.ParseVendors) (filter_id grid_id : string)
  : list (string * tree) :=
  [("params",
    Node [("FILTER_ID", Leaf (FStr filter_id));
          ("GRID_ID", Leaf (FStr grid_id));
          ("action", Leaf (FStr "setFilter"));
          ("forAll", Leaf (FBool false));
          ("commonPresetsId", Leaf (FStr ""));
          ("apply_filter", Leaf (FStr "Y"));
          ("clear_filter", Leaf (FStr "N"));
          ("with_preset", Leaf (FStr "N"));
          ("save", Leaf (FStr "Y"));
          ("isSetOutside", Leaf (FStr "false"))]);
   ("data",
    Node [("fields",
           Node [("FIND", Leaf (FStr ""));
                 ("DATE_OF_USE_from", Leaf (FStr ""));
                 ("DATE_OF_USE_to", Leaf (FStr ""));
                 ("DATE_OF_USE_days", Leaf (FStr ""));
                 ("DATE_OF_USE_quarter", Leaf (FStr ""));
                 ("DATE_OF_USE_datesel", Leaf (FStr "MONTH"));
                 ("DATE_OF_USE_month",
                  Leaf (FStr (Str.of_nat
                                (DateTime.month (Parser.date_time self)))));
                 ("DATE_OF_USE_year",
                  Leaf (FStr (DateTime.fmt_Y pads
                                (DateTime.year (Parser.date_time self)))))]);
          ("rows", Leaf (FStr "DATE_OF_USE"));
          ("preset_id", Leaf (FStr "tmp_filter"));
          ("name", Leaf (FStr label))])].

(** Lines 144 to 149: the request that stores the filter. *)
Definition store_filter_request (pads : bool) (label : string)
           (self : Parser.ParseVendors) (filter_id grid_id : string)
  : post_request :=
  PostRequest (Scraper.base_url ++ "/bitrix/services/main/ajax.php")
              [("mode", "ajax"); ("c", "bitrix:main.ui.filter");
               ("action", "setFilter")]
              (_flatten_dict (filter_data pads label self filter_id grid_id) "")
              [("X-Bitrix-Csrf-Token", Parser.session_id self)].

(** Lines 151 to 164: the request that applies it to the grid. *)
Definition apply_filter_request (self : Parser.ParseVendors) (grid_id : string)
  : post_request :=
  PostRequest (Scraper.base_url ++ "/sale/payout.php")
              [("sessid", Parser.session_id self);
               ("internal", "true");
               ("grid_id", grid_id);
               ("apply_filter", "Y");
               ("clear_nav", "Y");
               ("grid_action", "showpage");
               ("bxajaxid", ajax_id_payout)]
              [("apply_filter", FStr "Y"); ("clear_nav", FStr "Y")]
              [].

(** Lines 213 to 220 and 235 to 242. *)
Definition export_request (self : Parser.ParseVendors) (type : string)
  : Scraper.request :=
  Scraper.Request (Scraper.base_url ++ "/sale/payout.php")
                  [("export", "Y"); ("sessid", Parser.session_id self);
                   ("type", type)].

Section Session.

(** The portal and the network: a request followed by
    [raise_for_status] gives the body of the response or raises. *)
Variable World : Type.
Variable http : World -> http_call -> World * result string.

(** [strftime('%Y')] of the platform, and the value of ['name']. *)
Variable pads : bool.
Variable label : string.

(** The session with the requests it has sent, oldest first. *)
Record net : Type := Net { world : World; sent : list http_call }.

Definition session_send (n : net) (c : http_call) : net * result string :=
  let '(w, r) := http (world n) c in
  (Net w (sent n ++ [c])%list, r).

(** Lines 61 to 79: the session identifier, which the caller stores in
    [self.session_id]. *)
Definition auth (login password : option string) (n : net)
  : net * outcome string :=
  let '(n', r) := session_send n (Post (auth_request login password)) in
  match r with
  | Ok text =>
      match search_sessid (Str.chars text) with
      | Some id => (n', Returns id)
      | None => (n', Raises SessionIdNotFound)
      end
  | Raise RequestException => (n', Raises AuthenticationError)
  | Raise e => (n', Raises (Exn e))
  end.

(** Lines 39 to 49: [ParseVendors(date_time)], at the time [now]. *)
Definition init (date_time : option DateTime.datetime) (now : DateTime.datetime)
           (login password : option string) (n : net)
  : net * outcome Parser.ParseVendors :=
  let dt := match date_time with
            | Some d => d
            | None => now
            end in
  let '(n', r) := auth login password n in
  match r with
  | Returns id => (n', Returns (Parser.Self dt id))
  | Raises e => (n', Raises e)
  end.

(** Lines 81 to 103: the body of the response. *)
Definition _send_post_request (rq : post_request) (n : net)
  : net * result string :=
  session_send n (Post rq).

(** Lines 105 to 164. *)
Definition set_filter (self : Parser.ParseVendors) (filter_id grid_id : string)
           (n : net) : net * result unit :=
  let '(n1, f) :=
    _send_post_request (store_filter_request pads label self filter_id grid_id)
                       n in
  match f with
  | Raise e => (n1, Raise e)
  | Ok _ =>
      let '(n2, r) := _send_post_request (apply_filter_request self grid_id) n1 in
      match r with
      | Raise e => (n2, Raise e)
      | Ok _ => (n2, Ok tt)
      end
  end.

(** Lines 205 to 225. *)
Definition get_payments (self : Parser.ParseVendors) (n : net)
  : net * result (list Parser.payment) :=
  let '(n1, f) :=
    set_filter self "mp24_subscription_partner" "mp24_subscription_partner" n in
  match f with
  | Raise e => (n1, Raise e)
  | Ok _ =>
      let '(n2, r) := session_send n1 (Get (export_request self "payouts")) in
      match r with
      | Raise e => (n2, Raise e)
      | Ok text => (n2, Parser._parse_csv_payments pads self text false)
      end
  end.

(** Lines 227 to 247. *)
Definition get_premium_payments (self : Parser.ParseVendors) (n : net)
  : net * result (list Parser.payment) :=
  let '(n1, f) :=
    set_filter self "mp24_subscription_premium_for_partners"
               "mp24_subscription_premium_for_partners" n in
  match f with
  | Raise e => (n1, Raise e)
  | Ok _ =>
      let '(n2, r) :=
        session_send n1 (Get (export_request self "payouts_premium")) in
      match r with
      | Raise e => (n2, Raise e)
      | Ok text => (n2, Parser._parse_csv_payments pads self text true)
      end
  end.

End Session.

End Portal.

(* ------------------------------------------------------------------ *)
(** ** [index.py]: [handler] *)

Module Index.

Import Portal.

Definition chunk_size : nat := 100.

(** [range(0, n, chunk_size)] *)
Definition chunk_starts (n : nat) : list nat :=
  map (fun j => j * chunk_size) (seq 0 ((n + chunk_size - 1) / chunk_size)).

(** [[l[i:i + chunk_size] for i in range(0, len(l), chunk_size)]] *)
Definition chunks (A : Type) (l : list A) : list (list A) :=
  map (fun i => firstn chunk_size (skipn i l)) (chunk_starts (List.length l)).

(** Lines 9 to 12: the date of the event, when the event is a string
    that [strptime] reads; [None] stands for an event that is not a
    string. *)
Definition event_date (event : option string) : option DateTime.datetime :=
  match event with
  | Some s =>
      if String.eqb s "" then None
      else match DateTime.strptime s with
           | Ok d => Some d
           | Raise _ => None
           end
  | None => None
  end.

(** What [handler] returns. *)
Record response : Type := Response { statusCode : nat; body : string }.

Section Handler.

Variable World : Type.
Variable http : World -> http_call -> World * result string.
Variable pads : bool.
Variable label : string.
Variable float_repr : spec_float -> string.
Variable Store : Type.
Variable store_prepare : Store -> string -> Store * result unit.
Variable store_execute : Store -> string -> dict Py.value -> Store * result unit.

(** Lines 18 to 20 and 24 to 26: the chunks are sent one after the
    other, up to the first that raises. *)
Fixpoint upload (table : string) (batches : list (list Ydb.record))
         (s : Ydb.db Store) : Ydb.db Store * result unit :=
  match batches with
  | [] => (s, Ok tt)
  | chunk :: batches' =>
      let '(s', r) :=
        Ydb.upset_data float_repr store_prepare store_execute table chunk s in
      match r with
      | Raise e => (s', Raise e)
      | Ok _ => upload table batches' s'
      end
  end.

(** Lines 8 to 31; [now] is the time of the call, [login] and
    [password] the variables of the environment. *)
Definition handler (event : option string) (now : DateTime.datetime)
           (login password : option string)
           (n : Portal.net World) (s : Ydb.db Store)
  : Portal.net World * Ydb.db Store * outcome response :=
  let '(n0, p) := Portal.init World http (event_date event) now login password n in
  match p with
  | Raises e => (n0, s, Raises e)
  | Returns parser =>
      let '(n1, r1) := Portal.get_premium_payments World http pads label parser n0 in
      match r1 with
      | Raise e => (n1, s, Raises (Exn e))
      | Ok premium_payments =>
          let '(s1, u1) :=
            upload "payments_premium" (chunks Ydb.record premium_payments) s in
          match u1 with
          | Raise e => (n1, s1, Raises (Exn e))
          | Ok _ =>
              let '(n2, r2) := Portal.get_payments World http pads label parser n1 in
              match r2 with
              | Raise e => (n2, s1, Raises (Exn e))
              | Ok payments =>
                  let '(s2, u2) :=
                    upload "payments" (chunks Ydb.record payments) s1 in
                  match u2 with
                  | Raise e => (n2, s2, Raises (Exn e))
                  | Ok _ => (n2, s2, Returns (Response 200 "ok"))
                  end
              end
          end
      end
  end.

End Handler.

End Index.

(* ------------------------------------------------------------------ *)
(** ** Definitions of the statements on the rest of the code *)

(** [d] after the assignments [d[k] = v] of [items], in order. *)
Definition set_items (V : Type) (d : dict V) (items : list (string * V))
  : dict V :=
  fold_left (fun d kv => dict_set d (fst kv) (snd kv)) items d.

(** [text] holds the token of the session with the identifier [id]. *)
Definition has_token (text id : string) : Prop :=
  exists pre post,
    text = pre ++ Portal.sessid_prefix ++ id ++ String Portal.quote post.

(** A word of one or more of the characters [0-9a-f]. *)
Definition is_hex_word (id : string) : Prop :=
  id <> "" /\ forallb Portal.is_hex (Str.chars id) = true.

(** [actions] holds a call of [bx24vendorClients] on the number [id]. *)
Definition has_clients_call (actions id : string) : Prop :=
  exists pre post,
    actions = pre ++ "bx24vendorClients(" ++ id ++ String ")" post.

(** A word of one or more decimal digits. *)
Definition is_digit_word (id : string) : Prop :=
  id <> "" /\ forallb Str.is_digit (Str.chars id) = true.

(** A match of a fixed text, a word of one or more characters of the
    class [p] and the character [term] at the start of [l]: the word. *)
Definition match_word_here (prefix : list ascii) (p : ascii -> bool)
           (term : ascii) (l : list ascii) : option string :=
  match Scraper.strip_prefix prefix l with
  | Some r =>
      let '(hs, r') := Py.span p r in
      match hs, r' with
      | _ :: _, c :: _ => if Ascii.eqb c term then Some (Str.of_chars hs) else None
      | _, _ => None
      end
  | None => None
  end.

(** The three requests of a report, in the order of the code: the
    filter is stored, the filter is applied, the export is read. *)
Definition report_calls (pads : bool) (label : string)
           (self : Parser.ParseVendors) (filter_id type : string)
  : list Portal.http_call :=
  [Portal.Post (Portal.store_filter_request pads label self filter_id filter_id);
   Portal.Post (Portal.apply_filter_request self filter_id);
   Portal.Get (Portal.export_request self type)].

(** The replies of the portal to the requests [calls] sent one after the
    other from the state [w]. *)
Fixpoint replies_to (World : Type)
         (http : World -> Portal.http_call -> World * result string)
         (w : World) (calls : list Portal.http_call) : list (result string) :=
  match calls with
  | [] => []
  | c :: calls' =>
      let '(w', r) := http w c in r :: replies_to World http w' calls'
  end.

(** The calls a batch makes when both succeed: the statement built from
    the batch is prepared, then executed with its parameters. *)
Definition batch_calls (float_repr : spec_float -> string) (table : string)
           (data : list Ydb.record) : list Ydb.call :=
  match data with
  | [] => []
  | first :: _ =>
      match Ydb.build float_repr (keys first) data with
      | Ok st =>
          let query := Ydb.query_text table (keys first) st in
          [Ydb.Prepare query; Ydb.Execute query (Ydb.param_values st)]
      | Raise _ => []
      end
  end.

(** A portal for the examples: the login page holds a token, the
    filters are accepted, the export has one row. *)
Definition sample_login_page : string :=
  "{" ++ Portal.sessid_prefix ++ "0af9" ++ String Portal.quote "}".

Definition sample_export : string :=
  line "ID;MEMBER_ID;DATE_OF_USE;" ++ line "7;abc;15.07.2024;".

Definition sample_portal (w : nat) (c : Portal.http_call)
  : nat * result string :=
  (S w,
   match c with
   | Portal.Post rq =>
       if String.eqb (Portal.post_url rq) (Scraper.base_url ++ "/auth/")
       then Ok sample_login_page else Ok ""
   | Portal.Get _ => Ok sample_export
   end).

(** A portal that cannot be reached. *)
Definition offline_portal (w : nat) (c : Portal.http_call)
  : nat * result string :=
  (S w, Raise RequestException).

(** [handler] on the sample portal and the counting store. *)
Definition handler_sample
           (http : nat -> Portal.http_call -> nat * result string)
  : Portal.net nat * Ydb.db nat * Portal.outcome Index.response :=
  Index.handler nat http false "F" sample_float_repr nat
                counting_prepare counting_execute
                (Some "15.07.2024") (DateTime.Date 2024 7 16) None None
                (Portal.Net nat 0 []) (Ydb.Db 0 []).

(** The float Python writes [3.9]: [(3.9).hex()] is
    [0x1.f333333333333p+1]. *)
Definition float_3_9 : spec_float := Prim2SF 0x1.f333333333333p+1%float.

(** A record whose identifier is a float that is not an integer. *)
Definition batch_float_id : list Ydb.record :=
  [ [("ID", Py.VFloat float_3_9); ("NAME", Py.VStr "a")] ].

(** What becomes of a character of an amount before [float()] reads it:
    a blank goes, a comma becomes a period, another character stays. *)
Definition amount_char (c : ascii) : list ascii :=
  if Ascii.eqb c " " then []
  else if Ascii.eqb c "," then ["."%char]
  else [c].

(** A character that no integer literal holds: not a digit, not a sign,
    not an underscore, not a blank. *)
Definition foreign_to_int (c : ascii) : bool :=
  negb (Str.is_digit c || Ascii.eqb c "+" || Ascii.eqb c "-"
        || Py.is_underscore c || Str.is_number_space c).

(** A character that the reader takes as it is: not the delimiter, not
    the quote, not one of the two characters that end a line. *)
Definition plain_char (c : ascii) : bool :=
  negb (Ascii.eqb c Csv.delimiter || Ascii.eqb c Csv.quotechar
        || Csv.is_newline c).

(** A field made of such characters, within the limit of the reader. *)
Definition plain_field (f : string) : bool :=
  forallb plain_char (Str.chars f)
  && (Z.of_nat (String.length f) <=? Csv.field_limit)%Z.

(** A row of such fields: one field at least, and not the row of one
    empty field, which is written as an empty line. *)
Definition plain_row (row : list string) : bool :=
  match row with
  | [] => false
  | [f] => negb (String.eqb f "") && plain_field f
  | _ => forallb plain_field row
  end.

(** A row written as a line: the fields with the delimiter between
    them, then a line feed. *)
Definition export_line (row : list string) : string :=
  line (Str.join ";" row).

(** The rows written one line after the other. *)
Definition export_text (rows : list (list string)) : string :=
  fold_right (fun row s => export_line row ++ s) "" rows.

(** A listing record as the scrapers mean it: distinct keys, none of
    them empty, and values without blanks around them. *)
Definition clean_listing (r : Scraper.listing) : Prop :=
  wf_dict r
  /\ ~ In "" (keys r)
  /\ forall k v, dict_get r k = Some v -> Str.strip v = v.


(* ------------------------------------------------------------------ *)
(** ** The end-to-end scenario of the standard report *)

(** [float_1234_56] is the binary64 nearest to 1234.56, the float that
    Python writes [1234.56]: it is [m * 2^(-42)] with [m] of 53 bits and
    [|m * 2^(-42) - 123456/100| <= 2^(-43)]. *)
Lemma float_1234_56_nearest :
  exists m : positive,
    float_1234_56 = S754_finite false m (-42)
    /\ (2 ^ 52 <= Zpos m < 2 ^ 53)%Z
    /\ (Z.abs (100 * Zpos m - 123456 * 2 ^ 42) <= 50)%Z.
Proof.
  exists 5429652300748554%positive.
  split; [ vm_compute; reflexivity | ].
  split; [ split; vm_compute; congruence | vm_compute; congruence ].
Qed.

(** [float("1234.56")] is that float. *)
Lemma float_1234_56_literal :
  Py.float_of_string "1234.56" = Ok float_1234_56.
Proof. vm_compute. reflexivity. Qed.

(** C3, as the specification states it, fails: the record read from the
    scenario's export is not the one with the four fields. *)
Lemma scenario_record_lacks_X :
  Parser._parse_csv_payments true run_2024_07_15 scenario_body false
  <> Ok [scenario_record].
Proof. vm_compute. intro H. discriminate H. Qed.

(* ------------------------------------------------------------------ *)
(** ** Dictionaries: reading after writing *)

Section DictFacts.
Variable V : Type.
Implicit Types (d : dict V) (k : string) (v : V).

Lemma dict_get_set_same d k v : dict_get (dict_set d k v) k = Some v.
Proof.
  induction d as [|[k' v'] d IH]; simpl.
  - now rewrite String.eqb_refl.
  - destruct (String.eqb k' k) eqn:E; simpl.
    + now rewrite String.eqb_refl.
    + now rewrite E.
Qed.

Lemma dict_get_set_other d k k' v :
  k <> k' -> dict_get (dict_set d k v) k' = dict_get d k'.
Proof.
  intros Hne.
  induction d as [|[k0 v0] d IH]; simpl.
  - destruct (String.eqb k k') eqn:E; [ apply String.eqb_eq in E; contradiction | reflexivity ].
  - destruct (String.eqb k0 k) eqn:E; simpl.
    + apply String.eqb_eq in E. subst k0.
      destruct (String.eqb k k') eqn:E'; [ apply String.eqb_eq in E'; contradiction | reflexivity ].
    + now rewrite IH.
Qed.

Lemma dict_get_app d d' k :
  dict_get (d ++ d')%list k =
  match dict_get d k with
  | Some v => Some v
  | None => dict_get d' k
  end.
Proof.
  induction d as [|[k0 v0] d IH]; simpl; [ reflexivity | ].
  destruct (String.eqb k0 k); [ reflexivity | apply IH ].
Qed.

Lemma keys_dict_set_new d k v :
  ~ In k (keys d) -> dict_set d k v = (d ++ [(k, v)])%list.
Proof.
  induction d as [|[k0 v0] d IH]; simpl; [ reflexivity | ].
  intros Hn.
  destruct (String.eqb k0 k) eqn:E.
  - apply String.eqb_eq in E. tauto.
  - f_equal. apply IH. tauto.
Qed.

Lemma dict_get_none_iff d k : dict_get d k = None <-> ~ In k (keys d).
Proof.
  induction d as [|[k0 v0] d IH]; simpl; [ tauto | ].
  destruct (String.eqb k0 k) eqn:E.
  - apply String.eqb_eq in E. split; [ discriminate | tauto ].
  - apply String.eqb_neq in E. rewrite IH. tauto.
Qed.

End DictFacts.

(** Writing the pairs of [kvs] one after the other: a key reads as the
    last value written for it, or as before when none was written. *)
Lemma dict_get_fold_set (V : Type) (f : string -> string -> V)
      (kvs : list (string * string)) :
  forall (d : dict V) (k : string),
    dict_get (fold_left (fun p kv => dict_set p (fst kv) (f (fst kv) (snd kv)))
                        kvs d) k
    = match dict_get (List.rev kvs) k with
      | Some x => Some (f k x)
      | None => dict_get d k
      end.
Proof.
  induction kvs as [|[k0 x0] kvs IH]; intros d k; simpl; [ reflexivity | ].
  rewrite IH, dict_get_app. simpl.
  destruct (dict_get (List.rev kvs) k); [ reflexivity | ].
  destruct (String.eqb k0 k) eqn:E.
  - apply String.eqb_eq in E. subst k0. apply dict_get_set_same.
  - apply String.eqb_neq in E. now apply dict_get_set_other.
Qed.

(* ------------------------------------------------------------------ *)
(** ** The loop of [_parse_csv_payments] *)

Lemma float_of_string_raises (s : string) (e : exn) :
  Py.float_of_string s = Raise e -> e = ValueError (InvalidFloatLiteral s).
Proof.
  unfold Py.float_of_string.
  destruct (Py.drop_underscores None _) as [l|]; [ | congruence ].
  destruct (Py.parse_float_literal l); congruence.
Qed.

Lemma strptime_raises (s : string) (e : exn) :
  DateTime.strptime s = Raise e -> exists why, e = ValueError why.
Proof.
  unfold DateTime.strptime.
  destruct (DateTime.regex_match _) as [[[[d m] y] r]|].
  - destruct r; [ | intros H; injection H as <-; eauto ].
    destruct (DateTime.valid _); [ discriminate | ].
    intros H; injection H as <-; eauto.
  - intros H; injection H as <-; eauto.
Qed.

(** A conversion that fails fails with a [ValueError]: the handler of
    line 191 takes it. *)
Lemma convert_raises (pads : bool) (key value : string) (e : exn) :
  Parser.convert pads key value = Raise e ->
  Parser.is_value_or_type_error e = true.
Proof.
  unfold Parser.convert.
  destruct (mem key Parser.amount_keys).
  - destruct (Py.float_of_string _) eqn:E; simpl; [ discriminate | ].
    intros H; injection H as <-.
    apply float_of_string_raises in E. now subst.
  - destruct (mem key Parser.date_keys); [ | discriminate ].
    destruct (DateTime.strptime value) eqn:E; simpl; [ discriminate | ].
    intros H; injection H as <-.
    apply strptime_raises in E. destruct E as [why ->]. reflexivity.
Qed.

Lemma set_field_ok (pads : bool) (p : Parser.payment) (key value : string) :
  Parser.set_field pads p key value
  = Ok (dict_set p key (field_value pads key value)).
Proof.
  unfold Parser.set_field, field_value.
  destruct (Parser.convert pads key value) eqn:E; [ reflexivity | ].
  now rewrite (convert_raises _ _ _ _ E).
Qed.

Lemma fill_payment_ok (pads : bool) (kvs : list (string * string)) :
  forall p : Parser.payment,
    Parser.fill_payment pads p kvs
    = Ok (fold_left (fun p kv => dict_set p (fst kv)
                                          (field_value pads (fst kv) (snd kv)))
                    kvs p).
Proof.
  induction kvs as [|[key value] kvs IH]; intros p; simpl; [ reflexivity | ].
  rewrite set_field_ok. simpl. apply IH.
Qed.

(** A field outside the amounts is a string. *)
Lemma field_value_string (pads : bool) (key value : string) :
  mem key Parser.amount_keys = false ->
  exists s, field_value pads key value = Py.VStr s.
Proof.
  intros Hk. unfold field_value, Parser.convert. rewrite Hk.
  destruct (mem key Parser.date_keys); simpl; [ | eauto ].
  destruct (DateTime.strptime value); simpl; eauto.
Qed.

(** Where a record has a key, the header has it, and the record holds
    the value of [field_value] for the last field of the row under that
    key. *)
Lemma record_of_get (pads : bool) (header row : list string) (key : string) :
  dict_get (record_of pads header row) key
  = option_map (field_value pads key)
               (dict_get (List.rev (combine header row)) key).
Proof.
  unfold record_of. rewrite dict_get_fold_set. simpl.
  now destruct (dict_get _ key).
Qed.

Lemma record_of_string (pads : bool) (header row : list string)
      (key : string) (v : Py.value) :
  mem key Parser.amount_keys = false ->
  dict_get (record_of pads header row) key = Some v ->
  exists s, v = Py.VStr s.
Proof.
  intros Hk. rewrite record_of_get.
  destruct (dict_get _ key) as [x|]; simpl; [ | discriminate ].
  intros H; injection H as <-. now apply field_value_string.
Qed.

Lemma parse_rows_standard (pads : bool) (self : Parser.ParseVendors)
      (header : list string) (rows : list (list string)) :
  forall acc : list Parser.payment,
    Parser.parse_rows pads self false header rows acc
    = Ok (acc ++ filter Parser.has_id
                        (map (record_of pads header) (data_rows rows)))%list.
Proof.
  induction rows as [|row rows IH]; intros acc; simpl.
  - now rewrite app_nil_r.
  - destruct (List.length row <=? 1) eqn:E; simpl; [ apply IH | ].
    rewrite fill_payment_ok. simpl. fold (record_of pads header row).
    destruct (Parser.has_id (record_of pads header row)).
    + rewrite IH, <- app_assoc. reflexivity.
    + apply IH.
Qed.

Lemma add_premium_fields_ok (pads : bool) (self : Parser.ParseVendors)
      (p : Parser.payment) (m : string) :
  dict_get p "MEMBER_ID" = Some (Py.VStr m) ->
  Parser.add_premium_fields pads self p = Ok (premium_of pads self p).
Proof.
  intros Hm.
  unfold Parser.add_premium_fields, Parser.concat_member, dict_item,
    premium_of, member_of.
  rewrite Hm. reflexivity.
Qed.

Lemma add_premium_fields_missing (pads : bool) (self : Parser.ParseVendors)
      (p : Parser.payment) :
  dict_get p "MEMBER_ID" = None ->
  Parser.add_premium_fields pads self p = Raise (KeyError "MEMBER_ID").
Proof.
  intros Hm.
  unfold Parser.add_premium_fields, Parser.concat_member, dict_item.
  now rewrite Hm.
Qed.

Lemma record_of_member (pads : bool) (header row : list string) :
  reaches_member header row ->
  exists m, dict_get (record_of pads header row) "MEMBER_ID" = Some (Py.VStr m).
Proof.
  intros Hin.
  destruct (dict_get (record_of pads header row) "MEMBER_ID") as [v|] eqn:E.
  - destruct (record_of_string pads header row "MEMBER_ID" v eq_refl E) as [s ->]. eauto.
  - exfalso. rewrite record_of_get in E.
    destruct (dict_get (List.rev (combine header row)) "MEMBER_ID") eqn:E';
      [ discriminate | ].
    apply dict_get_none_iff in E'. apply E'.
    unfold keys. rewrite map_rev. now apply -> in_rev.
Qed.

Lemma parse_rows_premium (pads : bool) (self : Parser.ParseVendors)
      (header : list string) (rows : list (list string)) :
  Forall (reaches_member header) (data_rows rows) ->
  forall acc : list Parser.payment,
    Parser.parse_rows pads self true header rows acc
    = Ok (acc ++ map (fun row => premium_of pads self (record_of pads header row))
                     (data_rows rows))%list.
Proof.
  induction rows as [|row rows IH]; intros Hall acc; simpl.
  - now rewrite app_nil_r.
  - unfold data_rows in Hall. simpl in Hall.
    destruct (List.length row <=? 1) eqn:E; simpl in *; [ now apply IH | ].
    inversion Hall as [|? ? Hrow Hrest]; subst.
    rewrite fill_payment_ok. simpl. fold (record_of pads header row).
    destruct (record_of_member pads _ _ Hrow) as [m Hm].
    rewrite (add_premium_fields_ok _ _ _ _ Hm). simpl.
    rewrite (IH Hrest), <- app_assoc. reflexivity.
Qed.

Lemma record_of_no_member (pads : bool) (header row : list string) :
  ~ reaches_member header row ->
  dict_get (record_of pads header row) "MEMBER_ID" = None.
Proof.
  intros Hn. rewrite record_of_get.
  assert (E : dict_get (List.rev (combine header row)) "MEMBER_ID" = None).
  { apply dict_get_none_iff. unfold keys. rewrite map_rev, <- in_rev. exact Hn. }
  now rewrite E.
Qed.

(** The first data row that does not reach the column [MEMBER_ID] makes
    the loop raise [KeyError]. *)
Lemma parse_rows_premium_raise (pads : bool) (self : Parser.ParseVendors)
      (header : list string) (rows : list (list string)) :
  Exists (fun row => ~ reaches_member header row) (data_rows rows) ->
  forall acc : list Parser.payment,
    Parser.parse_rows pads self true header rows acc
    = Raise (KeyError "MEMBER_ID").
Proof.
  induction rows as [|row rows IH]; intros Hex acc; simpl.
  - inversion Hex.
  - unfold data_rows in Hex. simpl in Hex.
    destruct (List.length row <=? 1) eqn:E; simpl in *; [ now apply IH | ].
    rewrite fill_payment_ok. simpl. fold (record_of pads header row).
    destruct (in_dec string_dec "MEMBER_ID" (map fst (combine header row)))
      as [Hin | Hnin].
    + destruct (record_of_member pads _ _ Hin) as [m Hm].
      rewrite (add_premium_fields_ok _ _ _ _ Hm). simpl.
      apply IH. inversion Hex as [? ? Hrow | ? ? Hrest]; subst;
        [ contradiction | exact Hrest ].
    + rewrite (add_premium_fields_missing _ _ _
                 (record_of_no_member pads header row Hnin)).
      reflexivity.
Qed.

(* ------------------------------------------------------------------ *)
(** ** Decimal numerals *)

Lemma chars_app (a b : string) :
  Str.chars (a ++ b) = (Str.chars a ++ Str.chars b)%list.
Proof.
  unfold Str.chars. induction a as [|c a IH]; simpl; [ reflexivity | now rewrite IH ].
Qed.

Lemma chars_of_chars (l : list ascii) : Str.chars (Str.of_chars l) = l.
Proof. apply list_ascii_of_string_of_list_ascii. Qed.

Lemma chars_inj (a b : string) : Str.chars a = Str.chars b -> a = b.
Proof.
  intros H. unfold Str.chars in H.
  rewrite <- (string_of_list_ascii_of_string a), <- (string_of_list_ascii_of_string b).
  now rewrite H.
Qed.

Lemma uint_digits (d : Decimal.uint) :
  Forall (fun c => Str.is_digit c = true)
         (Str.chars (DecimalString.NilEmpty.string_of_uint d)).
Proof.
  induction d; simpl; constructor; auto.
Qed.

Lemma uint_value (d : Decimal.uint) :
  forall acc : nat,
    fold_left (fun acc c => 10 * acc + Str.digit_value c)
              (Str.chars (DecimalString.NilEmpty.string_of_uint d)) acc
    = Nat.of_uint_acc d acc.
Proof.
  induction d; intros acc; simpl; try reflexivity;
    rewrite IHd; f_equal; rewrite Nat.tail_mul_spec;
    unfold Str.digit_value, Str.code; simpl; lia.
Qed.

Lemma of_nat_digits (n : nat) :
  Forall (fun c => Str.is_digit c = true) (Str.chars (Str.of_nat n)).
Proof. apply uint_digits. Qed.

(** Reading the numeral of [n] gives [n]. *)
Lemma of_nat_value (n : nat) : Str.nat_of_digits (Str.chars (Str.of_nat n)) = n.
Proof.
  unfold Str.nat_of_digits, Str.of_nat. rewrite uint_value.
  apply DecimalNat.Unsigned.of_to.
Qed.

Lemma of_nat_inj (n m : nat) : Str.of_nat n = Str.of_nat m -> n = m.
Proof.
  intros H. rewrite <- (of_nat_value n), <- (of_nat_value m). now rewrite H.
Qed.

Lemma zeros_value (k : nat) (l : list ascii) :
  Str.nat_of_digits (repeat "0"%char k ++ l) = Str.nat_of_digits l.
Proof.
  unfold Str.nat_of_digits. rewrite fold_left_app.
  f_equal. induction k; simpl; auto.
Qed.

Lemma zero_pad_chars (w n : nat) :
  Str.chars (Str.zero_pad w n)
  = (repeat "0"%char (w - String.length (Str.of_nat n))
       ++ Str.chars (Str.of_nat n))%list.
Proof.
  unfold Str.zero_pad. now rewrite chars_app, chars_of_chars.
Qed.

Lemma zero_pad_value (w n : nat) :
  Str.nat_of_digits (Str.chars (Str.zero_pad w n)) = n.
Proof. rewrite zero_pad_chars, zeros_value. apply of_nat_value. Qed.

Lemma zero_pad_inj (w n m : nat) : Str.zero_pad w n = Str.zero_pad w m -> n = m.
Proof.
  intros H. rewrite <- (zero_pad_value w n), <- (zero_pad_value w m).
  now rewrite H.
Qed.

Lemma zero_pad_digits (w n : nat) :
  Forall (fun c => Str.is_digit c = true) (Str.chars (Str.zero_pad w n)).
Proof.
  rewrite zero_pad_chars. apply Forall_app. split.
  - apply Forall_forall. intros c Hc. apply repeat_spec in Hc. now subst.
  - apply of_nat_digits.
Qed.

Lemma fmt_Y_digits (pads : bool) (y : nat) :
  Forall (fun c => Str.is_digit c = true) (Str.chars (DateTime.fmt_Y pads y)).
Proof. destruct pads; [ apply zero_pad_digits | apply of_nat_digits ]. Qed.

Lemma fmt_Y_inj (pads : bool) (y y' : nat) :
  DateTime.fmt_Y pads y = DateTime.fmt_Y pads y' -> y = y'.
Proof. destruct pads; [ apply zero_pad_inj | apply of_nat_inj ]. Qed.

Lemma split_at_first (sep : ascii) (u : list ascii) :
  forall v x y : list ascii,
    ~ In sep u -> ~ In sep v ->
    (u ++ sep :: x = v ++ sep :: y)%list -> u = v /\ x = y.
Proof.
  induction u as [|c u IH]; intros [|c' v] x y Hu Hv H; simpl in *.
  - injection H as ->. auto.
  - injection H as -> _. tauto.
  - injection H as <- _. tauto.
  - injection H as -> H.
    destruct (IH v x y) as [-> ->]; auto.
Qed.

(** Two texts that end with a separator and a run of other characters
    are equal only when the runs are equal and what stands before the
    separators is. *)
Lemma split_at_last (sep : ascii) (a b x y : list ascii) :
  ~ In sep a -> ~ In sep b ->
  (x ++ sep :: a = y ++ sep :: b)%list -> x = y /\ a = b.
Proof.
  intros Ha Hb H.
  assert (Hr : (List.rev a ++ sep :: List.rev x
                = List.rev b ++ sep :: List.rev y)%list).
  { apply (f_equal (@List.rev ascii)) in H.
    rewrite !rev_app_distr in H. simpl in H. now rewrite <- !app_assoc in H. }
  apply split_at_first in Hr; try (now rewrite <- in_rev).
  destruct Hr as [H1 H2].
  apply (f_equal (@List.rev ascii)) in H1, H2.
  rewrite !rev_involutive in H1, H2. auto.
Qed.

Lemma digits_no_dash (l : list ascii) :
  Forall (fun c => Str.is_digit c = true) l -> ~ In "-"%char l.
Proof.
  intros H Hin. rewrite Forall_forall in H. specialize (H _ Hin). discriminate H.
Qed.

(** The hashed string tells the member identifier, the month and the
    year. *)
Lemma hash_input_inj (pads : bool) (m m' : string) (d d' : DateTime.datetime) :
  hash_input pads m d = hash_input pads m' d' ->
  m = m' /\ DateTime.month d = DateTime.month d'
  /\ DateTime.year d = DateTime.year d'.
Proof.
  unfold hash_input. intros H.
  apply (f_equal Str.chars) in H.
  rewrite !chars_app in H.
  change (Str.chars "-") with ["-"%char] in H.
  change (Str.chars "01-") with ["0"%char; "1"%char; "-"%char] in H.
  set (mm := Str.chars (DateTime.fmt_2 (DateTime.month d))) in *.
  set (mm' := Str.chars (DateTime.fmt_2 (DateTime.month d'))) in *.
  set (yy := Str.chars (DateTime.fmt_Y pads (DateTime.year d))) in *.
  set (yy' := Str.chars (DateTime.fmt_Y pads (DateTime.year d'))) in *.
  assert (H1 : ((Str.chars m ++ ["0"%char; "1"%char; "-"%char] ++ mm)
                  ++ "-"%char :: yy
                = (Str.chars m' ++ ["0"%char; "1"%char; "-"%char] ++ mm')
                  ++ "-"%char :: yy')%list).
  { rewrite <- !app_assoc. exact H. }
  apply split_at_last in H1; try (apply digits_no_dash, fmt_Y_digits).
  destruct H1 as [H1 Hy].
  apply chars_inj, fmt_Y_inj in Hy.
  assert (H2 : ((Str.chars m ++ ["0"%char; "1"%char]) ++ "-"%char :: mm
                = (Str.chars m' ++ ["0"%char; "1"%char]) ++ "-"%char :: mm')%list).
  { rewrite <- !app_assoc. exact H1. }
  apply split_at_last in H2; try (apply digits_no_dash, zero_pad_digits).
  destruct H2 as [Hm Hmm].
  apply chars_inj, zero_pad_inj in Hmm.
  apply app_inv_tail in Hm. apply chars_inj in Hm. auto.
Qed.

(* ------------------------------------------------------------------ *)
(** ** The reports *)

(** C9: an export that the reader reads as a header row followed by no
    data row (no row of more than one field) gives the empty list of
    records, in the standard and in the premium mode, and raises
    nothing. *)
Theorem header_only_gives_no_record :
  forall (pads : bool) (self : Parser.ParseVendors) (content : string)
         (is_premium : bool) (hdr : list string) (rows : list (list string)),
    Csv.reader_rows content = (hdr :: rows, None) ->
    data_rows rows = [] ->
    Parser._parse_csv_payments pads self content is_premium = Ok [].
Proof.
  intros pads self content is_premium hdr rows Hread Hnone.
  unfold Parser._parse_csv_payments. rewrite Hread.
  destruct is_premium.
  - rewrite parse_rows_premium; rewrite Hnone; [ reflexivity | constructor ].
  - rewrite parse_rows_standard, Hnone. reflexivity.
Qed.

Lemma header_only_gives_no_record_witness :
  Csv.reader_rows (line "ID;AMOUNT;DATE_OF_USE;X")
  = ([["ID"; "AMOUNT"; "DATE_OF_USE"; "X"]], None)
  /\ Parser._parse_csv_payments true run_2024_07_15
       (line "ID;AMOUNT;DATE_OF_USE;X") true = Ok [].
Proof.
  split; [ vm_compute; reflexivity | ].
  apply (header_only_gives_no_record true run_2024_07_15
           (line "ID;AMOUNT;DATE_OF_USE;X") true
           ["ID"; "AMOUNT"; "DATE_OF_USE"; "X"] []);
    vm_compute; reflexivity.
Defined.

(** C5: in the standard report the records returned are, in the order
    of the export, the records of the data rows that hold a non-empty
    string under [ID].  Whether another field could be converted plays
    no part: each field of a record is the converted value of the row's
    field, or the raw string of that field when its conversion raises,
    and the other fields are not touched. *)
Theorem standard_report_keeps_rows_with_id :
  forall (pads : bool) (self : Parser.ParseVendors) (content : string)
         (hdr : list string) (rows : list (list string)),
    Csv.reader_rows content = (hdr :: rows, None) ->
    let header := removelast hdr in
    Parser._parse_csv_payments pads self content false
    = Ok (filter Parser.has_id (map (record_of pads header) (data_rows rows)))
    /\ (forall row,
           Parser.has_id (record_of pads header row) = true
           <-> exists s, dict_get (record_of pads header row) "ID"
                         = Some (Py.VStr s) /\ s <> "")
    /\ (forall row key,
           dict_get (record_of pads header row) key
           = option_map (field_value pads key)
                        (dict_get (List.rev (combine header row)) key))
    /\ (forall key value e,
           Parser.convert pads key value = Raise e ->
           field_value pads key value = Py.VStr value)
    /\ (forall key value v,
           Parser.convert pads key value = Ok v ->
           field_value pads key value = v).
Proof.
  intros pads self content hdr rows Hread header.
  split; [ | split; [ | split; [ | split ] ] ].
  - unfold Parser._parse_csv_payments. rewrite Hread.
    fold header. rewrite parse_rows_standard. reflexivity.
  - intros row. unfold Parser.has_id.
    destruct (dict_get (record_of pads header row) "ID") as [v|] eqn:E.
    + destruct (record_of_string pads header row "ID" v eq_refl E) as [s ->].
      simpl. split.
      * intros H. exists s. split; [ reflexivity | ].
        intros ->. discriminate H.
      * intros [s' [H Hne]]. injection H as <-.
        destruct (String.eqb s "") eqn:Es; [ | reflexivity ].
        apply String.eqb_eq in Es. contradiction.
    + split; [ discriminate | intros [s [H _]]; discriminate H ].
  - intros row key. apply record_of_get.
  - intros key value e H. unfold field_value. now rewrite H.
  - intros key value v H. unfold field_value. now rewrite H.
Qed.

Lemma standard_report_keeps_rows_with_id_witness :
  Parser._parse_csv_payments true run_2024_07_15
    (line "ID;AMOUNT;X;" ++ line "7;1,5;a;" ++ line ";2,5;b;" ++ line "8;n/a;c;")
    false
  = Ok [ [("ID", Py.VStr "7");
          ("AMOUNT", Py.VFloat (S754_finite false 6755399441055744 (-52)));
          ("X", Py.VStr "a")];
         [("ID", Py.VStr "8"); ("AMOUNT", Py.VStr "n/a"); ("X", Py.VStr "c")] ].
Proof.
  pose proof (standard_report_keeps_rows_with_id true run_2024_07_15
                (line "ID;AMOUNT;X;" ++ line "7;1,5;a;" ++ line ";2,5;b;"
                      ++ line "8;n/a;c;")
                ["ID"; "AMOUNT"; "X"; ""]
                [["7"; "1,5"; "a"; ""]; [""; "2,5"; "b"; ""];
                 ["8"; "n/a"; "c"; ""]]
                eq_refl) as H.
  destruct H as [H _]. rewrite H. vm_compute. reflexivity.
Defined.

(** C6, as the specification states it, fails: a premium export whose
    rows have no [MEMBER_ID] column keeps no row, the parser raises
    [KeyError]. *)
Lemma premium_report_without_member_raises :
  Parser._parse_csv_payments true run_2024_07_15
    (line "ID;AMOUNT;" ++ line "42;1 234,56;") true
  = Raise (KeyError "MEMBER_ID").
Proof. vm_compute. reflexivity. Qed.

(** C6, amended: in the premium report, when every data row has a field
    under the column [MEMBER_ID], every data row gives a record of the
    result, in the order of the export and with no test on [ID]; the
    record has the fields of the row and, written last, [hash], the
    SHA-256 in hexadecimal of the member identifier followed by [01-],
    the month of the run on two digits, [-] and the year of the run, and
    [DATE_PARSE], the year of the run, [-], its month on two digits and
    [-01].  When some data row has no field under [MEMBER_ID], the
    parser raises [KeyError] and returns no record. *)
Theorem premium_report_keeps_every_row :
  forall (pads : bool) (self : Parser.ParseVendors) (content : string)
         (hdr : list string) (rows : list (list string)),
    Csv.reader_rows content = (hdr :: rows, None) ->
    let header := removelast hdr in
    (Forall (reaches_member header) (data_rows rows) ->
     Parser._parse_csv_payments pads self content true
     = Ok (map (fun row => premium_of pads self (record_of pads header row))
               (data_rows rows)))
    /\ (Exists (fun row => ~ reaches_member header row) (data_rows rows) ->
        Parser._parse_csv_payments pads self content true
        = Raise (KeyError "MEMBER_ID"))
    /\ (forall row,
           reaches_member header row ->
           let p := premium_of pads self (record_of pads header row) in
           (exists m,
               dict_get (record_of pads header row) "MEMBER_ID"
               = Some (Py.VStr m)
               /\ dict_get p "hash"
                  = Some (Py.VStr (Sha256.hexdigest
                                     (hash_input pads m (Parser.date_time self)))))
           /\ dict_get p "DATE_PARSE"
              = Some (Py.VStr (period pads (Parser.date_time self)))
           /\ (forall key,
                  key <> "hash" -> key <> "DATE_PARSE" ->
                  dict_get p key = dict_get (record_of pads header row) key)).
Proof.
  intros pads self content hdr rows Hread header.
  split; [ | split ].
  - intros Hall. unfold Parser._parse_csv_payments. rewrite Hread. fold header.
    rewrite (parse_rows_premium pads self header rows Hall). reflexivity.
  - intros Hex. unfold Parser._parse_csv_payments. rewrite Hread. fold header.
    rewrite (parse_rows_premium_raise pads self header rows Hex). reflexivity.
  - intros row Hreach p.
    destruct (record_of_member pads header row Hreach) as [m Hm].
    subst p. unfold premium_of. split; [ | split ].
    + exists m. split; [ exact Hm | ].
      rewrite dict_get_set_other by discriminate.
      rewrite dict_get_set_same. unfold member_of. now rewrite Hm.
    + apply dict_get_set_same.
    + intros key Hh Hd.
      rewrite dict_get_set_other by congruence.
      apply dict_get_set_other. congruence.
Qed.

Lemma premium_report_keeps_every_row_witness :
  Parser._parse_csv_payments true run_2024_07_15
    (line "MEMBER_ID;AMOUNT;" ++ line "42;1 234,56;" ++ line "43;;") true
  = Ok [ [("MEMBER_ID", Py.VStr "42"); ("AMOUNT", Py.VFloat float_1234_56);
          ("hash", Py.VStr (Sha256.hexdigest "4201-07-2024"));
          ("DATE_PARSE", Py.VStr "2024-07-01")];
         [("MEMBER_ID", Py.VStr "43"); ("AMOUNT", Py.VStr "");
          ("hash", Py.VStr (Sha256.hexdigest "4301-07-2024"));
          ("DATE_PARSE", Py.VStr "2024-07-01")] ].
Proof.
  assert (Hall : Forall (reaches_member ["MEMBER_ID"; "AMOUNT"])
                        (data_rows [["42"; "1 234,56"; ""]; ["43"; ""; ""]])).
  { repeat constructor. }
  pose proof (premium_report_keeps_every_row true run_2024_07_15
                (line "MEMBER_ID;AMOUNT;" ++ line "42;1 234,56;" ++ line "43;;")
                ["MEMBER_ID"; "AMOUNT"; ""]
                [["42"; "1 234,56"; ""]; ["43"; ""; ""]]
                eq_refl) as H.
  destruct H as [H _]. rewrite (H Hall). vm_compute. reflexivity.
Defined.

(* ------------------------------------------------------------------ *)
(** ** The hash of a premium record *)

Lemma premium_hash_ok (pads : bool) (self : Parser.ParseVendors) (m : string) :
  premium_hash pads self m
  = Ok (Py.VStr (Sha256.hexdigest (hash_input pads m (Parser.date_time self)))).
Proof. reflexivity. Qed.

(** C4, as the specification states it, fails: two runs whose reference
    dates differ by the day only give the same [hash] to a member. *)
Lemma premium_hash_same_within_month :
  Parser.date_time run_2024_07_15 <> Parser.date_time run_2024_07_16
  /\ premium_hash true run_2024_07_15 "42" = premium_hash true run_2024_07_16 "42".
Proof. split; [ discriminate | reflexivity ]. Qed.

(** C4, amended: the [hash] field of a premium record is the SHA-256, in
    hexadecimal, of the member identifier followed by [01-], the month of
    the run on two digits, [-] and the year of the run.  It is a function
    of the member identifier, the month and the year: runs of the same
    month and year give the same hash, whatever the day.  The hashed
    string differs as soon as the member identifier, the month or the
    year differs, so that hashes differ then unless SHA-256 collides.
    For the member [42] and a run of 15 July 2024 the hash is the digest
    of [4201-07-2024]. *)
Theorem premium_hash_is_sha256_of_member_and_month :
  forall (pads : bool) (self : Parser.ParseVendors) (p : Parser.payment)
         (m : string),
    dict_get p "MEMBER_ID" = Some (Py.VStr m) ->
    let d := Parser.date_time self in
    (exists p',
        Parser.add_premium_fields pads self p = Ok p'
        /\ dict_get p' "hash"
           = Some (Py.VStr
                     (Sha256.hexdigest
                        (m ++ "01-" ++ Str.zero_pad 2 (DateTime.month d) ++ "-"
                           ++ DateTime.fmt_Y pads (DateTime.year d)))))
    /\ premium_hash pads self m
       = Ok (Py.VStr (Sha256.hexdigest (hash_input pads m d)))
    /\ (forall self',
           DateTime.month (Parser.date_time self') = DateTime.month d ->
           DateTime.year (Parser.date_time self') = DateTime.year d ->
           premium_hash pads self' m = premium_hash pads self m)
    /\ (forall self' m',
           hash_input pads m' (Parser.date_time self') = hash_input pads m d
           <-> m' = m
               /\ DateTime.month (Parser.date_time self') = DateTime.month d
               /\ DateTime.year (Parser.date_time self') = DateTime.year d)
    /\ premium_hash pads run_2024_07_15 "42"
       = Ok (Py.VStr (Sha256.hexdigest "4201-07-2024"))
    /\ Sha256.hexdigest "4201-07-2024"
       = "664a375b0958a6a57fe1cfab5cd608a40359ce20a9c583ff58f98e2f4a065e3c".
Proof.
  intros pads self p m Hm d.
  split; [ | split; [ | split; [ | split; [ | split ] ] ] ].
  - exists (premium_of pads self p). split.
    + now apply add_premium_fields_ok with m.
    + unfold premium_of. rewrite dict_get_set_other by discriminate.
      rewrite dict_get_set_same. unfold member_of. rewrite Hm. reflexivity.
  - apply premium_hash_ok.
  - intros self' Hmo Hy. rewrite !premium_hash_ok.
    unfold hash_input. fold d. now rewrite Hmo, Hy.
  - intros self' m'. split.
    + apply hash_input_inj.
    + intros [-> [Hmo Hy]]. unfold hash_input. fold d. now rewrite Hmo, Hy.
  - rewrite premium_hash_ok. destruct pads; reflexivity.
  - vm_compute. reflexivity.
Qed.

Lemma premium_hash_is_sha256_of_member_and_month_witness :
  dict_get [("MEMBER_ID", Py.VStr "42"); ("AMOUNT", Py.VStr "n/a")] "MEMBER_ID"
  = Some (Py.VStr "42")
  /\ premium_hash false run_2024_07_15 "42"
     = Ok (Py.VStr
             "664a375b0958a6a57fe1cfab5cd608a40359ce20a9c583ff58f98e2f4a065e3c").
Proof.
  split; [ reflexivity | ].
  pose proof (premium_hash_is_sha256_of_member_and_month false run_2024_07_15
                [("MEMBER_ID", Py.VStr "42"); ("AMOUNT", Py.VStr "n/a")] "42"
                eq_refl) as H.
  destruct H as [_ [H _]]. rewrite H. vm_compute. reflexivity.
Defined.

(* ------------------------------------------------------------------ *)
(** ** The paginated scrapers *)

Lemma firstn_seq (k a n : nat) : firstn k (seq a n) = seq a (Nat.min k n).
Proof.
  revert a n. induction k as [|k IH]; intros a [|n]; simpl; try reflexivity.
  now rewrite IH.
Qed.

Section ScrapeFacts.

Variable World : Type.
Variable http_get : World -> Scraper.request -> World * result string.
Variable A : Type.
Variable req : nat -> Scraper.request.
Variable page_step : string -> Scraper.step A.

Local Abbreviation scrape := (@Scraper.scrape World http_get A req page_step).
Local Abbreviation net := (Scraper.net World).

(** The loop sends the requests of the first pages, in order, and no
    other: at most one for each page. *)
Lemma scrape_sent (pages : list nat) :
  forall (n : net) (acc : list A),
  exists k,
    k <= List.length pages
    /\ Scraper.sent (fst (scrape pages n acc))
       = (Scraper.sent n ++ map req (firstn k pages))%list.
Proof.
  induction pages as [|page pages IH]; intros n acc.
  - exists 0. simpl. split; [ lia | now rewrite app_nil_r ].
  - simpl. unfold Scraper.session_get.
    destruct (http_get (Scraper.world n) (req page)) as [w r].
    set (n' := Scraper.Net w (Scraper.sent n ++ [req page])).
    assert (Hone : exists k, k <= S (List.length pages)
                     /\ Scraper.sent n'
                        = (Scraper.sent n
                             ++ map req (firstn k (page :: pages)))%list).
    { exists 1. split; [ lia | reflexivity ]. }
    destruct r as [text | e].
    + destruct (page_step text) as [ | rows | e ]; simpl; try exact Hone.
      destruct (IH n' (acc ++ rows)%list) as [k [Hk Hs]].
      exists (S k). split; [ lia | ].
      rewrite Hs. subst n'. simpl. now rewrite <- app_assoc.
    + destruct e; simpl; exact Hone.
Qed.

(** When the answers to the first pages hold populated tables and the
    next answer does not, the loop stops there: it has sent the requests
    up to that page and returns the rows of the pages before, or raises
    what the page raises. *)
Lemma scrape_stop (pages : list nat) :
  forall (n : net) (acc : list A) (pre post : list (result string))
         (r : result string) (rowss : list (list A)),
    replies World http_get req pages (Scraper.world n)
    = (pre ++ r :: post)%list ->
    map (populated A page_step) pre = map Some rowss ->
    populated A page_step r = None ->
    exists w,
      scrape pages n acc
      = (Scraper.Net w
           (Scraper.sent n
              ++ map req (firstn (S (List.length pre)) pages))%list,
         stop_outcome A page_step r (acc ++ List.concat rowss)%list).
Proof.
  induction pages as [|page pages IH]; intros n acc pre post r rowss Hr Hp Hstop.
  - destruct pre; discriminate Hr.
  - simpl in Hr. simpl. unfold Scraper.session_get.
    destruct (http_get (Scraper.world n) (req page)) as [w r0].
    destruct pre as [|r1 pre]; simpl in Hr.
    + injection Hr as -> _. destruct rowss; [ | discriminate Hp ].
      exists w. simpl. rewrite app_nil_r.
      unfold populated in Hstop. unfold stop_outcome.
      destruct r as [text | e].
      * destruct (page_step text); [ reflexivity | discriminate Hstop | reflexivity ].
      * destruct e; reflexivity.
    + injection Hr as <- Hr.
      destruct rowss as [|rows rowss]; [ discriminate Hp | ].
      simpl in Hp. injection Hp as Hrow Hp.
      unfold populated in Hrow.
      destruct r0 as [text | e]; [ | discriminate Hrow ].
      destruct (page_step text) as [ | rows' | e ]; try discriminate Hrow.
      injection Hrow as ->.
      destruct (IH (Scraper.Net w (Scraper.sent n ++ [req page]))
                   (acc ++ rows)%list pre post r rowss Hr Hp Hstop) as [w' Hs].
      exists w'. rewrite Hs. simpl. now rewrite <- !app_assoc.
Qed.

(** When every answer holds a populated table, the loop sends the
    request of every page and returns the rows of all of them. *)
Lemma scrape_populated (pages : list nat) :
  forall (n : net) (acc : list A) (rowss : list (list A)),
    map (populated A page_step)
        (replies World http_get req pages (Scraper.world n))
    = map Some rowss ->
    exists w,
      scrape pages n acc
      = (Scraper.Net w (Scraper.sent n ++ map req pages)%list,
         Ok (acc ++ List.concat rowss)%list)
      /\ List.length rowss = List.length pages.
Proof.
  induction pages as [|page pages IH]; intros n acc rowss Hp.
  - destruct rowss; [ | discriminate Hp ].
    exists (Scraper.world n). simpl. rewrite !app_nil_r.
    now destruct n.
  - simpl in Hp. simpl. unfold Scraper.session_get.
    destruct (http_get (Scraper.world n) (req page)) as [w r].
    destruct rowss as [|rows rowss]; [ discriminate Hp | ].
    simpl in Hp. injection Hp as Hrow Hp.
    unfold populated in Hrow.
    destruct r as [text | e]; [ | discriminate Hrow ].
    destruct (page_step text) as [ | rows' | e ]; try discriminate Hrow.
    injection Hrow as ->.
    destruct (IH (Scraper.Net w (Scraper.sent n ++ [req page]))
                 (acc ++ rows)%list rowss Hp) as [w' [Hs Hl]].
    exists w'. rewrite Hs. simpl. rewrite <- !app_assoc. simpl.
    split; [ reflexivity | now rewrite Hl ].
Qed.

Lemma scrape_stop_result (pages : list nat) (n : net) (acc : list A)
      (pre post : list (result string)) (r : result string)
      (rowss : list (list A)) :
  replies World http_get req pages (Scraper.world n)
  = (pre ++ r :: post)%list ->
  map (populated A page_step) pre = map Some rowss ->
  populated A page_step r = None ->
  snd (scrape pages n acc)
  = stop_outcome A page_step r (acc ++ List.concat rowss)%list
  /\ Scraper.sent (fst (scrape pages n acc))
     = (Scraper.sent n ++ map req (firstn (S (List.length pre)) pages))%list.
Proof.
  intros Hr Hp Hstop.
  destruct (scrape_stop pages n acc pre post r rowss Hr Hp Hstop) as [w Hs].
  rewrite Hs. split; reflexivity.
Qed.

Lemma scrape_populated_result (pages : list nat) (n : net) (acc : list A)
      (rowss : list (list A)) :
  map (populated A page_step)
      (replies World http_get req pages (Scraper.world n))
  = map Some rowss ->
  snd (scrape pages n acc) = Ok (acc ++ List.concat rowss)%list
  /\ Scraper.sent (fst (scrape pages n acc))
     = (Scraper.sent n ++ map req pages)%list
  /\ List.length rowss = List.length pages.
Proof.
  intros Hp.
  destruct (scrape_populated pages n acc rowss Hp) as [w [Hs Hl]].
  rewrite Hs. split; [ reflexivity | split; [ reflexivity | exact Hl ] ].
Qed.

End ScrapeFacts.

Lemma replies_length (World : Type)
      (http_get : World -> Scraper.request -> World * result string)
      (req : nat -> Scraper.request) (pages : list nat) :
  forall w : World,
    List.length (replies World http_get req pages w) = List.length pages.
Proof.
  induction pages as [|page pages IH]; intros w; simpl; [ reflexivity | ].
  destruct (http_get w (req page)) as [w' r]. simpl. now rewrite IH.
Qed.

Lemma page_range_length : List.length Scraper.page_range = Scraper.max_pages.
Proof. apply length_seq. Qed.

Lemma firstn_page_range (k : nat) :
  k <= Scraper.max_pages -> firstn k Scraper.page_range = seq 1 k.
Proof.
  intros Hk. unfold Scraper.page_range. rewrite firstn_seq.
  now rewrite Nat.min_l.
Qed.

Section Scrapers.

Variable World : Type.
Variable http_get : World -> Scraper.request -> World * result string.
Variable soup_app_table : string -> option Scraper.app_table.
Variable soup_client_table : string -> option Scraper.client_table.

Local Abbreviation app_step :=
  (fun text : string => Scraper.app_page (soup_app_table text)).
Local Abbreviation client_step :=
  (fun text : string => Scraper.client_page (soup_client_table text)).
Local Abbreviation get_app_list :=
  (Scraper.get_app_list http_get soup_app_table).
Local Abbreviation get_client_list :=
  (Scraper.get_client_list http_get soup_client_table).

(** C7: whatever the portal answers, [get_app_list] and
    [get_client_list] send at most [max_pages] (100) requests, those of
    the pages 1, 2, ... in this order.  When every answer holds a
    populated table, they send the requests of the pages 1 to 100, stop
    there, and return the rows of these 100 pages, in order.  When the
    answer to a page holds no populated table, they stop at that page and
    return the rows of the pages before it, unless the answer makes them
    raise (an exception of the request that is not a
    [RequestException], or a table without [thead] in [get_app_list]). *)
Theorem scrapers_stop_at_max_pages :
  forall (self : Parser.ParseVendors) (app_id : string)
         (n : Scraper.net World),
    let app := get_app_list self n in
    let cli := get_client_list app_id n in
    let app_replies :=
      replies World http_get (Scraper.app_list_request self)
              Scraper.page_range (Scraper.world n) in
    let cli_replies :=
      replies World http_get (Scraper.client_list_request app_id)
              Scraper.page_range (Scraper.world n) in
    (exists k,
        k <= Scraper.max_pages
        /\ Scraper.sent (fst app)
           = (Scraper.sent n
                ++ map (Scraper.app_list_request self) (seq 1 k))%list)
    /\ (exists k,
           k <= Scraper.max_pages
           /\ Scraper.sent (fst cli)
              = (Scraper.sent n
                   ++ map (Scraper.client_list_request app_id) (seq 1 k))%list)
    /\ (forall rowss,
           map (populated Scraper.listing app_step) app_replies
           = map Some rowss ->
           snd app = Ok (List.concat rowss)
           /\ Scraper.sent (fst app)
              = (Scraper.sent n
                   ++ map (Scraper.app_list_request self)
                          (seq 1 Scraper.max_pages))%list
           /\ List.length rowss = Scraper.max_pages)
    /\ (forall rowss,
           map (populated Scraper.listing client_step) cli_replies
           = map Some rowss ->
           snd cli = Ok (List.concat rowss)
           /\ Scraper.sent (fst cli)
              = (Scraper.sent n
                   ++ map (Scraper.client_list_request app_id)
                          (seq 1 Scraper.max_pages))%list
           /\ List.length rowss = Scraper.max_pages)
    /\ (forall pre r post rowss,
           app_replies = (pre ++ r :: post)%list ->
           map (populated Scraper.listing app_step) pre = map Some rowss ->
           populated Scraper.listing app_step r = None ->
           snd app
           = stop_outcome Scraper.listing app_step r (List.concat rowss)
           /\ Scraper.sent (fst app)
              = (Scraper.sent n
                   ++ map (Scraper.app_list_request self)
                          (seq 1 (S (List.length pre))))%list)
    /\ (forall pre r post rowss,
           cli_replies = (pre ++ r :: post)%list ->
           map (populated Scraper.listing client_step) pre = map Some rowss ->
           populated Scraper.listing client_step r = None ->
           snd cli
           = stop_outcome Scraper.listing client_step r (List.concat rowss)
           /\ Scraper.sent (fst cli)
              = (Scraper.sent n
                   ++ map (Scraper.client_list_request app_id)
                          (seq 1 (S (List.length pre))))%list).
Proof.
  intros self app_id n app cli app_replies cli_replies.
  assert (Hlen : forall (req : nat -> Scraper.request)
                        (pre post : list (result string)) (r : result string),
             replies World http_get req Scraper.page_range (Scraper.world n)
             = (pre ++ r :: post)%list ->
             S (List.length pre) <= Scraper.max_pages).
  { intros req pre post r Hr.
    apply (f_equal (@List.length _)) in Hr.
    rewrite replies_length, page_range_length, length_app in Hr.
    simpl in Hr. lia. }
  split; [ | split; [ | split; [ | split; [ | split ] ] ] ].
  - destruct (scrape_sent World http_get Scraper.listing
                (Scraper.app_list_request self) app_step
                Scraper.page_range n []) as [k [Hk Hs]].
    rewrite page_range_length in Hk. exists k. split; [ exact Hk | ].
    rewrite <- (firstn_page_range k Hk). exact Hs.
  - destruct (scrape_sent World http_get Scraper.listing
                (Scraper.client_list_request app_id) client_step
                Scraper.page_range n []) as [k [Hk Hs]].
    rewrite page_range_length in Hk. exists k. split; [ exact Hk | ].
    rewrite <- (firstn_page_range k Hk). exact Hs.
  - intros rowss Hp.
    destruct (scrape_populated_result World http_get Scraper.listing
                (Scraper.app_list_request self) app_step
                Scraper.page_range n [] rowss Hp) as [H1 [H2 H3]].
    rewrite page_range_length in H3. auto.
  - intros rowss Hp.
    destruct (scrape_populated_result World http_get Scraper.listing
                (Scraper.client_list_request app_id) client_step
                Scraper.page_range n [] rowss Hp) as [H1 [H2 H3]].
    rewrite page_range_length in H3. auto.
  - intros pre r post rowss Hr Hp Hstop.
    destruct (scrape_stop_result World http_get Scraper.listing
                (Scraper.app_list_request self) app_step
                Scraper.page_range n [] pre post r rowss Hr Hp Hstop)
      as [H1 H2].
    rewrite (firstn_page_range _ (Hlen _ pre post r Hr)) in H2. auto.
  - intros pre r post rowss Hr Hp Hstop.
    destruct (scrape_stop_result World http_get Scraper.listing
                (Scraper.client_list_request app_id) client_step
                Scraper.page_range n [] pre post r rowss Hr Hp Hstop)
      as [H1 H2].
    rewrite (firstn_page_range _ (Hlen _ pre post r Hr)) in H2. auto.
Qed.

(** C8: when the answers to the pages 1 to k-1 hold populated tables and
    the request of page k meets a transport failure
    ([requests.RequestException]), [get_app_list] and [get_client_list]
    raise nothing: they stop at page k and return the rows of the pages
    1 to k-1.  Here k-1 is the length of [pre]. *)
Theorem transport_failure_returns_partial_rows :
  forall (self : Parser.ParseVendors) (app_id : string)
         (n : Scraper.net World)
         (pre post : list (result string)) (rowss : list (list Scraper.listing)),
    (replies World http_get (Scraper.app_list_request self)
             Scraper.page_range (Scraper.world n)
     = (pre ++ Raise RequestException :: post)%list ->
     map (populated Scraper.listing app_step) pre = map Some rowss ->
     snd (get_app_list self n) = Ok (List.concat rowss)
     /\ Scraper.sent (fst (get_app_list self n))
        = (Scraper.sent n
             ++ map (Scraper.app_list_request self)
                    (seq 1 (S (List.length pre))))%list)
    /\ (replies World http_get (Scraper.client_list_request app_id)
                Scraper.page_range (Scraper.world n)
        = (pre ++ Raise RequestException :: post)%list ->
        map (populated Scraper.listing client_step) pre = map Some rowss ->
        snd (get_client_list app_id n) = Ok (List.concat rowss)
        /\ Scraper.sent (fst (get_client_list app_id n))
           = (Scraper.sent n
                ++ map (Scraper.client_list_request app_id)
                       (seq 1 (S (List.length pre))))%list).
Proof.
  intros self app_id n pre post rowss.
  split; intros Hr Hp.
  - assert (Hk : S (List.length pre) <= Scraper.max_pages).
    { apply (f_equal (@List.length _)) in Hr.
      rewrite replies_length, page_range_length, length_app in Hr.
      simpl in Hr. lia. }
    destruct (scrape_stop_result World http_get Scraper.listing
                (Scraper.app_list_request self) app_step
                Scraper.page_range n [] pre post (Raise RequestException)
                rowss Hr Hp eq_refl) as [H1 H2].
    rewrite (firstn_page_range _ Hk) in H2. auto.
  - assert (Hk : S (List.length pre) <= Scraper.max_pages).
    { apply (f_equal (@List.length _)) in Hr.
      rewrite replies_length, page_range_length, length_app in Hr.
      simpl in Hr. lia. }
    destruct (scrape_stop_result World http_get Scraper.listing
                (Scraper.client_list_request app_id) client_step
                Scraper.page_range n [] pre post (Raise RequestException)
                rowss Hr Hp eq_refl) as [H1 H2].
    rewrite (firstn_page_range _ Hk) in H2. auto.
Qed.

End Scrapers.

Lemma scrapers_stop_at_max_pages_witness :
  snd (Scraper.get_app_list endless_portal endless_app_table
         run_2024_07_15 (Scraper.Net 0 []))
  = Ok (List.concat (repeat endless_app_rows 100))
  /\ snd (Scraper.get_client_list endless_portal endless_client_table
            "17" (Scraper.Net 0 []))
     = Ok (List.concat (repeat endless_client_rows 100))
  /\ List.length
       (Scraper.sent
          (fst (Scraper.get_app_list endless_portal endless_app_table
                  run_2024_07_15 (Scraper.Net 0 []))))
     = 100.
Proof.
  pose proof (scrapers_stop_at_max_pages nat endless_portal endless_app_table
                endless_client_table run_2024_07_15 "17" (Scraper.Net 0 []))
    as [_ [_ [Happ [Hcli _]]]].
  specialize (Happ (repeat endless_app_rows 100)).
  specialize (Hcli (repeat endless_client_rows 100)).
  destruct Happ as [H1 [H2 _]]; [ vm_compute; reflexivity | ].
  destruct Hcli as [H3 _]; [ vm_compute; reflexivity | ].
  split; [ exact H1 | split; [ exact H3 | ] ].
  rewrite H2. vm_compute. reflexivity.
Defined.

Lemma transport_failure_returns_partial_rows_witness :
  snd (Scraper.get_app_list failing_portal endless_app_table
         run_2024_07_15 (Scraper.Net 0 []))
  = Ok (endless_app_rows ++ endless_app_rows)%list
  /\ snd (Scraper.get_client_list failing_portal endless_client_table
            "17" (Scraper.Net 0 []))
     = Ok (endless_client_rows ++ endless_client_rows)%list
  /\ Scraper.sent
       (fst (Scraper.get_client_list failing_portal endless_client_table
               "17" (Scraper.Net 0 [])))
     = map (Scraper.client_list_request "17") [1; 2; 3].
Proof.
  pose proof (transport_failure_returns_partial_rows nat failing_portal
                endless_app_table endless_client_table run_2024_07_15 "17"
                (Scraper.Net 0 []) [Ok "page"; Ok "page"]
                (repeat (Ok "page") 97)) as H.
  destruct (H [endless_app_rows; endless_app_rows]) as [Happ _].
  destruct (H [endless_client_rows; endless_client_rows]) as [_ Hcli].
  destruct Happ as [H1 _]; [ vm_compute; reflexivity | vm_compute; reflexivity | ].
  destruct Hcli as [H2 H3]; [ vm_compute; reflexivity | vm_compute; reflexivity | ].
  split; [ exact H1 | split; [ exact H2 | exact H3 ] ].
Defined.

(* ------------------------------------------------------------------ *)
(** ** Names of parameters and sets of keys *)

Lemma digits_no_underscore (l : list ascii) :
  Forall (fun c => Str.is_digit c = true) l -> ~ In "_"%char l.
Proof.
  intros H Hin. rewrite Forall_forall in H. specialize (H _ Hin). discriminate H.
Qed.

(** Two cells of a batch have the same parameter name only when they
    are the same cell. *)
Lemma param_name_inj (c c' : string) (i i' : nat) :
  Ydb.param_name c i = Ydb.param_name c' i' -> c = c' /\ i = i'.
Proof.
  unfold Ydb.param_name. intros H.
  apply (f_equal Str.chars) in H.
  rewrite !chars_app in H.
  change (Str.chars "$") with ["$"%char] in H.
  change (Str.chars "_") with ["_"%char] in H.
  simpl in H. injection H as H.
  apply split_at_last in H; try (apply digits_no_underscore, of_nat_digits).
  destruct H as [Hc Hi].
  apply chars_inj in Hc. apply chars_inj, of_nat_inj in Hi. auto.
Qed.

Lemma mem_spec (k : string) (l : list string) : mem k l = true <-> In k l.
Proof.
  unfold mem. rewrite existsb_exists. split.
  - intros [x [Hin E]]. apply String.eqb_eq in E. now subst.
  - intros Hin. exists k. split; [ exact Hin | apply String.eqb_refl ].
Qed.

(** [set(a) == set(b)] holds when [a] and [b] have the same elements,
    in whatever order. *)
Lemma set_eqb_spec (a b : list string) :
  set_eqb a b = true <-> (forall k, In k a <-> In k b).
Proof.
  unfold set_eqb. rewrite andb_true_iff, !forallb_forall. split.
  - intros [Hab Hba] k. split; intros Hin.
    + apply mem_spec, Hab, Hin.
    + apply mem_spec, Hba, Hin.
  - intros H. split; intros k Hin; apply mem_spec, H, Hin.
Qed.

Lemma same_structure_false (columns : list string) (data : list Ydb.record) :
  Ydb.same_structure columns data = false
  <-> exists item,
      In item data /\ ~ (forall k, In k (keys item) <-> In k columns).
Proof.
  unfold Ydb.same_structure. split.
  - intros H.
    induction data as [|item data IH]; simpl in H; [ discriminate | ].
    apply andb_false_iff in H. destruct H as [H | H].
    + exists item. split; [ now left | ].
      rewrite <- set_eqb_spec. now rewrite H.
    + destruct (IH H) as [it [Hin Hne]]. exists it. split; [ now right | exact Hne ].
  - intros [item [Hin Hne]].
    apply not_true_is_false. intros E.
    rewrite forallb_forall in E. specialize (E item Hin).
    apply Hne. exact (proj1 (set_eqb_spec _ _) E).
Qed.

Lemma same_structure_true (columns : list string) (data : list Ydb.record) :
  Ydb.same_structure columns data = true
  <-> forall item, In item data -> forall k, In k (keys item) <-> In k columns.
Proof.
  unfold Ydb.same_structure. rewrite forallb_forall. split.
  - intros H item Hin. exact (proj1 (set_eqb_spec _ _) (H item Hin)).
  - intros H item Hin. exact (proj2 (set_eqb_spec _ _) (H item Hin)).
Qed.

(** [col.upper() == "ID"] holds for the four spellings of [ID]. *)
Lemma is_id_spec (col : string) :
  Ydb.is_id col = true <-> col = "ID" \/ col = "Id" \/ col = "iD" \/ col = "id".
Proof.
  split.
  - unfold Ydb.is_id, Str.upper. intros H. apply String.eqb_eq in H.
    apply (f_equal Str.chars) in H. rewrite chars_of_chars in H.
    rewrite <- (string_of_list_ascii_of_string col).
    fold (Str.chars col).
    destruct (Str.chars col) as [|a [|b [|c l]]]; try discriminate H.
    simpl in H. injection H as Ha Hb.
    assert (Hi : a = "I"%char \/ a = "i"%char).
    { clear Hb. destruct a as [[] [] [] [] [] [] [] []]; try discriminate Ha; auto. }
    assert (Hd : b = "D"%char \/ b = "d"%char).
    { clear Ha. destruct b as [[] [] [] [] [] [] [] []]; try discriminate Hb; auto. }
    destruct Hi as [-> | ->], Hd as [-> | ->]; simpl; auto.
  - intros [-> | [-> | [-> | ->]]]; reflexivity.
Qed.

(* ------------------------------------------------------------------ *)
(** ** Assignments to fresh keys *)

Lemma set_all_app (d : dict Py.value) (a b : list (string * Py.value)) :
  set_all d (a ++ b) = set_all (set_all d a) b.
Proof. unfold set_all. apply fold_left_app. Qed.

Lemma keys_set_all_fresh (kvs : list (string * Py.value)) :
  forall d : dict Py.value,
    NoDup (map fst kvs) ->
    (forall k, In k (map fst kvs) -> ~ In k (keys d)) ->
    keys (set_all d kvs) = (keys d ++ map fst kvs)%list.
Proof.
  induction kvs as [|[k v] kvs IH]; intros d Hnd Hfresh; simpl.
  - now rewrite app_nil_r.
  - inversion Hnd as [|? ? Hk Hnd']; subst.
    rewrite keys_dict_set_new by (apply Hfresh; now left).
    rewrite IH; [ | exact Hnd' | ].
    + unfold keys. rewrite map_app. simpl. now rewrite <- app_assoc.
    + intros k' Hin Hin'. unfold keys in Hin'. rewrite map_app in Hin'.
      apply in_app_or in Hin'. destruct Hin' as [Hin' | [<- | []]].
      * apply (Hfresh k'); [ now right | exact Hin' ].
      * contradiction.
Qed.

Lemma dict_get_set_all_other (kvs : list (string * Py.value)) :
  forall (d : dict Py.value) (k : string),
    ~ In k (map fst kvs) -> dict_get (set_all d kvs) k = dict_get d k.
Proof.
  induction kvs as [|[k0 v0] kvs IH]; intros d k Hk; simpl; [ reflexivity | ].
  rewrite IH by (intros H; apply Hk; now right).
  apply dict_get_set_other. intros ->. apply Hk. now left.
Qed.

Lemma dict_get_set_all (kvs : list (string * Py.value)) :
  forall (d : dict Py.value) (k : string) (v : Py.value),
    NoDup (map fst kvs) -> In (k, v) kvs ->
    dict_get (set_all d kvs) k = Some v.
Proof.
  induction kvs as [|[k0 v0] kvs IH]; intros d k v Hnd Hin; simpl; [ destruct Hin | ].
  inversion Hnd as [|? ? Hk Hnd']; subst.
  destruct Hin as [E | Hin].
  - injection E as -> ->.
    rewrite dict_get_set_all_other by exact Hk.
    apply dict_get_set_same.
  - now apply IH.
Qed.

Lemma NoDup_append (A : Type) (l l' : list A) :
  NoDup l -> NoDup l' -> (forall x, In x l -> ~ In x l') -> NoDup (l ++ l').
Proof.
  induction l as [|a l IH]; intros Hl Hl' Hd; simpl; [ exact Hl' | ].
  inversion Hl as [|? ? Ha Hl1]; subst. constructor.
  - intros Hin. apply in_app_or in Hin. destruct Hin as [Hin | Hin].
    + contradiction.
    + apply (Hd a); [ now left | exact Hin ].
  - apply IH; [ exact Hl1 | exact Hl' | ].
    intros x Hx. apply Hd. now right.
Qed.

Lemma in_names_of (columns : list string) (i : nat) (x : string) :
  In x (names_of columns i) <-> exists c, In c columns /\ x = Ydb.param_name c i.
Proof.
  unfold names_of. rewrite in_map_iff. split; intros [c [H1 H2]]; exists c; auto.
Qed.

Lemma in_all_names (columns : list string) (i n : nat) (x : string) :
  In x (all_names columns i n)
  <-> exists c j, In c columns /\ i <= j < i + n /\ x = Ydb.param_name c j.
Proof.
  unfold all_names. rewrite in_flat_map. split.
  - intros [j [Hj Hx]]. apply in_seq in Hj. apply in_names_of in Hx.
    destruct Hx as [c [Hc ->]]. exists c, j. auto.
  - intros [c [j [Hc [Hj ->]]]]. exists j. split.
    + now apply in_seq.
    + apply in_names_of. eauto.
Qed.

Lemma NoDup_names_of (columns : list string) (i : nat) :
  NoDup columns -> NoDup (names_of columns i).
Proof.
  unfold names_of. induction 1 as [|c l Hc Hl IH]; simpl; constructor; auto.
  rewrite in_map_iff. intros [c' [E Hin]].
  apply param_name_inj in E. destruct E as [-> _]. contradiction.
Qed.

(** The names of the parameters of a batch are pairwise distinct. *)
Lemma NoDup_all_names (columns : list string) (n : nat) :
  NoDup columns -> forall i, NoDup (all_names columns i n).
Proof.
  intros Hc. induction n as [|n IH]; intros i; [ constructor | ].
  change (all_names columns i (S n))
    with (names_of columns i ++ all_names columns (S i) n)%list.
  apply NoDup_append; [ now apply NoDup_names_of | apply IH | ].
  intros x Hx Hx'. apply in_names_of in Hx. destruct Hx as [c [_ ->]].
  apply in_all_names in Hx'. destruct Hx' as [c' [j [_ [Hj E]]]].
  apply param_name_inj in E. lia.
Qed.

Lemma length_all_names (columns : list string) (n : nat) :
  forall i, List.length (all_names columns i n) = n * List.length columns.
Proof.
  induction n as [|n IH]; intros i; [ reflexivity | ].
  change (all_names columns i (S n))
    with (names_of columns i ++ all_names columns (S i) n)%list.
  rewrite length_app, IH. unfold names_of. rewrite length_map. reflexivity.
Qed.

Lemma length_declares (columns : list string) (n : nat) :
  forall i,
    List.length (flat_map (declares_of columns) (seq i n))
    = n * List.length columns.
Proof.
  induction n as [|n IH]; intros i; [ reflexivity | ].
  simpl. rewrite length_app, IH. unfold declares_of. rewrite length_map.
  reflexivity.
Qed.

Lemma map_fst_combine (A B : Type) (a : list A) :
  forall b : list B, List.length a = List.length b -> map fst (combine a b) = a.
Proof.
  induction a as [|x a IH]; intros [|y b] H; simpl in *; try discriminate;
    [ reflexivity | ].
  f_equal. apply IH. now injection H.
Qed.

Lemma map_fst_cells (columns : list string) (vss : list (list Py.value)) :
  Forall (fun vs => List.length vs = List.length columns) vss ->
  forall i, map fst (cells columns i vss) = all_names columns i (List.length vss).
Proof.
  induction 1 as [|vs vss Hvs Hall IH]; intros i; [ reflexivity | ].
  simpl. rewrite map_app, IH, map_fst_combine; [ reflexivity | ].
  unfold names_of. now rewrite length_map.
Qed.

(* ------------------------------------------------------------------ *)
(** ** The construction of the statement *)

Section Construction.

Variable float_repr : spec_float -> string.

Local Abbreviation param_value := (Ydb.param_value float_repr).
Local Abbreviation bind_columns := (Ydb.bind_columns float_repr).
Local Abbreviation bind_rows := (Ydb.bind_rows float_repr).
Local Abbreviation build := (Ydb.build float_repr).

Local Abbreviation row_values := (row_values float_repr).

Lemma bind_columns_closed (i : nat) (row : Ydb.record) (cols : list string) :
  forall (st : Ydb.statement) (bv : list string)
         (st' : Ydb.statement) (bv' : list string),
    bind_columns i row cols st bv = Ok (st', bv') ->
    Ydb.declare_block st' = (Ydb.declare_block st ++ declares_of cols i)%list
    /\ Ydb.bind_vars_rows st' = Ydb.bind_vars_rows st
    /\ bv' = (bv ++ names_of cols i)%list
    /\ exists vs,
        row_values row cols vs
        /\ Ydb.param_values st'
           = set_all (Ydb.param_values st) (combine (names_of cols i) vs).
Proof.
  induction cols as [|c cols IH]; intros st bv st' bv' H; simpl in H.
  - injection H as <- <-. rewrite !app_nil_r.
    repeat split. exists []. split; [ constructor | reflexivity ].
  - destruct (param_value c row) as [v|e] eqn:E; simpl in H; [ | discriminate H ].
    apply IH in H. simpl in H.
    destruct H as [Hd [Hb [Hbv [vs [Hvs Hpv]]]]].
    split; [ rewrite Hd, <- app_assoc; reflexivity | ].
    split; [ exact Hb | ].
    split; [ rewrite Hbv, <- app_assoc; reflexivity | ].
    exists (v :: vs). split; [ constructor; assumption | exact Hpv ].
Qed.

Lemma bind_rows_closed (columns : list string) (rows : list Ydb.record) :
  forall (i : nat) (st st' : Ydb.statement),
    bind_rows columns i rows st = Ok st' ->
    Ydb.declare_block st'
    = (Ydb.declare_block st
         ++ flat_map (declares_of columns) (seq i (List.length rows)))%list
    /\ Ydb.bind_vars_rows st'
       = (Ydb.bind_vars_rows st
            ++ map (fun j => Ydb.tuple_text (names_of columns j))
                   (seq i (List.length rows)))%list
    /\ exists vss,
        Forall2 (fun row vs => row_values row columns vs) rows vss
        /\ Ydb.param_values st'
           = set_all (Ydb.param_values st) (cells columns i vss).
Proof.
  induction rows as [|row rows IH]; intros i st st' H; simpl in H.
  - injection H as <-. simpl. rewrite !app_nil_r.
    repeat split. exists []. split; [ constructor | reflexivity ].
  - destruct (bind_columns i row columns st []) as [[st1 bv]|e] eqn:E;
      simpl in H; [ | discriminate H ].
    apply bind_columns_closed in E.
    destruct E as [Hd [Hb [Hbv [vs [Hvs Hpv]]]]].
    apply IH in H. simpl in H.
    destruct H as [Hd' [Hb' [vss [Hvss Hpv']]]].
    split; [ | split ].
    + rewrite Hd', Hd. simpl. now rewrite <- app_assoc.
    + rewrite Hb', Hb, Hbv. simpl. now rewrite <- app_assoc.
    + exists (vs :: vss). split; [ constructor; assumption | ].
      rewrite Hpv', Hpv. simpl. now rewrite set_all_app.
Qed.

Lemma bind_columns_total (i : nat) (row : Ydb.record) (cols : list string) :
  Forall (fun c => exists v, param_value c row = Ok v) cols ->
  forall (st : Ydb.statement) (bv : list string),
  exists r, bind_columns i row cols st bv = Ok r.
Proof.
  induction 1 as [|c cols [v Hv] Hall IH]; intros st bv; simpl.
  - eauto.
  - rewrite Hv. simpl. apply IH.
Qed.

Lemma bind_rows_total (columns : list string) (rows : list Ydb.record) :
  Forall (fun row => Forall (fun c => exists v, param_value c row = Ok v) columns)
         rows ->
  forall (i : nat) (st : Ydb.statement),
  exists st', bind_rows columns i rows st = Ok st'.
Proof.
  induction 1 as [|row rows Hrow Hall IH]; intros i st; simpl.
  - eauto.
  - destruct (bind_columns_total i row columns Hrow st []) as [[st1 bv] E].
    rewrite E. simpl. apply IH.
Qed.

Lemma bind_columns_raise (i : nat) (row : Ydb.record) (cols : list string) :
  Exists (fun c => exists e, param_value c row = Raise e) cols ->
  forall (st : Ydb.statement) (bv : list string),
  exists e, bind_columns i row cols st bv = Raise e.
Proof.
  induction 1 as [c cols [e He] | c cols Hex IH]; intros st bv; simpl.
  - rewrite He. simpl. eauto.
  - destruct (param_value c row) as [v|e]; simpl; [ apply IH | eauto ].
Qed.

Lemma bind_rows_raise (columns : list string) (rows : list Ydb.record) :
  Exists (fun row => Exists (fun c => exists e, param_value c row = Raise e)
                            columns) rows ->
  forall (i : nat) (st : Ydb.statement),
  exists e, bind_rows columns i rows st = Raise e.
Proof.
  induction 1 as [row rows Hrow | row rows Hex IH]; intros i st; simpl.
  - destruct (bind_columns_raise i row columns Hrow st []) as [e E].
    rewrite E. simpl. eauto.
  - destruct (bind_columns i row columns st []) as [[st1 bv]|e]; simpl;
      [ apply IH | eauto ].
Qed.

Lemma row_values_length (row : Ydb.record) (cols : list string)
      (vs : list Py.value) :
  row_values row cols vs -> List.length vs = List.length cols.
Proof. intros H. symmetry. exact (Forall2_length H). Qed.

Lemma row_values_lengths (columns : list string) (rows : list Ydb.record)
      (vss : list (list Py.value)) :
  Forall2 (fun row vs => row_values row columns vs) rows vss ->
  Forall (fun vs => List.length vs = List.length columns) vss.
Proof.
  induction 1 as [|row vs rows vss Hrv _ IH]; constructor.
  - now apply row_values_length with row.
  - exact IH.
Qed.

Lemma row_values_in (row : Ydb.record) (cols : list string)
      (vs : list Py.value) (i : nat) (c : string) :
  row_values row cols vs -> In c cols ->
  exists v, param_value c row = Ok v
            /\ In (Ydb.param_name c i, v) (combine (names_of cols i) vs).
Proof.
  induction 1 as [|c0 v0 cols vs Hcv _ IH]; intros Hc; [ destruct Hc | ].
  destruct Hc as [-> | Hc].
  - exists v0. split; [ exact Hcv | now left ].
  - destruct (IH Hc) as [v [Hv Hin]]. exists v. split; [ exact Hv | now right ].
Qed.

(** The cell of the record of index [i] under the column [c] is among
    the assignments, under its name. *)
Lemma cells_in (columns : list string) (rows : list Ydb.record)
      (vss : list (list Py.value)) :
  Forall2 (fun row vs => row_values row columns vs) rows vss ->
  forall (i0 i : nat) (row : Ydb.record) (c : string),
    nth_error rows i = Some row -> In c columns ->
    exists v, param_value c row = Ok v
              /\ In (Ydb.param_name c (i0 + i), v) (cells columns i0 vss).
Proof.
  induction 1 as [|row0 vs rows vss Hrv _ IH]; intros i0 i row c Hrow Hc.
  - destruct i; discriminate Hrow.
  - destruct i as [|i]; simpl in Hrow.
    + injection Hrow as ->.
      destruct (row_values_in row columns vs i0 c Hrv Hc) as [v [Hv Hin]].
      exists v. split; [ exact Hv | ].
      rewrite Nat.add_0_r. simpl. apply in_or_app. now left.
    + destruct (IH (S i0) i row c Hrow Hc) as [v [Hv Hin]].
      exists v. split; [ exact Hv | ].
      replace (i0 + S i) with (S i0 + i) by lia.
      simpl. apply in_or_app. now right.
Qed.

(** The statement of a batch: its declarations, its tuples and its
    parameters with their values. *)
Lemma build_closed (columns : list string) (data : list Ydb.record)
      (st : Ydb.statement) :
  NoDup columns ->
  build columns data = Ok st ->
  Ydb.declare_block st = flat_map (declares_of columns) (seq 0 (List.length data))
  /\ Ydb.bind_vars_rows st
     = map (fun j => Ydb.tuple_text (names_of columns j))
           (seq 0 (List.length data))
  /\ keys (Ydb.param_values st) = all_names columns 0 (List.length data)
  /\ forall i row c,
      nth_error data i = Some row -> In c columns ->
      exists v, param_value c row = Ok v
                /\ dict_get (Ydb.param_values st) (Ydb.param_name c i) = Some v.
Proof.
  intros Hnd H. unfold Ydb.build in H. apply bind_rows_closed in H.
  simpl in H. destruct H as [Hd [Hb [vss [Hvss Hpv]]]].
  pose proof (row_values_lengths columns data vss Hvss) as Hlen.
  assert (Hfst : map fst (cells columns 0 vss)
                 = all_names columns 0 (List.length data)).
  { rewrite (map_fst_cells columns vss Hlen 0).
    now rewrite (Forall2_length Hvss). }
  assert (Hnd' : NoDup (map fst (cells columns 0 vss))).
  { rewrite Hfst. now apply NoDup_all_names. }
  split; [ exact Hd | split; [ exact Hb | split ] ].
  - rewrite Hpv, keys_set_all_fresh; [ exact Hfst | exact Hnd' | ].
    intros k _ [].
  - intros i row c Hrow Hc. rewrite Hpv.
    destruct (cells_in columns data vss Hvss 0 i row c Hrow Hc) as [v [Hv Hin]].
    exists v. split; [ exact Hv | ].
    now apply dict_get_set_all.
Qed.

End Construction.

(* ------------------------------------------------------------------ *)
(** ** The batch upsert *)

Section Upsert.

Variable float_repr : spec_float -> string.
Variable Store : Type.
Variable store_prepare : Store -> string -> Store * result unit.
Variable store_execute : Store -> string -> dict Py.value -> Store * result unit.

Local Abbreviation upset_data :=
  (@Ydb.upset_data float_repr Store store_prepare store_execute).
Local Abbreviation build := (Ydb.build float_repr).

Lemma upset_data_invalid (table : string) (first : Ydb.record)
      (rest : list Ydb.record) (s : Ydb.db Store) :
  Ydb.same_structure (keys first) (first :: rest) = false ->
  upset_data table (first :: rest) s = (s, Raise (ValueError SameStructure)).
Proof. intros H. unfold Ydb.upset_data. now rewrite H. Qed.

Lemma upset_data_build_raise (table : string) (first : Ydb.record)
      (rest : list Ydb.record) (s : Ydb.db Store) (e : exn) :
  Ydb.same_structure (keys first) (first :: rest) = true ->
  build (keys first) (first :: rest) = Raise e ->
  upset_data table (first :: rest) s = (s, Raise e).
Proof. intros H Hb. unfold Ydb.upset_data. now rewrite H, Hb. Qed.

Lemma upset_data_build_ok (table : string) (first : Ydb.record)
      (rest : list Ydb.record) (s : Ydb.db Store) (st : Ydb.statement) :
  Ydb.same_structure (keys first) (first :: rest) = true ->
  build (keys first) (first :: rest) = Ok st ->
  exists tail,
    Ydb.calls (fst (upset_data table (first :: rest) s))
    = (Ydb.calls s
         ++ Ydb.Prepare (Ydb.query_text table (keys first) st) :: tail)%list.
Proof.
  intros H Hb. unfold Ydb.upset_data. rewrite H, Hb. simpl.
  unfold Ydb.prepare, Ydb.execute.
  destruct (store_prepare (Ydb.store s) _) as [s1 [[]|e1]]; simpl.
  - destruct (store_execute s1 _ _) as [s2 [[]|e2]]; simpl;
      rewrite <- app_assoc; simpl; eauto.
  - eauto.
Qed.

(** In a batch of one structure every record has a value under every
    column. *)
Lemma same_structure_get (columns : list string) (data : list Ydb.record)
      (row : Ydb.record) (c : string) :
  Ydb.same_structure columns data = true ->
  In row data -> In c columns ->
  exists v, dict_get row c = Some v.
Proof.
  intros H Hrow Hc.
  pose proof (proj1 (same_structure_true columns data) H row Hrow c) as Hk.
  destruct (dict_get row c) as [v|] eqn:E; [ eauto | ].
  apply dict_get_none_iff in E. tauto.
Qed.

(** C1, as the specification states it, fails: the empty batch raises
    [IndexError], which is not the error of the validation. *)
Lemma empty_batch_raises_index_error :
  upset_sample "payments" [] = (Ydb.Db 0 [], Raise IndexError)
  /\ IndexError <> ValueError SameStructure.
Proof. split; [ reflexivity | discriminate ]. Qed.

(** C1, amended: the empty batch makes [upset_data] raise [IndexError],
    from reading its first record; a batch with a record whose set of
    keys is not the set of keys of the first record makes it raise the
    [ValueError] of line 21.  In both cases the store is the one before
    the call and has received no call: no query is prepared or
    executed. *)
Theorem invalid_batch_is_rejected_before_any_call :
  forall (table : string) (data : list Ydb.record) (s : Ydb.db Store),
    (data = [] -> upset_data table data s = (s, Raise IndexError))
    /\ (forall first rest item,
           data = first :: rest ->
           In item data ->
           ~ (forall k, In k (keys item) <-> In k (keys first)) ->
           upset_data table data s = (s, Raise (ValueError SameStructure))).
Proof.
  intros table data s. split.
  - intros ->. reflexivity.
  - intros first rest item -> Hin Hne.
    apply upset_data_invalid.
    apply same_structure_false. exists item. auto.
Qed.

End Upsert.

Lemma invalid_batch_is_rejected_before_any_call_witness :
  upset_sample "payments" batch_two_structures
  = (Ydb.Db 0 [], Raise (ValueError SameStructure)).
Proof.
  apply (proj2 (invalid_batch_is_rejected_before_any_call
                  sample_float_repr nat counting_prepare counting_execute
                  "payments" batch_two_structures (Ydb.Db 0 []))
               [("ID", Py.VStr "1"); ("NAME", Py.VStr "a")]
               [[("ID", Py.VStr "2"); ("TITLE", Py.VStr "b")]]
               [("ID", Py.VStr "2"); ("TITLE", Py.VStr "b")]).
  - reflexivity.
  - right. left. reflexivity.
  - intros H. destruct (proj1 (H "TITLE")) as [E | [E | []]];
      [ right; left; reflexivity | discriminate E | discriminate E ].
Defined.

Section UpsertStatement.

Variable float_repr : spec_float -> string.
Variable Store : Type.
Variable store_prepare : Store -> string -> Store * result unit.
Variable store_execute : Store -> string -> dict Py.value -> Store * result unit.

Local Abbreviation upset_data :=
  (@Ydb.upset_data float_repr Store store_prepare store_execute).
Local Abbreviation build := (Ydb.build float_repr).
Local Abbreviation param_value := (Ydb.param_value float_repr).

(** The value bound to a cell: the integer of [int()] under an
    identifier column, the string of [str()] under another. *)
Lemma param_value_id (c : string) (row : Ydb.record) (v : Py.value) :
  Ydb.is_id c = true ->
  param_value c row = Ok v ->
  exists x z, dict_get row c = Some x /\ Py.int x = Ok z /\ v = Py.VInt z.
Proof.
  intros Hid. unfold Ydb.param_value, dict_item. rewrite Hid.
  destruct (dict_get row c) as [x|]; simpl; [ | discriminate ].
  destruct (Py.int x) as [z|e] eqn:E; simpl; [ | discriminate ].
  intros H. injection H as <-. exists x, z. auto.
Qed.

Lemma param_value_id_raise (c : string) (row : Ydb.record) (x : Py.value)
      (e : exn) :
  Ydb.is_id c = true -> dict_get row c = Some x -> Py.int x = Raise e ->
  param_value c row = Raise e.
Proof.
  intros Hid Hx He. unfold Ydb.param_value, dict_item.
  now rewrite Hx, Hid; simpl; rewrite He.
Qed.

Lemma param_value_total (columns : list string) (data : list Ydb.record) :
  Ydb.same_structure columns data = true ->
  Forall (fun row =>
            Forall (fun c => Ydb.is_id c = true ->
                             forall x, dict_get row c = Some x ->
                                       exists z, Py.int x = Ok z)
                   columns) data ->
  Forall (fun row => Forall (fun c => exists v, param_value c row = Ok v) columns)
         data.
Proof.
  intros Hs Hall. rewrite Forall_forall in *. intros row Hrow.
  specialize (Hall row Hrow). rewrite Forall_forall in *. intros c Hc.
  destruct (same_structure_get columns data row c Hs Hrow Hc) as [x Hx].
  unfold Ydb.param_value, dict_item. rewrite Hx. simpl.
  destruct (Ydb.is_id c) eqn:Hid; [ | eauto ].
  destruct (Hall c Hc Hid x Hx) as [z Hz]. rewrite Hz. simpl. eauto.
Qed.

(** C2, as the specification states it, fails on the order of the
    tuples: with two records that list the same columns in two orders,
    the tuple of the second record does not follow the order of the
    columns of that record. *)
Lemma tuple_order_is_not_the_records :
  exists st,
    Ydb.build sample_float_repr ["ID"; "NAME"] batch_two_orders = Ok st
    /\ ~ (forall i row,
             nth_error batch_two_orders i = Some row ->
             nth_error (Ydb.bind_vars_rows st) i
             = Some (Ydb.tuple_text (names_of (keys row) i))).
Proof.
  eexists. split; [ vm_compute; reflexivity | ].
  intros H.
  specialize (H 1 [("NAME", Py.VStr "b"); ("ID", Py.VStr "2")] eq_refl).
  vm_compute in H. discriminate H.
Qed.

(** C2, amended: for a batch of N records, the first with C columns and
    all with the same set of columns, in which every value under an
    identifier column is accepted by [int()], [upset_data] builds a
    statement; the statement it builds declares N x C parameters, one
    for each record and each column, named [$column_index] and pairwise
    distinct, as [Int64] when the upper-cased column is [ID] and as
    [Utf8] otherwise; it has N tuples, the tuple of the record of index
    i naming the parameters [$column_i] in the order of the columns of
    the FIRST record, which is the order of the column list of the
    statement.  The text of the statement, the one the store is asked
    to prepare, is made of these and of nothing else: the N x C
    declarations with a blank between them, the line of [UPSERT INTO]
    with the table and the columns, and the line of [VALUES] with the N
    tuples, a comma and a blank between them.  The strings of this
    development hold the code points below 256, among which the column
    names whose upper case is [ID] are [ID], [Id], [iD] and [id]. *)
Theorem upsert_statement_shape :
  forall (table : string) (first : Ydb.record) (rest : list Ydb.record)
         (s : Ydb.db Store),
    let data := first :: rest in
    let columns := keys first in
    let N := List.length data in
    let C := List.length columns in
    wf_dict first ->
    Ydb.same_structure columns data = true ->
    (Forall (fun row =>
               Forall (fun c => Ydb.is_id c = true ->
                                forall x, dict_get row c = Some x ->
                                          exists z, Py.int x = Ok z)
                      columns) data ->
     exists st, build columns data = Ok st)
    /\ (forall st,
           build columns data = Ok st ->
           Ydb.declare_block st = flat_map (declares_of columns) (seq 0 N)
           /\ List.length (Ydb.declare_block st) = N * C
           /\ keys (Ydb.param_values st) = all_names columns 0 N
           /\ List.length (all_names columns 0 N) = N * C
           /\ NoDup (all_names columns 0 N)
           /\ Ydb.bind_vars_rows st
              = map (fun i => Ydb.tuple_text (names_of columns i)) (seq 0 N)
           /\ List.length (Ydb.bind_vars_rows st) = N
           /\ (exists tail,
                  Ydb.calls (fst (upset_data table data s))
                  = (Ydb.calls s
                       ++ Ydb.Prepare (Ydb.query_text table columns st)
                       :: tail)%list)
           /\ Ydb.query_text table columns st
              = String "010" "    "
                ++ Str.join " " (flat_map (declares_of columns) (seq 0 N))
                ++ String "010" "    UPSERT INTO `" ++ table ++ "` ("
                ++ Str.join ", " columns ++ ")"
                ++ String "010" "    VALUES "
                ++ Str.join ", "
                     (map (fun i => Ydb.tuple_text (names_of columns i))
                          (seq 0 N))
                ++ ";" ++ String "010" "    ")
    /\ (forall c i,
           Ydb.declare c i
           = "DECLARE " ++ Ydb.param_name c i
                        ++ (if Ydb.is_id c then " AS Int64;" else " AS Utf8;"))
    /\ (forall c,
           Ydb.is_id c = true
           <-> c = "ID" \/ c = "Id" \/ c = "iD" \/ c = "id")
    /\ (forall c i, Ydb.param_name c i = "$" ++ c ++ "_" ++ Str.of_nat i)
    /\ (forall names,
           Ydb.tuple_text names = "(" ++ Str.join ", " names ++ ")").
Proof.
  intros table first rest s data columns N C Hwf Hs.
  split; [ | split; [ | split; [ | split; [ | split ] ] ] ].
  - intros Hall. unfold Ydb.build. apply bind_rows_total.
    now apply param_value_total.
  - intros st Hb.
    destruct (build_closed float_repr columns data st Hwf Hb)
      as [Hd [Hv [Hk _]]].
    split; [ exact Hd | ].
    split; [ rewrite Hd; apply length_declares | ].
    split; [ exact Hk | ].
    split; [ apply length_all_names | ].
    split; [ now apply NoDup_all_names | ].
    split; [ exact Hv | ].
    split; [ rewrite Hv, length_map, length_seq; reflexivity | ].
    split; [ now apply upset_data_build_ok | ].
    unfold Ydb.query_text, Ydb.newline. rewrite Hd, Hv.
    cbn [String.append]. rewrite <- ?append_assoc. reflexivity.
  - intros c i. unfold Ydb.declare. destruct (Ydb.is_id c); reflexivity.
  - apply is_id_spec.
  - reflexivity.
  - reflexivity.
Qed.

End UpsertStatement.

Lemma upsert_statement_shape_witness :
  exists st,
    Ydb.build sample_float_repr ["ID"; "NAME"] batch_two_orders = Ok st
    /\ Ydb.declare_block st
       = ["DECLARE $ID_0 AS Int64;"; "DECLARE $NAME_0 AS Utf8;";
          "DECLARE $ID_1 AS Int64;"; "DECLARE $NAME_1 AS Utf8;"]
    /\ Ydb.bind_vars_rows st = ["($ID_0, $NAME_0)"; "($ID_1, $NAME_1)"]
    /\ keys (Ydb.param_values st) = ["$ID_0"; "$NAME_0"; "$ID_1"; "$NAME_1"]
    /\ Ydb.query_text "payments" ["ID"; "NAME"] st
       = String "010" "    DECLARE $ID_0 AS Int64; DECLARE $NAME_0 AS Utf8; "
         ++ "DECLARE $ID_1 AS Int64; DECLARE $NAME_1 AS Utf8;"
         ++ String "010" "    UPSERT INTO `payments` (ID, NAME)"
         ++ String "010" "    VALUES ($ID_0, $NAME_0), ($ID_1, $NAME_1);"
         ++ String "010" "    ".
Proof.
  assert (Hwf : wf_dict [("ID", Py.VStr "1"); ("NAME", Py.VStr "a")]).
  { repeat constructor; simpl; intuition discriminate. }
  pose proof (upsert_statement_shape sample_float_repr nat counting_prepare
                counting_execute "payments"
                [("ID", Py.VStr "1"); ("NAME", Py.VStr "a")]
                [[("NAME", Py.VStr "b"); ("ID", Py.VStr "2")]]
                (Ydb.Db 0 []) Hwf eq_refl) as [Htot [Hshape _]].
  destruct Htot as [st Hst].
  { repeat constructor; intros Hid x Hx; try discriminate Hid;
      injection Hx as <-; eexists; vm_compute; reflexivity. }
  exists st. split; [ exact Hst | ].
  destruct (Hshape st Hst) as [Hd [_ [Hk [_ [_ [Hb [_ [_ Hq]]]]]]]].
  split; [ rewrite Hd; reflexivity | ].
  split; [ rewrite Hb; reflexivity | ].
  split; [ rewrite Hk; reflexivity | ].
  cbn [keys map fst] in Hq. rewrite Hq. reflexivity.
Defined.

(* ------------------------------------------------------------------ *)
(** ** Building a dictionary from items *)

Section ItemsFacts.

Variable V : Type.
Implicit Types (d e : dict V) (k : string) (v : V) (l : list (string * V)).

Lemma dict_of_items_set_items l : Flatten.dict_of_items V l = set_items V [] l.
Proof. reflexivity. Qed.

Lemma set_items_app d l l' :
  set_items V d (l ++ l') = set_items V (set_items V d l) l'.
Proof. unfold set_items. apply fold_left_app. Qed.

Lemma keys_dict_set_old d k v :
  In k (keys d) -> keys (dict_set d k v) = keys d.
Proof.
  induction d as [|[k0 v0] d IH]; simpl; [ tauto | ].
  intros [E | Hin].
  - subst k0. now rewrite String.eqb_refl.
  - destruct (String.eqb k0 k) eqn:E; simpl.
    + apply String.eqb_eq in E. now subst.
    + f_equal. now apply IH.
Qed.

Lemma keys_dict_set d k v :
  keys (dict_set d k v)
  = if in_dec string_dec k (keys d) then keys d else (keys d ++ [k])%list.
Proof.
  destruct (in_dec string_dec k (keys d)) as [Hin | Hn].
  - now apply keys_dict_set_old.
  - rewrite keys_dict_set_new by exact Hn.
    unfold keys. now rewrite map_app.
Qed.

Lemma in_keys_dict_set d k k' v :
  In k (keys d) -> In k (keys (dict_set d k' v)).
Proof.
  intros H. rewrite keys_dict_set.
  destruct (in_dec string_dec k' (keys d)); [ exact H | ].
  apply in_or_app. now left.
Qed.

(** An assignment keeps the keys distinct. *)
Lemma dict_set_wf d k v : wf_dict d -> wf_dict (dict_set d k v).
Proof.
  unfold wf_dict. intros H. rewrite keys_dict_set.
  destruct (in_dec string_dec k (keys d)) as [Hin | Hn]; [ exact H | ].
  apply NoDup_append; [ exact H | repeat constructor; simpl; tauto | ].
  intros x Hx [<- | []]. contradiction.
Qed.

Lemma set_items_wf l : forall d, wf_dict d -> wf_dict (set_items V d l).
Proof.
  induction l as [|[k v] l IH]; intros d H; simpl; [ exact H | ].
  apply IH. now apply dict_set_wf.
Qed.

Lemma dict_of_items_wf l : wf_dict (Flatten.dict_of_items V l).
Proof. apply set_items_wf. constructor. Qed.

Lemma dict_set_twice d k v0 v :
  dict_set (dict_set d k v0) k v = dict_set d k v.
Proof.
  induction d as [|[k0 w] d IH]; simpl.
  - now rewrite String.eqb_refl.
  - destruct (String.eqb k0 k) eqn:E; simpl.
    + now rewrite String.eqb_refl.
    + now rewrite E, IH.
Qed.

Lemma dict_set_comm d k k1 v v1 :
  k <> k1 -> In k (keys d) ->
  dict_set (dict_set d k1 v1) k v = dict_set (dict_set d k v) k1 v1.
Proof.
  intros Hne. induction d as [|[k0 w] d IH]; simpl; [ tauto | ].
  intros Hin.
  assert (Hkk : String.eqb k1 k = false).
  { apply String.eqb_neq. congruence. }
  assert (Hkk' : String.eqb k k1 = false).
  { now apply String.eqb_neq. }
  destruct (String.eqb k0 k1) eqn:E1; destruct (String.eqb k0 k) eqn:E; simpl;
    rewrite ?E, ?E1, ?Hkk, ?Hkk'; try reflexivity.
  - apply String.eqb_eq in E1, E. congruence.
  - f_equal. apply IH.
    destruct Hin as [H | H]; [ | exact H ].
    apply String.eqb_neq in E. contradiction.
Qed.

Lemma set_items_comm l :
  forall d k v,
    In k (keys d) -> ~ In k (map fst l) ->
    dict_set (set_items V d l) k v = set_items V (dict_set d k v) l.
Proof.
  induction l as [|[k1 v1] l IH]; intros d k v Hin Hn; simpl; [ reflexivity | ].
  simpl in Hn.
  rewrite IH; [ | now apply in_keys_dict_set | tauto ].
  rewrite dict_set_comm; [ reflexivity | | exact Hin ].
  intros ->. tauto.
Qed.

Lemma set_items_dict_set (D : dict V) :
  forall d k v,
    wf_dict D -> In k (keys D) ->
    set_items V d (dict_set D k v) = dict_set (set_items V d D) k v.
Proof.
  induction D as [|[k0 v0] D IH]; intros d k v Hwf Hin; [ destruct Hin | ].
  inversion Hwf as [|? ? Hk0 Hwf']; subst. simpl.
  destruct (String.eqb k0 k) eqn:E.
  - apply String.eqb_eq in E. subst k0. simpl.
    rewrite set_items_comm; [ | | exact Hk0 ].
    + now rewrite dict_set_twice.
    + rewrite keys_dict_set.
      destruct (in_dec string_dec k (keys d)); [ assumption | ].
      apply in_or_app. right. now left.
  - simpl. apply IH; [ exact Hwf' | ].
    destruct Hin as [H | H]; [ | exact H ].
    apply String.eqb_neq in E. simpl in H. contradiction.
Qed.

(** Items that went through [dict()] can be written as they were. *)
Lemma set_items_absorb l :
  forall d, set_items V d (Flatten.dict_of_items V l) = set_items V d l.
Proof.
  induction l as [|[k v] l IH] using rev_ind; intros d; [ reflexivity | ].
  rewrite dict_of_items_set_items, !set_items_app. simpl.
  rewrite <- dict_of_items_set_items.
  destruct (in_dec string_dec k (keys (Flatten.dict_of_items V l))) as [Hin | Hn].
  - rewrite set_items_dict_set; [ | apply dict_of_items_wf | exact Hin ].
    now rewrite IH.
  - rewrite keys_dict_set_new by exact Hn.
    rewrite set_items_app. simpl. now rewrite IH.
Qed.

Lemma set_items_fresh l :
  forall d, NoDup (keys d ++ map fst l) -> set_items V d l = (d ++ l)%list.
Proof.
  induction l as [|[k v] l IH]; intros d H; simpl; [ now rewrite app_nil_r | ].
  simpl in H.
  assert (Hk : ~ In k (keys d)).
  { apply NoDup_remove_2 in H. intros Hin. apply H. apply in_or_app. now left. }
  rewrite keys_dict_set_new by exact Hk.
  rewrite IH.
  - now rewrite <- app_assoc.
  - unfold keys. rewrite map_app, <- app_assoc. exact H.
Qed.

(** [dict()] of the items of a dictionary is the dictionary. *)
Lemma dict_of_items_id d : wf_dict d -> Flatten.dict_of_items V d = d.
Proof. intros H. apply (set_items_fresh d []). exact H. Qed.

(** A key reads as the last value written for it. *)
Lemma dict_get_set_items l :
  forall d k,
    dict_get (set_items V d l) k
    = match dict_get (List.rev l) k with
      | Some x => Some x
      | None => dict_get d k
      end.
Proof.
  induction l as [|[k0 x0] l IH]; intros d k; simpl; [ reflexivity | ].
  rewrite IH, dict_get_app. simpl.
  destruct (dict_get (List.rev l) k); [ reflexivity | ].
  destruct (String.eqb k0 k) eqn:E.
  - apply String.eqb_eq in E. subst k0. apply dict_get_set_same.
  - apply String.eqb_neq in E. now apply dict_get_set_other.
Qed.

End ItemsFacts.

(* ------------------------------------------------------------------ *)
(** ** [_flatten_dict] *)

Lemma tree_induction (P : Flatten.tree -> Prop) :
  (forall x, P (Flatten.Leaf x)) ->
  (forall d, Forall (fun kv => P (snd kv)) d -> P (Flatten.Node d)) ->
  forall t, P t.
Proof.
  intros HL HN. fix IH 1. intros [x | d]; [ apply HL | ].
  apply HN. induction d as [|[k v] d IHd]; constructor; [ apply IH | apply IHd ].
Qed.

Lemma set_items_flat_map (A : Type) (F G : A -> list (string * Flatten.form_value))
      (l : list A) :
  Forall (fun a => F a = Flatten.dict_of_items _ (G a)) l ->
  forall e, set_items _ e (flat_map F l) = set_items _ e (flat_map G l).
Proof.
  induction 1 as [|a l Ha _ IH]; intros e; simpl; [ reflexivity | ].
  rewrite !set_items_app, Ha, set_items_absorb. apply IH.
Qed.

Lemma flatten_value_leaves (v : Flatten.tree) :
  forall key,
    Flatten.flatten_value v key
    = Flatten.dict_of_items _ (Flatten.leaves_of v key).
Proof.
  induction v as [x | d IH] using tree_induction; intros key; [ reflexivity | ].
  simpl. rewrite !dict_of_items_set_items.
  apply set_items_flat_map.
  induction IH as [|[k v] d Hv _ IHd]; constructor; [ | exact IHd ].
  apply Hv.
Qed.

(** X1: [_flatten_dict] gives one entry per path key of a leaf, in the
    order in which the paths are first met; the dictionaries rebuilt on
    the way change nothing: the result is [dict] of the leaves with
    their path keys, its keys are distinct, and a key reads as the last
    leaf met under that path. *)
Theorem flatten_dict_is_dict_of_leaves
        (d : list (string * Flatten.tree)) (parent_key : string) :
  Flatten._flatten_dict d parent_key
  = Flatten.dict_of_items _ (Flatten.leaves_of (Flatten.Node d) parent_key)
  /\ NoDup (keys (Flatten._flatten_dict d parent_key))
  /\ forall k,
      dict_get (Flatten._flatten_dict d parent_key) k
      = dict_get (List.rev (Flatten.leaves_of (Flatten.Node d) parent_key)) k.
Proof.
  unfold Flatten._flatten_dict.
  rewrite flatten_value_leaves.
  split; [ reflexivity | split ].
  - apply dict_of_items_wf.
  - intros k. rewrite dict_of_items_set_items, dict_get_set_items.
    now destruct (dict_get _ k).
Qed.

Lemma flat_map_as_tree (d : dict Flatten.form_value) :
  flat_map (fun kv : string * Flatten.tree =>
              let '(k, v') := kv in Flatten.leaves_of v' (Flatten.new_key "" k))
           (Flatten.as_tree d) = d.
Proof.
  induction d as [|[k x] d IH]; simpl; [ reflexivity | ].
  now rewrite IH.
Qed.

(** X2: flattening is idempotent: a flattened dictionary, flattened
    again, comes back as it is; more generally a dictionary with no
    nested dictionary and distinct keys is left as it is. *)
Theorem flatten_dict_idempotent
        (d : list (string * Flatten.tree)) (parent_key : string) :
  Flatten._flatten_dict
    (Flatten.as_tree (Flatten._flatten_dict d parent_key)) ""
  = Flatten._flatten_dict d parent_key
  /\ forall flat : dict Flatten.form_value,
      wf_dict flat ->
      Flatten._flatten_dict (Flatten.as_tree flat) "" = flat.
Proof.
  assert (H : forall flat : dict Flatten.form_value,
             wf_dict flat ->
             Flatten._flatten_dict (Flatten.as_tree flat) "" = flat).
  { intros flat Hwf. unfold Flatten._flatten_dict.
    rewrite flatten_value_leaves. simpl Flatten.leaves_of.
    rewrite flat_map_as_tree. now apply dict_of_items_id. }
  split; [ | exact H ].
  apply H. unfold Flatten._flatten_dict.
  rewrite flatten_value_leaves. apply dict_of_items_wf.
Qed.

(* ------------------------------------------------------------------ *)
(** ** The chunks of [handler] *)

Lemma chunk_count_succ (n : nat) :
  0 < n ->
  (n + Index.chunk_size - 1) / Index.chunk_size
  = S ((n - Index.chunk_size + Index.chunk_size - 1) / Index.chunk_size).
Proof.
  unfold Index.chunk_size. intros Hn.
  destruct (le_lt_dec 100 n) as [Hle | Hlt].
  - replace (n + 100 - 1) with ((n - 100 + 100 - 1) + 1 * 100) by lia.
    rewrite Nat.div_add by lia. lia.
  - replace (n - 100) with 0 by lia.
    rewrite (Nat.div_small (0 + 100 - 1)) by lia.
    assert (H : (n + 100 - 1) / 100 = 1); [ | now rewrite H ].
    replace (n + 100 - 1) with ((n - 1) + 1 * 100) by lia.
    rewrite Nat.div_add by lia. rewrite Nat.div_small by lia. reflexivity.
Qed.

(** The chunks, one at a time. *)
Lemma chunks_step (A : Type) (l : list A) :
  l <> [] ->
  Index.chunks A l
  = firstn Index.chunk_size l :: Index.chunks A (skipn Index.chunk_size l).
Proof.
  intros Hl. unfold Index.chunks, Index.chunk_starts.
  rewrite chunk_count_succ by (destruct l; [ congruence | simpl; lia ]).
  rewrite length_skipn.
  set (m := (List.length l - Index.chunk_size + Index.chunk_size - 1)
            / Index.chunk_size).
  rewrite <- cons_seq, <- seq_shift. rewrite !map_cons, !map_map.
  f_equal. apply map_ext. intros j.
  rewrite skipn_skipn. f_equal. f_equal. lia.
Qed.

Lemma chunks_nil (A : Type) : Index.chunks A [] = [].
Proof. reflexivity. Qed.

(** An induction that follows the chunks. *)
Lemma chunks_induction (A : Type) (P : list A -> Prop) :
  P [] ->
  (forall l, l <> [] -> P (skipn Index.chunk_size l) -> P l) ->
  forall l, P l.
Proof.
  intros H0 Hs l.
  remember (List.length l) as n eqn:Hn. revert l Hn.
  induction n as [n IH] using lt_wf_ind. intros l Hn.
  destruct l as [|a l]; [ exact H0 | ].
  apply Hs; [ discriminate | ].
  apply (IH (List.length (skipn Index.chunk_size (a :: l)))); [ | reflexivity ].
  rewrite length_skipn. subst n. unfold Index.chunk_size. simpl List.length. lia.
Qed.

(** X3: the chunks that [handler] sends are the list cut in order:
    joined again they give the list, none is empty, none has more than
    100 records, every one before the last has exactly 100, and there
    are [ceil(len / 100)] of them. *)
Theorem chunks_partition (A : Type) (l : list A) :
  List.concat (Index.chunks A l) = l
  /\ Forall (fun c => 1 <= List.length c <= 100) (Index.chunks A l)
  /\ Forall (fun c => List.length c = 100) (removelast (Index.chunks A l))
  /\ List.length (Index.chunks A l) = (List.length l + 99) / 100.
Proof.
  split; [ | split; [ | split ] ].
  - induction l as [ | l Hl IH ] using chunks_induction; [ reflexivity | ].
    rewrite chunks_step by exact Hl. rewrite concat_cons, IH.
    apply firstn_skipn.
  - induction l as [ | l Hl IH ] using chunks_induction; [ constructor | ].
    rewrite chunks_step by exact Hl. constructor; [ | exact IH ].
    rewrite length_firstn. unfold Index.chunk_size.
    destruct l; [ congruence | simpl List.length; lia ].
  - induction l as [ | l Hl IH ] using chunks_induction; [ constructor | ].
    rewrite chunks_step by exact Hl.
    destruct (skipn Index.chunk_size l) as [|b r] eqn:E.
    + rewrite chunks_nil. constructor.
    + rewrite (chunks_step A (b :: r)) by discriminate.
      rewrite (chunks_step A (b :: r)) in IH by discriminate.
      change (removelast (?x :: ?y :: ?z)) with (x :: removelast (y :: z)).
      constructor; [ | exact IH ].
      rewrite length_firstn.
      assert (H : List.length (skipn Index.chunk_size l) = S (List.length r))
        by now rewrite E.
      rewrite length_skipn in H. unfold Index.chunk_size in *. lia.
  - unfold Index.chunks, Index.chunk_starts.
    rewrite !length_map, length_seq. unfold Index.chunk_size.
    f_equal. lia.
Qed.

(* ------------------------------------------------------------------ *)
(** ** The searches of [auth] and [get_app_list] *)

Lemma of_chars_chars (s : string) : Str.of_chars (Str.chars s) = s.
Proof. apply string_of_list_ascii_of_string. Qed.

Lemma strip_prefix_some (p : list ascii) :
  forall l r, Scraper.strip_prefix p l = Some r <-> l = (p ++ r)%list.
Proof.
  induction p as [|a p IH]; intros l r; simpl.
  - split; [ now intros [= ->] | now intros -> ].
  - destruct l as [|b l]; [ split; discriminate | ].
    destruct (Ascii.eqb a b) eqn:E.
    + apply Ascii.eqb_eq in E. subst b. rewrite IH.
      split; [ now intros -> | now intros [= ->] ].
    + apply Ascii.eqb_neq in E. split; [ discriminate | ].
      intros [= -> _]. now elim E.
Qed.

Lemma span_spec (p : ascii -> bool) (l : list ascii) :
  forall a b,
    Py.span p l = (a, b) ->
    l = (a ++ b)%list /\ forallb p a = true
    /\ match b with
       | [] => True
       | c :: _ => p c = false
       end.
Proof.
  induction l as [|c l IH]; intros a b; simpl.
  - intros [= <- <-]. auto.
  - destruct (p c) eqn:E.
    + destruct (Py.span p l) as [a' b'] eqn:Es. intros [= <- <-].
      destruct (IH a' b' eq_refl) as (-> & Ha & Hb).
      simpl. now rewrite E, Ha.
    + intros [= <- <-]. simpl. now rewrite E.
Qed.

Lemma span_app (p : ascii -> bool) (a : list ascii) (c : ascii)
      (b : list ascii) :
  forallb p a = true -> p c = false ->
  Py.span p (a ++ c :: b) = (a, c :: b).
Proof.
  intros Ha Hc. induction a as [|x a IH]; simpl.
  - now rewrite Hc.
  - simpl in Ha. apply andb_prop in Ha. destruct Ha as [Hx Ha].
    now rewrite Hx, IH.
Qed.

(** A search of a fixed text, a word of the class [p] and the
    character [term]. *)
Section Search.

Variable prefix : list ascii.
Variable p : ascii -> bool.
Variable term : ascii.
Hypothesis Hterm : p term = false.

Local Abbreviation here := (match_word_here prefix p term).

Variable search : list ascii -> option string.
Hypothesis search_eq :
  forall l, search l = match here l with
                       | Some g => Some g
                       | None => match l with
                                 | [] => None
                                 | _ :: l' => search l'
                                 end
                       end.

Lemma here_sound (l : list ascii) (g : string) :
  here l = Some g ->
  exists post,
    l = (prefix ++ Str.chars g ++ term :: post)%list
    /\ Str.chars g <> [] /\ forallb p (Str.chars g) = true.
Proof.
  unfold match_word_here.
  destruct (Scraper.strip_prefix prefix l) as [r|] eqn:Ep; [ | discriminate ].
  apply strip_prefix_some in Ep. subst l.
  destruct (Py.span p r) as [hs r'] eqn:Es.
  destruct (span_spec p r hs r' Es) as (-> & Hhs & _).
  destruct hs as [|h hs]; [ discriminate | ].
  destruct r' as [|c r']; [ discriminate | ].
  destruct (Ascii.eqb c term) eqn:Ec; [ | discriminate ].
  apply Ascii.eqb_eq in Ec. subst c. intros H. injection H as <-.
  exists r'.
  change (String h (Str.of_chars hs)) with (Str.of_chars (h :: hs)).
  rewrite chars_of_chars. repeat split; [ discriminate | exact Hhs ].
Qed.

Lemma here_complete (hs post : list ascii) :
  hs <> [] -> forallb p hs = true ->
  here (prefix ++ hs ++ term :: post) = Some (Str.of_chars hs).
Proof.
  intros Hne Hhs. unfold match_word_here.
  rewrite (proj2 (strip_prefix_some prefix _ (hs ++ term :: post)) eq_refl).
  rewrite span_app by assumption.
  destruct hs; [ congruence | ]. now rewrite Ascii.eqb_refl.
Qed.

Lemma search_sound (l : list ascii) (g : string) :
  search l = Some g ->
  exists pre post,
    l = (pre ++ prefix ++ Str.chars g ++ term :: post)%list
    /\ Str.chars g <> [] /\ forallb p (Str.chars g) = true.
Proof.
  induction l as [|c l IH]; rewrite search_eq.
  - destruct (here []) eqn:E; [ | discriminate ].
    intros [= ->]. destruct (here_sound _ _ E) as (post & H).
    now exists [], post.
  - destruct (here (c :: l)) eqn:E.
    + intros [= ->]. destruct (here_sound _ _ E) as (post & H).
      now exists [], post.
    + intros H. destruct (IH H) as (pre & post & -> & Hg).
      now exists (c :: pre), post.
Qed.

Lemma search_complete (pre hs post : list ascii) :
  hs <> [] -> forallb p hs = true ->
  exists g, search (pre ++ prefix ++ hs ++ term :: post) = Some g.
Proof.
  intros Hne Hhs. induction pre as [|c pre IH]; rewrite search_eq.
  - simpl app. rewrite here_complete by assumption. eauto.
  - destruct (here _); [ eauto | ]. exact IH.
Qed.

End Search.

Lemma search_sessid_eq (l : list ascii) :
  Portal.search_sessid l
  = match Portal.match_sessid_here l with
    | Some g => Some g
    | None => match l with
              | [] => None
              | _ :: l' => Portal.search_sessid l'
              end
    end.
Proof. destruct l; reflexivity. Qed.

Lemma search_clients_eq (l : list ascii) :
  Scraper.search_clients l
  = match Scraper.match_clients_here l with
    | Some g => Some g
    | None => match l with
              | [] => None
              | _ :: l' => Scraper.search_clients l'
              end
    end.
Proof. destruct l; reflexivity. Qed.

Lemma chars_nil (s : string) : Str.chars s = [] -> s = "".
Proof. destruct s; [ reflexivity | discriminate ]. Qed.

Lemma search_sessid_sound (text id : string) :
  Portal.search_sessid (Str.chars text) = Some id ->
  is_hex_word id /\ has_token text id.
Proof.
  intros H.
  destruct (search_sound (Str.chars Portal.sessid_prefix) Portal.is_hex
                         Portal.quote Portal.search_sessid search_sessid_eq
                         _ _ H) as (pre & post & E & Hne & Hhex).
  split.
  - split; [ | exact Hhex ]. intros ->. now apply Hne.
  - exists (Str.of_chars pre), (Str.of_chars post).
    apply chars_inj. rewrite E.
    rewrite !chars_app. simpl (Str.chars (String _ _)).
    change (list_ascii_of_string (Str.of_chars post))
      with (Str.chars (Str.of_chars post)).
    now rewrite !chars_of_chars.
Qed.

Lemma search_sessid_complete (text id : string) :
  is_hex_word id -> has_token text id ->
  exists g, Portal.search_sessid (Str.chars text) = Some g.
Proof.
  intros [Hne Hhex] (pre & post & ->).
  rewrite !chars_app. simpl (Str.chars (String _ _)).
  apply (search_complete (Str.chars Portal.sessid_prefix) Portal.is_hex
                         Portal.quote eq_refl
                         Portal.search_sessid search_sessid_eq);
    [ | exact Hhex ].
  intros E. apply Hne. now apply chars_nil.
Qed.

Lemma search_clients_sound (actions id : string) :
  Scraper.search_clients (Str.chars actions) = Some id ->
  is_digit_word id /\ has_clients_call actions id.
Proof.
  intros H.
  destruct (search_sound (Str.chars "bx24vendorClients(") Str.is_digit
                         ")"%char Scraper.search_clients search_clients_eq
                         _ _ H) as (pre & post & E & Hne & Hd).
  split.
  - split; [ | exact Hd ]. intros ->. now apply Hne.
  - exists (Str.of_chars pre), (Str.of_chars post).
    apply chars_inj. rewrite E.
    rewrite !chars_app. simpl (Str.chars (String _ _)).
    change (list_ascii_of_string (Str.of_chars post))
      with (Str.chars (Str.of_chars post)).
    now rewrite !chars_of_chars.
Qed.

Lemma search_clients_complete (actions id : string) :
  is_digit_word id -> has_clients_call actions id ->
  exists g, Scraper.search_clients (Str.chars actions) = Some g.
Proof.
  intros [Hne Hd] (pre & post & ->).
  rewrite !chars_app. simpl (Str.chars (String _ _)).
  apply (search_complete (Str.chars "bx24vendorClients(") Str.is_digit
                         ")"%char eq_refl
                         Scraper.search_clients search_clients_eq);
    [ | exact Hd ].
  intros E. apply Hne. now apply chars_nil.
Qed.

Section Auth.

Variable World : Type.
Variable http : World -> Portal.http_call -> World * result string.

(** X4: [auth] sends one request, the POST of the credentials to
    [/auth/].  When the portal answers with a page, [auth] returns an
    identifier exactly when the page holds the token of the session with
    a word of [0-9a-f] in it, and the identifier returned is such a word
    of the page; a page without the token raises the [ValueError] of
    line 76 as it is, a transport failure raises the [Exception] of
    line 79, and any other exception passes through. *)
Theorem auth_outcome (login password : option string) (n : Portal.net World) :
  let rq := Portal.Post (Portal.auth_request login password) in
  let out := Portal.auth World http login password n in
  Portal.sent World (fst out) = (Portal.sent World n ++ [rq])%list
  /\ Portal.world World (fst out) = fst (http (Portal.world World n) rq)
  /\ match snd (http (Portal.world World n) rq) with
     | Ok text =>
         (forall id, snd out = Portal.Returns id ->
                     is_hex_word id /\ has_token text id)
         /\ (forall e, snd out = Portal.Raises e ->
                       e = Portal.SessionIdNotFound
                       /\ forall id, is_hex_word id -> ~ has_token text id)
     | Raise RequestException => snd out = Portal.Raises Portal.AuthenticationError
     | Raise e => snd out = Portal.Raises (Portal.Exn e)
     end.
Proof.
  intros rq out. subst out rq. unfold Portal.auth, Portal.session_send.
  destruct (http (Portal.world World n) _) as [w [text | e]]; simpl fst; simpl snd.
  - destruct (Portal.search_sessid (Str.chars text)) as [g|] eqn:E; simpl;
      (split; [ reflexivity | split; [ reflexivity | ] ]).
    + split; [ | intros e; discriminate ].
      intros id [= <-]. now apply search_sessid_sound.
    + split; [ intros id; discriminate | ].
      intros e [= <-]. split; [ reflexivity | ].
      intros id Hid Ht.
      destruct (search_sessid_complete _ _ Hid Ht) as (g & Hg). congruence.
  - destruct e; simpl; auto.
Qed.

End Auth.

(* ------------------------------------------------------------------ *)
(** ** The requests of the two reports *)

Section Reports.

Variable World : Type.
Variable http : World -> Portal.http_call -> World * result string.
Variable pads : bool.
Variable label : string.

Local Abbreviation sent := (Portal.sent World).
Local Abbreviation world := (Portal.world World).

(** What a report does with its three requests. *)
Lemma report_run
      (self : Parser.ParseVendors) (filter_id type : string)
      (is_premium : bool) (n : Portal.net World)
      (out : Portal.net World * result (list Parser.payment)) :
  out = (let '(n1, f) :=
           Portal.set_filter World http pads label self filter_id filter_id n in
         match f with
         | Raise e => (n1, Raise e)
         | Ok _ =>
             let '(n2, r) :=
               Portal.session_send World http n1
                 (Portal.Get (Portal.export_request self type)) in
             match r with
             | Raise e => (n2, Raise e)
             | Ok text =>
                 (n2, Parser._parse_csv_payments pads self text is_premium)
             end
         end) ->
  let calls := report_calls pads label self filter_id type in
  let rs := replies_to World http (world n) calls in
  exists k,
    1 <= k <= 3
    /\ sent (fst out) = (sent n ++ firstn k calls)%list
    /\ (forall i r, i < k - 1 -> nth_error rs i = Some r -> exists t, r = Ok t)
    /\ match nth_error rs (k - 1) with
       | Some (Raise e) => snd out = Raise e
       | Some (Ok text) =>
           k = 3
           /\ snd out = Parser._parse_csv_payments pads self text is_premium
       | None => False
       end.
Proof.
  intros -> calls rs. subst rs calls.
  unfold Portal.set_filter, Portal._send_post_request, Portal.session_send,
    report_calls, replies_to.
  destruct (http (world n) _) as [w1 [t1 | e1]]; cbn [Portal.world Portal.sent].
  - destruct (http w1 _) as [w2 [t2 | e2]]; cbn [Portal.world Portal.sent].
    + destruct (http w2 _) as [w3 [t3 | e3]]; cbn [Portal.world Portal.sent fst snd];
        exists 3; (split; [ lia | ]);
        (split; [ now rewrite <- !app_assoc | ]);
        (split; [ | cbn; auto ]);
        intros [|[|i]] r Hi; cbn; try lia; intros [= <-]; eauto.
    + exists 2. split; [ lia | ].
      split; [ cbn [fst]; now rewrite <- !app_assoc | ].
      split; [ | destruct (http w2 _); reflexivity ].
      intros [|i] r Hi; cbn; try lia. intros [= <-]; eauto.
  - exists 1. split; [ lia | ]. split; [ reflexivity | ].
    split; [ intros i r Hi; lia | ].
    destruct (http w1 _) as [w2 r2]. destruct (http w2 _). reflexivity.
Qed.

(** X5: a report sends at most three requests, in this order: the POST
    that stores the filter, the POST that applies it, the GET of the
    export.  It stops at the first request that fails and raises that
    failure; the export is asked for only after both POSTs succeeded,
    and the result is then what [_parse_csv_payments] makes of the
    export, standard for [get_payments] and premium for
    [get_premium_payments]. *)
Theorem report_requests_in_order
        (self : Parser.ParseVendors) (n : Portal.net World) :
  (let calls :=
     report_calls pads label self "mp24_subscription_partner" "payouts" in
   let rs := replies_to World http (world n) calls in
   let out := Portal.get_payments World http pads label self n in
   exists k,
     1 <= k <= 3
     /\ sent (fst out) = (sent n ++ firstn k calls)%list
     /\ (forall i r, i < k - 1 -> nth_error rs i = Some r -> exists t, r = Ok t)
     /\ match nth_error rs (k - 1) with
        | Some (Raise e) => snd out = Raise e
        | Some (Ok text) =>
            k = 3 /\ snd out = Parser._parse_csv_payments pads self text false
        | None => False
        end)
  /\ (let calls :=
        report_calls pads label self "mp24_subscription_premium_for_partners"
                     "payouts_premium" in
      let rs := replies_to World http (world n) calls in
      let out := Portal.get_premium_payments World http pads label self n in
      exists k,
        1 <= k <= 3
        /\ sent (fst out) = (sent n ++ firstn k calls)%list
        /\ (forall i r, i < k - 1 -> nth_error rs i = Some r -> exists t, r = Ok t)
        /\ match nth_error rs (k - 1) with
           | Some (Raise e) => snd out = Raise e
           | Some (Ok text) =>
               k = 3 /\ snd out = Parser._parse_csv_payments pads self text true
           | None => False
           end).
Proof.
  split.
  - apply (report_run self "mp24_subscription_partner" "payouts" false n).
    reflexivity.
  - apply (report_run self "mp24_subscription_premium_for_partners"
                      "payouts_premium" true n).
    reflexivity.
Qed.

End Reports.

(** X6: the form that stores the filter is flat: each value of the
    nested filter is sent under the key of its path, written with
    brackets.  The filter selects the month of the reference date of
    the run, the month without a zero on the left. *)
Theorem stored_filter_form
        (pads : bool) (label : string) (self : Parser.ParseVendors)
        (filter_id grid_id : string) :
  Portal.post_data
    (Portal.store_filter_request pads label self filter_id grid_id)
  = [("params[FILTER_ID]", Flatten.FStr filter_id);
     ("params[GRID_ID]", Flatten.FStr grid_id);
     ("params[action]", Flatten.FStr "setFilter");
     ("params[forAll]", Flatten.FBool false);
     ("params[commonPresetsId]", Flatten.FStr "");
     ("params[apply_filter]", Flatten.FStr "Y");
     ("params[clear_filter]", Flatten.FStr "N");
     ("params[with_preset]", Flatten.FStr "N");
     ("params[save]", Flatten.FStr "Y");
     ("params[isSetOutside]", Flatten.FStr "false");
     ("data[fields][FIND]", Flatten.FStr "");
     ("data[fields][DATE_OF_USE_from]", Flatten.FStr "");
     ("data[fields][DATE_OF_USE_to]", Flatten.FStr "");
     ("data[fields][DATE_OF_USE_days]", Flatten.FStr "");
     ("data[fields][DATE_OF_USE_quarter]", Flatten.FStr "");
     ("data[fields][DATE_OF_USE_datesel]", Flatten.FStr "MONTH");
     ("data[fields][DATE_OF_USE_month]",
      Flatten.FStr (Str.of_nat (DateTime.month (Parser.date_time self))));
     ("data[fields][DATE_OF_USE_year]",
      Flatten.FStr (DateTime.fmt_Y pads (DateTime.year (Parser.date_time self))));
     ("data[rows]", Flatten.FStr "DATE_OF_USE");
     ("data[preset_id]", Flatten.FStr "tmp_filter");
     ("data[name]", Flatten.FStr label)].
Proof. reflexivity. Qed.

(* ------------------------------------------------------------------ *)
(** ** The calls of [upset_data] *)

Section UpsertCalls.

Variable float_repr : spec_float -> string.
Variable Store : Type.
Variable store_prepare : Store -> string -> Store * result unit.
Variable store_execute : Store -> string -> dict Py.value -> Store * result unit.

Local Abbreviation upset_data :=
  (@Ydb.upset_data float_repr Store store_prepare store_execute).

(** What [upset_data] does to the log of the store. *)
Lemma upset_data_log (table : string) (data : list Ydb.record)
      (s : Ydb.db Store) :
  exists k,
    k <= 2
    /\ Ydb.calls (fst (upset_data table data s))
       = (Ydb.calls s ++ firstn k (batch_calls float_repr table data))%list
    /\ (forall b, snd (upset_data table data s) = Ok b ->
                  b = true /\ k = 2
                  /\ List.length (batch_calls float_repr table data) = 2).
Proof.
  unfold Ydb.upset_data, batch_calls.
  destruct data as [|first rest].
  { exists 0. split; [ lia | ]. split; [ now rewrite app_nil_r | discriminate ]. }
  destruct (negb (Ydb.same_structure (keys first) (first :: rest))).
  { exists 0. split; [ lia | ]. split; [ now rewrite app_nil_r | discriminate ]. }
  destruct (Ydb.build float_repr (keys first) (first :: rest)) as [st | e].
  2:{ exists 0. split; [ lia | ]. split; [ now rewrite app_nil_r | discriminate ]. }
  unfold Ydb.prepare, Ydb.execute.
  destruct (store_prepare (Ydb.store s) _) as [s1 [[] | e1]]; cbn [Ydb.store Ydb.calls].
  2:{ exists 1. split; [ lia | ]. split; [ reflexivity | discriminate ]. }
  destruct (store_execute s1 _ _) as [s2 [[] | e2]]; cbn [fst snd Ydb.calls];
    exists 2; (split; [ lia | ]);
    (split; [ now rewrite <- app_assoc | ]).
  - intros b [= <-]. auto.
  - discriminate.
Qed.

(** X7: a call of [upset_data] reaches the store at most twice: it
    prepares the statement of the batch and then executes that same
    statement with the parameters of the batch, once, stopping at the
    first of the two that fails.  It returns only [True], and only
    after both succeeded.  In full: the store is reached only for a
    batch of one structure whose statement was built; if the store
    refuses to prepare the statement, that exception is raised and
    nothing is executed; if it prepares it, the statement is executed
    in the state the preparation left, and the exception of the
    execution is raised or [True] is returned. *)
Theorem upset_data_prepares_then_executes
        (table : string) (data : list Ydb.record) (s : Ydb.db Store) :
  let out := upset_data table data s in
  exists k,
    k <= 2
    /\ Ydb.calls (fst out)
       = (Ydb.calls s ++ firstn k (batch_calls float_repr table data))%list
    /\ (forall b, snd out = Ok b ->
                  b = true /\ k = 2
                  /\ List.length (batch_calls float_repr table data) = 2)
    /\ (forall c1 c2 rest,
           batch_calls float_repr table data = c1 :: c2 :: rest ->
           rest = []
           /\ exists query params,
               c1 = Ydb.Prepare query /\ c2 = Ydb.Execute query params)
    /\ (k = 0 -> fst out = s /\ exists e, snd out = Raise e)
    /\ (1 <= k ->
        exists first rest st,
          data = first :: rest
          /\ Ydb.same_structure (keys first) data = true
          /\ Ydb.build float_repr (keys first) data = Ok st)
    /\ (forall first rest st,
           data = first :: rest ->
           Ydb.same_structure (keys first) data = true ->
           Ydb.build float_repr (keys first) data = Ok st ->
           let query := Ydb.query_text table (keys first) st in
           let params := Ydb.param_values st in
           batch_calls float_repr table data
           = [Ydb.Prepare query; Ydb.Execute query params]
           /\ match store_prepare (Ydb.store s) query with
              | (s1, Raise e) =>
                  k = 1
                  /\ out = (Ydb.Db s1 (Ydb.calls s ++ [Ydb.Prepare query]),
                            Raise e)
              | (s1, Ok _) =>
                  k = 2
                  /\ match store_execute s1 query params with
                     | (s2, Raise e) =>
                         out = (Ydb.Db s2 (Ydb.calls s
                                             ++ [Ydb.Prepare query;
                                                 Ydb.Execute query params]),
                                Raise e)
                     | (s2, Ok _) =>
                         out = (Ydb.Db s2 (Ydb.calls s
                                             ++ [Ydb.Prepare query;
                                                 Ydb.Execute query params]),
                                Ok true)
                     end
              end).
Proof.
  intros out. subst out.
  assert (Hshape : forall c1 c2 rest,
             batch_calls float_repr table data = c1 :: c2 :: rest ->
             rest = []
             /\ exists query params,
                 c1 = Ydb.Prepare query /\ c2 = Ydb.Execute query params).
  { intros c1 c2 rest. unfold batch_calls.
    destruct data as [|first tl]; [ discriminate | ].
    destruct (Ydb.build float_repr (keys first) (first :: tl)); [ | discriminate ].
    intros [= <- <- <-]. eauto. }
  unfold Ydb.upset_data, batch_calls in *.
  destruct data as [|first tl].
  { exists 0. split; [ lia | ]. split; [ now rewrite app_nil_r | ].
    split; [ discriminate | ]. split; [ exact Hshape | ].
    split; [ intros _; split; [ reflexivity | eexists; reflexivity ] | ].
    split; [ intros H0; lia | discriminate ]. }
  destruct (Ydb.same_structure (keys first) (first :: tl)) eqn:Hs; cbn [negb].
  2:{ exists 0. split; [ lia | ]. split; [ now rewrite app_nil_r | ].
      split; [ discriminate | ]. split; [ exact Hshape | ].
      split; [ intros _; split; [ reflexivity | eexists; reflexivity ] | ].
      split; [ intros H0; lia | ].
      intros f r st E. injection E as <- <-. intros Hs'.
      rewrite Hs in Hs'. discriminate Hs'. }
  destruct (Ydb.build float_repr (keys first) (first :: tl)) as [st | e] eqn:Hb.
  2:{ exists 0. split; [ lia | ]. split; [ now rewrite app_nil_r | ].
      split; [ discriminate | ]. split; [ exact Hshape | ].
      split; [ intros _; split; [ reflexivity | eexists; reflexivity ] | ].
      split; [ intros H0; lia | ].
      intros f r st E. injection E as <- <-. intros _ Hb'.
      rewrite Hb in Hb'. discriminate Hb'. }
  unfold Ydb.prepare, Ydb.execute.
  destruct (store_prepare (Ydb.store s) (Ydb.query_text table (keys first) st))
    as [s1 [[] | e1]] eqn:Ep; cbn [Ydb.store Ydb.calls].
  2:{ exists 1. split; [ lia | ]. split; [ reflexivity | ].
      split; [ discriminate | ]. split; [ exact Hshape | ].
      split; [ intros H0; lia | ]. split; [ intros _; exists first, tl, st; auto | ].
      intros f r st' E. injection E as <- <-. intros _ Hb'.
    rewrite Hb in Hb'. injection Hb' as <-. cbv zeta.
      split; [ reflexivity | ]. rewrite Ep. auto. }
  destruct (store_execute s1 (Ydb.query_text table (keys first) st)
                          (Ydb.param_values st)) as [s2 [[] | e2]] eqn:Ee;
    cbn [fst snd Ydb.calls];
    exists 2; (split; [ lia | ]);
    (split; [ now rewrite <- app_assoc | ]).
  - split; [ intros b [= <-]; auto | ]. split; [ exact Hshape | ].
    split; [ intros H0; lia | ]. split; [ intros _; exists first, tl, st; auto | ].
    intros f r st' E. injection E as <- <-. intros _ Hb'.
    rewrite Hb in Hb'. injection Hb' as <-. cbv zeta.
    split; [ reflexivity | ]. rewrite Ep. split; [ reflexivity | ].
    rewrite Ee. now rewrite <- app_assoc.
  - split; [ discriminate | ]. split; [ exact Hshape | ].
    split; [ intros H0; lia | ]. split; [ intros _; exists first, tl, st; auto | ].
    intros f r st' E. injection E as <- <-. intros _ Hb'.
    rewrite Hb in Hb'. injection Hb' as <-. cbv zeta.
    split; [ reflexivity | ]. rewrite Ep. split; [ reflexivity | ].
    rewrite Ee. now rewrite <- app_assoc.
Qed.

End UpsertCalls.

(** X8: in the statement built from a batch, the value bound to the
    parameter of a column of a record has the type of its declaration:
    under a column whose upper case is [ID] it is the integer [int]
    reads in the value of the record, under any other column it is the
    [str] of that value. *)
Theorem bound_values_have_declared_types
        (float_repr : spec_float -> string)
        (columns : list string) (data : list Ydb.record) (st : Ydb.statement)
        (i : nat) (row : Ydb.record) (c : string) :
  NoDup columns ->
  Ydb.build float_repr columns data = Ok st ->
  nth_error data i = Some row ->
  In c columns ->
  exists x,
    dict_get row c = Some x
    /\ if Ydb.is_id c
       then In (Ydb.declare c i) (Ydb.declare_block st)
            /\ Ydb.declare c i
               = "DECLARE " ++ Ydb.param_name c i ++ " AS Int64;"
            /\ exists z,
                Py.int x = Ok z
                /\ dict_get (Ydb.param_values st) (Ydb.param_name c i)
                   = Some (Py.VInt z)
       else In (Ydb.declare c i) (Ydb.declare_block st)
            /\ Ydb.declare c i
               = "DECLARE " ++ Ydb.param_name c i ++ " AS Utf8;"
            /\ dict_get (Ydb.param_values st) (Ydb.param_name c i)
               = Some (Py.VStr (Ydb.str float_repr x)).
Proof.
  intros Hnd Hb Hrow Hc.
  destruct (build_closed float_repr columns data st Hnd Hb)
    as (Hd & _ & _ & Hv).
  destruct (Hv i row c Hrow Hc) as (v & Hpv & Hget).
  assert (Hin : In (Ydb.declare c i) (Ydb.declare_block st)).
  { rewrite Hd. apply in_flat_map. exists i. split.
    - apply in_seq.
      assert (i < List.length data) by (apply nth_error_Some; congruence).
      lia.
    - unfold declares_of.
      apply (in_map (fun col => Ydb.declare col i)). exact Hc. }
  unfold Ydb.param_value, dict_item in Hpv.
  destruct (dict_get row c) as [x|] eqn:Ex; [ | discriminate ].
  exists x. split; [ reflexivity | ].
  simpl in Hpv.
  destruct (Ydb.is_id c) eqn:Eid.
  - split; [ exact Hin | ].
    split; [ unfold Ydb.declare; now rewrite Eid | ].
    destruct (Py.int x) as [z|]; [ | discriminate ].
    injection Hpv as <-. eauto.
  - split; [ exact Hin | ].
    split; [ unfold Ydb.declare; now rewrite Eid | ].
    injection Hpv as <-. exact Hget.
Qed.

Lemma bound_values_have_declared_types_witness :
  exists x,
    dict_get [("ID", Py.VStr "1"); ("NAME", Py.VStr "a")] "ID" = Some x
    /\ exists st,
        Ydb.build sample_float_repr ["ID"; "NAME"] batch_two_orders = Ok st
        /\ dict_get (Ydb.param_values st) "$ID_0" = Some (Py.VInt 1).
Proof.
  assert (Hnd : NoDup ["ID"; "NAME"]).
  { repeat constructor; simpl; intuition discriminate. }
  destruct (Ydb.build sample_float_repr ["ID"; "NAME"] batch_two_orders)
    as [st|] eqn:Hb; [ | discriminate Hb ].
  pose proof (bound_values_have_declared_types
                sample_float_repr ["ID"; "NAME"] batch_two_orders st 0
                [("ID", Py.VStr "1"); ("NAME", Py.VStr "a")] "ID"
                Hnd Hb eq_refl (or_introl eq_refl)) as (x & Hx & H).
  exists x. split; [ exact Hx | ].
  exists st. split; [ reflexivity | ].
  injection Hx as <-.
  destruct H as (_ & _ & z & Hz & Hget).
  injection Hz as <-. exact Hget.
Defined.

(* ------------------------------------------------------------------ *)
(** ** [handler] *)

Section HandlerFacts.

Variable World : Type.
Variable http : World -> Portal.http_call -> World * result string.
Variable pads : bool.
Variable label : string.
Variable float_repr : spec_float -> string.
Variable Store : Type.
Variable store_prepare : Store -> string -> Store * result unit.
Variable store_execute : Store -> string -> dict Py.value -> Store * result unit.

Local Abbreviation sent := (Portal.sent World).
Local Abbreviation upload :=
  (Index.upload float_repr Store store_prepare store_execute).
Local Abbreviation handler :=
  (Index.handler World http pads label float_repr Store
                 store_prepare store_execute).
Local Abbreviation init := (Portal.init World http).
Local Abbreviation get_payments := (Portal.get_payments World http pads label).
Local Abbreviation get_premium_payments :=
  (Portal.get_premium_payments World http pads label).

(** The log of the store after the chunks of a table. *)
Lemma upload_log (table : string) (batches : list (list Ydb.record)) :
  forall s : Ydb.db Store,
  exists l,
    Ydb.calls (fst (upload table batches s)) = (Ydb.calls s ++ l)%list
    /\ (snd (upload table batches s) = Ok tt ->
        l = flat_map (batch_calls float_repr table) batches
        /\ Forall (fun b => List.length (batch_calls float_repr table b) = 2)
                  batches).
Proof.
  induction batches as [|chunk batches IH]; intros s; simpl.
  - exists []. split; [ now rewrite app_nil_r | auto ].
  - destruct (upset_data_log float_repr Store store_prepare store_execute
                             table chunk s) as (k & Hk & Hc & Hb).
    destruct (Ydb.upset_data float_repr store_prepare store_execute
                             table chunk s) as [s1 [b | e]] eqn:E;
      cbn [fst snd] in *.
    + destruct (Hb b eq_refl) as (_ & -> & Hlen).
      destruct (IH s1) as (l & Hl & Hok).
      exists (batch_calls float_repr table chunk ++ l)%list.
      rewrite Hl, Hc, <- app_assoc.
      rewrite firstn_all2 by lia.
      split; [ reflexivity | ].
      intros H. destruct (Hok H) as (-> & HF).
      split; [ reflexivity | now constructor ].
    + exists (firstn k (batch_calls float_repr table chunk)).
      split; [ exact Hc | discriminate ].
Qed.

Lemma report_ok_sent (self : Parser.ParseVendors) (filter_id type : string)
      (is_premium : bool) (n n' : Portal.net World)
      (rows : list Parser.payment) :
  (let '(n1, f) :=
     Portal.set_filter World http pads label self filter_id filter_id n in
   match f with
   | Raise e => (n1, Raise e)
   | Ok _ =>
       let '(n2, r) :=
         Portal.session_send World http n1
           (Portal.Get (Portal.export_request self type)) in
       match r with
       | Raise e => (n2, Raise e)
       | Ok text =>
           (n2, Parser._parse_csv_payments pads self text is_premium)
       end
   end) = (n', Ok rows) ->
  sent n' = (sent n ++ report_calls pads label self filter_id type)%list.
Proof.
  intros Hout.
  destruct (report_run World http pads label self filter_id type is_premium
                       n (n', Ok rows) (eq_sym Hout)) as (k & Hk & Hs & _ & Hl).
  cbn [fst snd] in *.
  destruct (nth_error _ (k - 1)) as [[text | e]|]; [ | congruence | tauto ].
  destruct Hl as [-> _]. exact Hs.
Qed.

Lemma length_chunks (A : Type) (l : list A) :
  List.length (Index.chunks A l) = (List.length l + 99) / 100.
Proof.
  unfold Index.chunks, Index.chunk_starts.
  rewrite !length_map, length_seq. unfold Index.chunk_size.
  f_equal. lia.
Qed.

Lemma length_flat_map_const (A B : Type) (f : A -> list B) (c : nat)
      (l : list A) :
  Forall (fun a => List.length (f a) = c) l ->
  List.length (flat_map f l) = c * List.length l.
Proof.
  induction 1 as [|a l Ha _ IH]; simpl; [ lia | ].
  rewrite length_app, Ha, IH. lia.
Qed.

(** X9: when [handler] returns, it returns the response 200 [ok], and
    then: the date of the run is the date of the event if [strptime]
    reads one and the time of the call otherwise; the portal received
    the login, the three requests of the premium report and the three
    of the standard report, in that order; the store received, for each
    chunk of the premium records and then for each chunk of the
    standard records, one prepare and one execute of the statement of
    the chunk, so twice as many calls as chunks. *)
Theorem handler_success
        (event : option string) (now : DateTime.datetime)
        (login password : option string)
        (n n' : Portal.net World) (s s' : Ydb.db Store)
        (resp : Index.response) :
  handler event now login password n s = (n', s', Portal.Returns resp) ->
  resp = Index.Response 200 "ok"
  /\ exists self n0 n1 premium payments,
      init (Index.event_date event) now login password n
      = (n0, Portal.Returns self)
      /\ Parser.date_time self
         = match Index.event_date event with
           | Some d => d
           | None => now
           end
      /\ get_premium_payments self n0 = (n1, Ok premium)
      /\ get_payments self n1 = (n', Ok payments)
      /\ sent n'
         = (sent n
              ++ Portal.Post (Portal.auth_request login password)
              :: report_calls pads label self
                   "mp24_subscription_premium_for_partners" "payouts_premium"
              ++ report_calls pads label self
                   "mp24_subscription_partner" "payouts")%list
      /\ Ydb.calls s'
         = (Ydb.calls s
              ++ flat_map (batch_calls float_repr "payments_premium")
                          (Index.chunks Ydb.record premium)
              ++ flat_map (batch_calls float_repr "payments")
                          (Index.chunks Ydb.record payments))%list
      /\ List.length (Ydb.calls s')
         = List.length (Ydb.calls s)
           + 2 * ((List.length premium + 99) / 100
                  + (List.length payments + 99) / 100).
Proof.
  unfold Index.handler.
  destruct (init (Index.event_date event) now login password n)
    as [n0 [self | e0]] eqn:Einit; [ | discriminate ].
  destruct (get_premium_payments self n0) as [n1 [premium | e1]] eqn:Eprem;
    [ | discriminate ].
  destruct (upload_log "payments_premium" (Index.chunks Ydb.record premium) s)
    as (l1 & Hl1 & Hok1).
  destruct (upload "payments_premium" (Index.chunks Ydb.record premium) s)
    as [s1 [[] | e2]] eqn:Eup1; [ | discriminate ].
  destruct (get_payments self n1) as [n2 [payments | e3]] eqn:Estd;
    [ | discriminate ].
  destruct (upload_log "payments" (Index.chunks Ydb.record payments) s1)
    as (l2 & Hl2 & Hok2).
  destruct (upload "payments" (Index.chunks Ydb.record payments) s1)
    as [s2 [[] | e4]] eqn:Eup2; [ | discriminate ].
  intros [= <- <- <-]. split; [ reflexivity | ].
  cbn [fst snd] in *.
  destruct (Hok1 eq_refl) as (-> & HF1).
  destruct (Hok2 eq_refl) as (-> & HF2).
  exists self, n0, n1, premium, payments.
  split; [ reflexivity | ].
  assert (Hinit : Parser.date_time self
                  = match Index.event_date event with
                    | Some d => d
                    | None => now
                    end
                  /\ sent n0
                     = (sent n ++ [Portal.Post (Portal.auth_request login password)])%list).
  { revert Einit. unfold Portal.init, Portal.auth, Portal.session_send.
    destruct (http (Portal.world World n) _) as [w [text | e]].
    - destruct (Portal.search_sessid (Str.chars text)); [ | discriminate ].
      intros [= <- <-]. split; reflexivity.
    - destruct e; discriminate. }
  destruct Hinit as [Hdate Hsent0].
  split; [ exact Hdate | ].
  split; [ exact Eprem | ]. split; [ exact Estd | ].
  assert (Hs1 : sent n1
                = (sent n0
                     ++ report_calls pads label self
                          "mp24_subscription_premium_for_partners"
                          "payouts_premium")%list).
  { exact (report_ok_sent self "mp24_subscription_premium_for_partners"
                          "payouts_premium" true n0 n1 premium Eprem). }
  assert (Hs2 : sent n2
                = (sent n1
                     ++ report_calls pads label self
                          "mp24_subscription_partner" "payouts")%list).
  { exact (report_ok_sent self "mp24_subscription_partner" "payouts" false
                          n1 n2 payments Estd). }
  split.
  { rewrite Hs2, Hs1, Hsent0, <- !app_assoc. reflexivity. }
  assert (Hcalls : Ydb.calls s2
                   = (Ydb.calls s
                        ++ flat_map (batch_calls float_repr "payments_premium")
                                    (Index.chunks Ydb.record premium)
                        ++ flat_map (batch_calls float_repr "payments")
                                    (Index.chunks Ydb.record payments))%list).
  { rewrite Hl2, Hl1, <- app_assoc. reflexivity. }
  split; [ exact Hcalls | ].
  rewrite Hcalls, !length_app.
  rewrite (length_flat_map_const _ _ _ 2 _ HF1).
  rewrite (length_flat_map_const _ _ _ 2 _ HF2).
  rewrite !length_chunks, Nat.mul_add_distr_l. reflexivity.
Qed.

(** X10: whatever happens, [handler] only adds calls to the log of the
    store.  When the login fails, [handler] raises what [auth] raised
    after the one request of the login and the store is not called;
    when the premium report raises, the store is not called either. *)
Theorem handler_failure_before_upload
        (event : option string) (now : DateTime.datetime)
        (login password : option string)
        (n : Portal.net World) (s : Ydb.db Store) :
  let out := handler event now login password n s in
  let auth := Portal.auth World http login password n in
  (exists l, Ydb.calls (snd (fst out)) = (Ydb.calls s ++ l)%list)
  /\ (forall e,
         snd auth = Portal.Raises e ->
         out = (fst auth, s, Portal.Raises e)
         /\ sent (fst auth)
            = (sent n ++ [Portal.Post (Portal.auth_request login password)])%list)
  /\ (forall id e,
         snd auth = Portal.Returns id ->
         let self := Parser.Self match Index.event_date event with
                                 | Some d => d
                                 | None => now
                                 end id in
         snd (get_premium_payments self (fst auth)) = Raise e ->
         out = (fst (get_premium_payments self (fst auth)), s,
                Portal.Raises (Portal.Exn e))).
Proof.
  intros out auth. subst out auth.
  unfold Index.handler, Portal.init.
  split; [ | split ].
  - destruct (Portal.auth World http login password n) as [n0 [id | e0]];
      [ | exists []; now rewrite app_nil_r ].
    destruct (get_premium_payments _ n0) as [n1 [premium | e1]];
      [ | exists []; now rewrite app_nil_r ].
    destruct (upload_log "payments_premium" (Index.chunks Ydb.record premium) s)
      as (l1 & Hl1 & _).
    destruct (upload "payments_premium" (Index.chunks Ydb.record premium) s)
      as [s1 [[] | e2]]; cbn [fst snd] in *; [ | now exists l1 ].
    destruct (get_payments _ n1) as [n2 [payments | e3]]; [ | now exists l1 ].
    destruct (upload_log "payments" (Index.chunks Ydb.record payments) s1)
      as (l2 & Hl2 & _).
    destruct (upload "payments" (Index.chunks Ydb.record payments) s1)
      as [s2 [[] | e4]]; cbn [fst snd] in *;
      exists (l1 ++ l2)%list; now rewrite Hl2, Hl1, <- app_assoc.
  - intros e He. split.
    + destruct (Portal.auth World http login password n) as [n0 [id | e0]];
        cbn [fst snd] in *; [ discriminate | now injection He as -> ].
    + unfold Portal.auth, Portal.session_send.
      destruct (http (Portal.world World n) _) as [w [text | e']].
      * now destruct (Portal.search_sessid (Str.chars text)).
      * now destruct e'.
  - intros id e Hid Hprem.
    destruct (Portal.auth World http login password n) as [n0 [id' | e0]];
      cbn [fst snd] in *; [ | discriminate ].
    injection Hid as ->.
    destruct (get_premium_payments _ n0) as [n1 [premium | e1]];
      cbn [fst snd] in *; [ discriminate | now injection Hprem as -> ].
Qed.

End HandlerFacts.

Lemma handler_success_witness :
  exists n' s',
    handler_sample sample_portal
    = (n', s', Portal.Returns (Index.Response 200 "ok"))
    /\ List.length (Portal.sent nat n') = 7
    /\ List.length (Ydb.calls s') = 4.
Proof.
  destruct (handler_sample sample_portal) as [[n' s'] r] eqn:E.
  assert (Hr : r = Portal.Returns (Index.Response 200 "ok")).
  { apply (f_equal snd) in E. vm_compute in E. now subst r. }
  subst r.
  pose proof (handler_success nat sample_portal false "F" sample_float_repr nat
                counting_prepare counting_execute
                (Some "15.07.2024") (DateTime.Date 2024 7 16) None None
                (Portal.Net nat 0 []) n' (Ydb.Db 0 []) s'
                (Index.Response 200 "ok") E) as H.
  exists n', s'. split; [ reflexivity | ].
  destruct H as (_ & self & n0 & n1 & premium & payments
                 & _ & _ & _ & _ & Hsent & _ & _).
  split.
  - rewrite Hsent. reflexivity.
  - apply (f_equal (fun x => List.length (Ydb.calls (snd (fst x))))) in E.
    vm_compute in E. symmetry. exact E.
Defined.

Lemma handler_failure_before_upload_witness :
  Ydb.calls (snd (fst (handler_sample offline_portal))) = []
  /\ snd (handler_sample offline_portal)
     = Portal.Raises Portal.AuthenticationError.
Proof.
  pose proof (handler_failure_before_upload
                nat offline_portal false "F" sample_float_repr nat
                counting_prepare counting_execute
                (Some "15.07.2024") (DateTime.Date 2024 7 16) None None
                (Portal.Net nat 0 []) (Ydb.Db 0 [])) as (_ & H & _).
  destruct (H Portal.AuthenticationError eq_refl) as [Hout _].
  unfold handler_sample. rewrite Hout. split; reflexivity.
Defined.

(* ------------------------------------------------------------------ *)
(** ** Dates: from the text of the export and of the event and back *)

Lemma hd_error_flat_map (A B : Type) (f : A -> list B) (l : list A)
      (x : A) (y : B) (tl : list B) :
  hd_error l = Some x -> f x = y :: tl ->
  hd_error (flat_map f l) = Some y.
Proof.
  destruct l as [|a l]; [ discriminate | ].
  intros [= ->] Hf. simpl. now rewrite Hf.
Qed.

Lemma match_d_padded (d : nat) (r : list ascii) :
  1 <= d <= 31 ->
  hd_error (DateTime.match_d (Str.chars (DateTime.fmt_2 d) ++ r)) = Some (d, r).
Proof.
  intros H.
  do 32 (destruct d as [|d]; [ try lia; reflexivity | ]). lia.
Qed.

Lemma match_d_plain (d : nat) (r : list ascii) :
  1 <= d <= 31 ->
  hd_error (DateTime.match_d (Str.chars (Str.of_nat d) ++ "."%char :: r))
  = Some (d, "."%char :: r).
Proof.
  intros H.
  do 32 (destruct d as [|d]; [ try lia; reflexivity | ]). lia.
Qed.

Lemma match_m_padded (m : nat) (r : list ascii) :
  1 <= m <= 12 ->
  hd_error (DateTime.match_m (Str.chars (DateTime.fmt_2 m) ++ r)) = Some (m, r).
Proof.
  intros H.
  do 13 (destruct m as [|m]; [ try lia; reflexivity | ]). lia.
Qed.

Lemma match_m_plain (m : nat) (r : list ascii) :
  1 <= m <= 12 ->
  hd_error (DateTime.match_m (Str.chars (Str.of_nat m) ++ "."%char :: r))
  = Some (m, "."%char :: r).
Proof.
  intros H.
  do 13 (destruct m as [|m]; [ try lia; reflexivity | ]). lia.
Qed.

Lemma of_nat_short (y : nat) :
  y <= 9999 -> String.length (Str.of_nat y) <= 4.
Proof.
  intros H. change 9999 with (99 * 101) in H.
  assert (Hall : forallb (fun y => String.length (Str.of_nat y) <=? 4)
                         (seq 0 (100 * 100)) = true) by (vm_compute; reflexivity).
  rewrite forallb_forall in Hall.
  apply Nat.leb_le. apply Hall. apply in_seq. lia.
Qed.

Lemma length_chars (s : string) : List.length (Str.chars s) = String.length s.
Proof. induction s as [|c s IH]; simpl; [ reflexivity | now rewrite IH ]. Qed.

Lemma match_Y_year (y : nat) :
  y <= 9999 ->
  DateTime.match_Y (Str.chars (Str.zero_pad 4 y)) = Some (y, []).
Proof.
  intros H.
  pose proof (zero_pad_digits 4 y) as Hd.
  pose proof (zero_pad_value 4 y) as Hv.
  assert (Hlen : List.length (Str.chars (Str.zero_pad 4 y)) = 4).
  { rewrite zero_pad_chars, length_app, repeat_length, length_chars.
    pose proof (of_nat_short y H). lia. }
  destruct (Str.chars (Str.zero_pad 4 y)) as [|a [|b [|c [|d [|e l]]]]];
    try discriminate Hlen.
  unfold DateTime.match_Y.
  apply Forall_cons_iff in Hd. destruct Hd as [Ha Hd].
  apply Forall_cons_iff in Hd. destruct Hd as [Hb Hd].
  apply Forall_cons_iff in Hd. destruct Hd as [Hc Hd].
  apply Forall_cons_iff in Hd. destruct Hd as [Hd' _].
  cbn [forallb]. rewrite Ha, Hb, Hc, Hd'. cbn [andb].
  now rewrite Hv.
Qed.

(** The text of a date the regular expression of [strptime] reads: the
    day and the month with or without a zero on the left. *)
Lemma regex_match_date (d m y : nat) (dtext mtext : string) :
  1 <= d <= 31 -> 1 <= m <= 12 -> y <= 9999 ->
  dtext = DateTime.fmt_2 d \/ dtext = Str.of_nat d ->
  mtext = DateTime.fmt_2 m \/ mtext = Str.of_nat m ->
  DateTime.regex_match
    (Str.chars (dtext ++ "." ++ mtext ++ "." ++ Str.zero_pad 4 y))
  = Some (d, m, y, []).
Proof.
  intros Hd Hm Hy Hdt Hmt.
  rewrite !chars_app.
  change (Str.chars ".") with ["."%char]. cbn [app].
  set (ys := Str.chars (Str.zero_pad 4 y)).
  assert (HY : DateTime.match_Y ys = Some (y, [])) by now apply match_Y_year.
  assert (HM : hd_error (DateTime.match_m (Str.chars mtext ++ "."%char :: ys))
               = Some (m, "."%char :: ys)).
  { destruct Hmt as [-> | ->];
      [ now apply match_m_padded | now apply match_m_plain ]. }
  assert (HA : DateTime.match_after_d
                 ("."%char :: Str.chars mtext ++ "."%char :: ys)
               = Some (m, y, [])).
  { unfold DateTime.match_after_d. cbn [DateTime.match_dot Ascii.eqb].
    change (Ascii.eqb "." ".") with true. cbv iota.
    apply (hd_error_flat_map _ _ _ _ (m, "."%char :: ys) _ [] HM).
    cbn [snd fst DateTime.match_dot].
    change (Ascii.eqb "." ".") with true. cbv iota. now rewrite HY. }
  unfold DateTime.regex_match.
  assert (HD : hd_error (DateTime.match_d
                           (Str.chars dtext
                              ++ "."%char :: Str.chars mtext ++ "."%char :: ys))
               = Some (d, "."%char :: Str.chars mtext ++ "."%char :: ys)).
  { destruct Hdt as [-> | ->];
      [ now apply match_d_padded | now apply match_d_plain ]. }
  apply (hd_error_flat_map _ _ _ _ _ _ [] HD).
  cbn [snd fst]. now rewrite HA.
Qed.

Lemma days_in_month_le (y m : nat) : DateTime.days_in_month y m <= 31.
Proof.
  unfold DateTime.days_in_month.
  do 13 (destruct m as [|m]; [ try destruct (DateTime.is_leap y); lia | ]).
  lia.
Qed.

Lemma valid_bounds (dt : DateTime.datetime) :
  DateTime.valid dt = true ->
  1 <= DateTime.day dt <= 31 /\ 1 <= DateTime.month dt <= 12
  /\ 1 <= DateTime.year dt <= 9999.
Proof.
  unfold DateTime.valid. intros H.
  repeat (apply andb_prop in H; destruct H as [H ?]).
  repeat match goal with
         | H : (_ <=? _) = true |- _ => apply Nat.leb_le in H
         end.
  pose proof (days_in_month_le (DateTime.year dt) (DateTime.month dt)).
  lia.
Qed.

(** X11: reading the text of a date gives the date back.  For a date a
    [datetime] can hold, written day, month, year with dots between
    them, the year on four digits and the day and the month with or
    without a zero on the left, [strptime] returns that date: the
    handler runs on the date of such an event, and the parser turns
    such a date field of the export into the year, month and day with
    dashes. *)
Theorem date_text_round_trip
        (pads : bool) (dt : DateTime.datetime) (dtext mtext : string) :
  DateTime.valid dt = true ->
  dtext = DateTime.fmt_2 (DateTime.day dt) \/ dtext = Str.of_nat (DateTime.day dt) ->
  mtext = DateTime.fmt_2 (DateTime.month dt)
  \/ mtext = Str.of_nat (DateTime.month dt) ->
  let text := dtext ++ "." ++ mtext ++ "." ++ Str.zero_pad 4 (DateTime.year dt) in
  DateTime.strptime text = Ok dt
  /\ Index.event_date (Some text) = Some dt
  /\ forall key,
      In key Parser.date_keys ->
      Parser.convert pads key text
      = Ok (Py.VStr (DateTime.strftime_Ymd pads dt)).
Proof.
  intros Hv Hd Hm text.
  destruct (valid_bounds dt Hv) as (Hdb & Hmb & Hyb).
  assert (Hs : DateTime.strptime text = Ok dt).
  { unfold DateTime.strptime. subst text.
    rewrite (regex_match_date (DateTime.day dt) (DateTime.month dt)
                              (DateTime.year dt) dtext mtext)
      by (assumption || lia).
    destruct dt as [y m d]. cbn [DateTime.year DateTime.month DateTime.day] in *.
    now rewrite Hv. }
  split; [ exact Hs | split ].
  - unfold Index.event_date. rewrite Hs.
    assert (Hne : String.eqb text "" = false).
    { apply String.eqb_neq. subst text. intros E.
      apply (f_equal Str.chars) in E. rewrite chars_app in E.
      apply app_eq_nil in E. destruct E as [_ E]. discriminate E. }
    now rewrite Hne.
  - intros key Hk. unfold Parser.convert.
    assert (Hdate : mem key Parser.date_keys = true).
    { apply mem_spec. exact Hk. }
    assert (Ham : mem key Parser.amount_keys = false).
    { destruct Hk as [<- | [<- | [<- | []]]]; reflexivity. }
    rewrite Ham, Hdate, Hs. reflexivity.
Qed.

Lemma date_text_round_trip_witness :
  DateTime.strptime "5.07.2024" = Ok (DateTime.Date 2024 7 5)
  /\ Parser.convert false "DATE_OF_USE" "5.07.2024" = Ok (Py.VStr "2024-07-05").
Proof.
  pose proof (date_text_round_trip false (DateTime.Date 2024 7 5) "5" "07"
                eq_refl (or_intror eq_refl) (or_introl eq_refl))
    as (Hs & _ & Hc).
  split; [ exact Hs | ].
  exact (Hc "DATE_OF_USE" (or_introl eq_refl)).
Defined.

(* ------------------------------------------------------------------ *)
(** ** The shape of the digest *)

Lemma length_compress (h block : list Z) :
  List.length h = 8 -> List.length (Sha256.compress h block) = 8.
Proof.
  intros H. unfold Sha256.compress.
  rewrite length_map, length_combine, H. reflexivity.
Qed.

Lemma length_digest (msg : list Z) : List.length (Sha256.digest msg) = 8.
Proof.
  unfold Sha256.digest.
  set (bs := Sha256.blocks _ _). clearbody bs.
  assert (H0 : List.length Sha256.H0 = 8) by (vm_compute; reflexivity).
  revert H0. generalize Sha256.H0.
  induction bs as [|b bs IH]; intros h Hh; simpl; [ exact Hh | ].
  apply IH. now apply length_compress.
Qed.

Lemma hex_digit_is_hex (n : Z) :
  (0 <= n < 16)%Z -> Portal.is_hex (Sha256.hex_digit n) = true.
Proof.
  intros H. rewrite <- (Z2Nat.id n) by lia.
  assert (Hk : Z.to_nat n < 16) by lia.
  revert Hk. generalize (Z.to_nat n). intros k Hk.
  do 16 (destruct k as [|k]; [ reflexivity | ]). lia.
Qed.

Lemma hex_word_shape (w : Z) :
  List.length (Sha256.hex_word w) = 8
  /\ forallb Portal.is_hex (Sha256.hex_word w) = true.
Proof.
  unfold Sha256.hex_word. split.
  - now rewrite length_map, length_rev, length_seq.
  - apply forallb_forall. intros c Hc. apply in_map_iff in Hc.
    destruct Hc as (i & <- & _). apply hex_digit_is_hex.
    change 15%Z with (Z.ones 4). rewrite Z.land_ones by lia.
    apply Z.mod_pos_bound. reflexivity.
Qed.

Lemma flat_map_hex_shape (ws : list Z) :
  List.length (flat_map Sha256.hex_word ws) = 8 * List.length ws
  /\ forallb Portal.is_hex (flat_map Sha256.hex_word ws) = true.
Proof.
  induction ws as [|w ws [IHl IHh]]; [ split; reflexivity | ].
  destruct (hex_word_shape w) as [Hl Hh].
  cbn [flat_map]. split.
  - rewrite length_app, Hl, IHl. simpl List.length. lia.
  - now rewrite forallb_app, Hh, IHh.
Qed.

(** X12: the digest is always a word of 64 of the characters [0-9a-f],
    whatever the text; so is the [hash] field of every record the
    premium report builds. *)
Theorem hexdigest_shape (s : string) :
  String.length (Sha256.hexdigest s) = 64
  /\ forallb Portal.is_hex (Str.chars (Sha256.hexdigest s)) = true
  /\ forall pads self p p',
      Parser.add_premium_fields pads self p = Ok p' ->
      exists h,
        dict_get p' "hash" = Some (Py.VStr h)
        /\ String.length h = 64
        /\ forallb Portal.is_hex (Str.chars h) = true.
Proof.
  assert (H : forall t,
             String.length (Sha256.hexdigest t) = 64
             /\ forallb Portal.is_hex (Str.chars (Sha256.hexdigest t)) = true).
  { intros t. unfold Sha256.hexdigest.
    destruct (flat_map_hex_shape (Sha256.digest (Sha256.encode t))) as [Hl Hh].
    rewrite length_digest in Hl.
    rewrite <- length_chars, chars_of_chars. split; [ exact Hl | exact Hh ]. }
  split; [ apply H | split; [ apply H | ] ].
  intros pads self p p'. unfold Parser.add_premium_fields.
  destruct (Parser.concat_member p _) as [pre | e]; [ | discriminate ].
  simpl. intros [= <-].
  exists (Sha256.hexdigest pre). split; [ | apply H ].
  rewrite dict_get_set_other by discriminate.
  apply dict_get_set_same.
Qed.

(* ------------------------------------------------------------------ *)
(** ** Reading an export of plain lines *)

Lemma plain_char_spec (c : ascii) :
  plain_char c = true ->
  Csv.is_newline c = false /\ Ascii.eqb c Csv.delimiter = false
  /\ Ascii.eqb c Csv.quotechar = false /\ Ascii.eqb c "010" = false.
Proof.
  unfold plain_char, Csv.is_newline. intros H.
  apply negb_true_iff in H.
  apply orb_false_iff in H. destruct H as [H Hn].
  apply orb_false_iff in H. destruct H as [Hd Hq].
  pose proof Hn as Hn'.
  apply orb_false_iff in Hn'. destruct Hn' as [Hlf _].
  auto.
Qed.

(** The characters of a plain field go to the field being read. *)
Lemma feed_in_field (cs : list ascii) :
  forall (buf : list ascii) (fs : list string) (rest : list ascii),
    forallb plain_char cs = true ->
    (Z.of_nat (List.length buf + List.length cs) <= Csv.field_limit)%Z ->
    Csv.feed_line (Csv.Reader Csv.IN_FIELD buf fs) (cs ++ rest)
    = Csv.feed_line (Csv.Reader Csv.IN_FIELD (List.rev cs ++ buf) fs) rest.
Proof.
  induction cs as [|c cs IH]; intros buf fs rest Hp Hlen; [ reflexivity | ].
  cbn [forallb] in Hp. apply andb_prop in Hp. destruct Hp as [Hc Hp].
  destruct (plain_char_spec c Hc) as (Hn & Hd & _ & _).
  cbn [app Csv.feed_line]. unfold Csv.parse_process_char.
  cbn [Csv.state]. rewrite Hn, Hd. unfold Csv.parse_add_char.
  cbn [Csv.field Csv.fields].
  cbn [List.length] in Hlen.
  destruct (Csv.field_limit <=? Z.of_nat (List.length buf))%Z eqn:E.
  { apply Z.leb_le in E. lia. }
  cbn [bind]. rewrite IH; [ | exact Hp | cbn [List.length]; lia ].
  cbn [List.rev]. now rewrite <- app_assoc.
Qed.

(** A plain field at the start of a record or of a field. *)
Lemma feed_field_start (s0 : Csv.parse_state) (cs : list ascii) :
  s0 = Csv.START_RECORD \/ s0 = Csv.START_FIELD ->
  forall (fs : list string) (rest : list ascii),
    cs <> [] ->
    forallb plain_char cs = true ->
    (Z.of_nat (List.length cs) <= Csv.field_limit)%Z ->
    Csv.feed_line (Csv.Reader s0 [] fs) (cs ++ rest)
    = Csv.feed_line (Csv.Reader Csv.IN_FIELD (List.rev cs) fs) rest.
Proof.
  intros Hs fs rest Hne Hp Hlen.
  destruct cs as [|c cs]; [ congruence | ].
  cbn [forallb] in Hp. apply andb_prop in Hp. destruct Hp as [Hc Hp].
  destruct (plain_char_spec c Hc) as (Hn & Hd & Hq & _).
  cbn [List.length] in Hlen.
  assert (Hstep : Csv.parse_process_char (Csv.Reader s0 [] fs) (Csv.Char c)
                  = Ok (Csv.Reader Csv.IN_FIELD [c] fs)).
  { unfold Csv.parse_process_char, Csv.start_field.
    destruct Hs as [-> | ->]; cbn [Csv.state]; rewrite Hn, Hq, Hd;
      reflexivity. }
  cbn [app Csv.feed_line]. rewrite Hstep. cbn [bind].
  rewrite feed_in_field; [ | exact Hp | cbn [List.length]; lia ].
  cbn [List.rev]. reflexivity.
Qed.

Lemma plain_field_spec (f : string) :
  plain_field f = true ->
  forallb plain_char (Str.chars f) = true
  /\ (Z.of_nat (List.length (Str.chars f)) <= Csv.field_limit)%Z.
Proof.
  unfold plain_field. intros H. apply andb_prop in H. destruct H as [Hp Hl].
  apply Z.leb_le in Hl. rewrite length_chars. auto.
Qed.

Lemma of_chars_rev_rev (f : string) :
  Str.of_chars (List.rev (List.rev (Str.chars f))) = f.
Proof. rewrite rev_involutive. apply of_chars_chars. Qed.

(** A plain field and the delimiter after it. *)
Lemma feed_field_delimiter (s0 : Csv.parse_state) (f : string) :
  s0 = Csv.START_RECORD \/ s0 = Csv.START_FIELD ->
  plain_field f = true ->
  forall (fs : list string) (rest : list ascii),
    Csv.feed_line (Csv.Reader s0 [] fs) (Str.chars f ++ ";"%char :: rest)
    = Csv.feed_line (Csv.Reader Csv.START_FIELD [] (fs ++ [f])) rest.
Proof.
  intros Hs Hf fs rest.
  destruct (plain_field_spec f Hf) as [Hp Hlen].
  destruct (Str.chars f) as [|c cs] eqn:Ec.
  - apply chars_nil in Ec. subst f.
    cbn [app Csv.feed_line]. unfold Csv.parse_process_char, Csv.start_field.
    destruct Hs as [-> | ->]; reflexivity.
  - rewrite feed_field_start; [ | exact Hs | discriminate | exact Hp | exact Hlen ].
    cbn [Csv.feed_line]. unfold Csv.parse_process_char. cbn [Csv.state].
    change (Csv.is_newline ";") with false.
    change (Ascii.eqb ";" Csv.delimiter) with true. cbv iota.
    unfold Csv.parse_save_field. cbn [Csv.field Csv.fields bind].
    rewrite <- Ec, of_chars_rev_rev. reflexivity.
Qed.

(** The last plain field of a line and the line feed after it. *)
Lemma feed_field_end (s0 : Csv.parse_state) (f : string) :
  s0 = Csv.START_FIELD \/ (s0 = Csv.START_RECORD /\ f <> "") ->
  plain_field f = true ->
  forall fs : list string,
    Csv.feed_line (Csv.Reader s0 [] fs) (Str.chars f ++ ["010"%char])
    = Ok (Csv.Reader Csv.START_RECORD [] (fs ++ [f])).
Proof.
  intros Hs Hf fs.
  destruct (plain_field_spec f Hf) as [Hp Hlen].
  destruct (Str.chars f) as [|c cs] eqn:Ec.
  - apply chars_nil in Ec. subst f.
    destruct Hs as [-> | [_ Hne]]; [ reflexivity | congruence ].
  - rewrite feed_field_start; [ | | discriminate | exact Hp | exact Hlen ].
    + cbn [Csv.feed_line]. unfold Csv.parse_process_char at 1. cbn [Csv.state].
      change (Csv.is_newline "010") with true. cbv iota.
      unfold Csv.parse_save_field. cbn [Csv.field Csv.fields bind].
      rewrite <- Ec, of_chars_rev_rev. reflexivity.
    + destruct Hs as [-> | [-> _]]; auto.
Qed.

Lemma plain_row_fields (row : list string) :
  plain_row row = true -> forallb plain_field row = true.
Proof.
  destruct row as [|f [|g row]]; simpl; [ discriminate | | auto ].
  intros H. apply andb_prop in H. destruct H as [_ ->]. reflexivity.
Qed.

(** A line of plain fields. *)
Lemma feed_plain_line (row : list string) :
  forall (s0 : Csv.parse_state) (fs : list string),
    row <> [] ->
    forallb plain_field row = true ->
    s0 = Csv.START_FIELD \/ (s0 = Csv.START_RECORD /\ row <> [""]) ->
    Csv.feed_line (Csv.Reader s0 [] fs)
                  (Str.chars (Str.join ";" row) ++ ["010"%char])
    = Ok (Csv.Reader Csv.START_RECORD [] (fs ++ row)).
Proof.
  induction row as [|f row IH]; intros s0 fs Hne Hp Hs; [ congruence | ].
  cbn [forallb] in Hp. apply andb_prop in Hp. destruct Hp as [Hf Hp].
  destruct row as [|g row].
  - cbn [Str.join]. apply feed_field_end; [ | exact Hf ].
    destruct Hs as [-> | [-> Hr]]; [ now left | right ].
    split; [ reflexivity | congruence ].
  - change (Str.join ";" (f :: g :: row))
      with (f ++ ";" ++ Str.join ";" (g :: row)).
    rewrite !chars_app. change (Str.chars ";") with [";"%char].
    rewrite <- !app_assoc. cbn [app].
    rewrite feed_field_delimiter; [ | | exact Hf ].
    + rewrite IH; [ | discriminate | exact Hp | now left ].
      now rewrite <- app_assoc.
    + destruct Hs as [-> | [-> _]]; auto.
Qed.

Lemma plain_row_not_empty (row : list string) :
  plain_row row = true -> row <> [] /\ row <> [""].
Proof.
  destruct row as [|f [|g row]]; simpl; [ discriminate | | ].
  - intros H. apply andb_prop in H. destruct H as [H _].
    apply negb_true_iff in H. apply String.eqb_neq in H.
    split; congruence.
  - intros _. split; discriminate.
Qed.

Lemma plain_line_no_newline (row : list string) :
  forallb plain_field row = true ->
  forallb (fun c => negb (Ascii.eqb c "010")) (Str.chars (Str.join ";" row))
  = true.
Proof.
  induction row as [|f row IH]; intros Hp; [ reflexivity | ].
  cbn [forallb] in Hp. apply andb_prop in Hp. destruct Hp as [Hf Hp].
  assert (Hfc : forallb (fun c => negb (Ascii.eqb c "010")) (Str.chars f) = true).
  { destruct (plain_field_spec f Hf) as [Hpc _].
    apply forallb_forall. intros c Hc.
    rewrite forallb_forall in Hpc.
    destruct (plain_char_spec c (Hpc c Hc)) as (_ & _ & _ & ->). reflexivity. }
  destruct row as [|g row]; [ exact Hfc | ].
  change (Str.join ";" (f :: g :: row))
    with (f ++ ";" ++ Str.join ";" (g :: row)).
  rewrite !chars_app, !forallb_app, Hfc, (IH Hp). reflexivity.
Qed.

Lemma lines_from_line (l : list ascii) :
  forall (cur rest : list ascii),
    forallb (fun c => negb (Ascii.eqb c "010")) l = true ->
    Csv.lines_from cur (l ++ "010"%char :: rest)
    = (List.rev cur ++ l ++ ["010"%char])%list :: Csv.lines_from [] rest.
Proof.
  induction l as [|c l IH]; intros cur rest Hl.
  - cbn [app Csv.lines_from]. change (Ascii.eqb "010" "010") with true.
    cbv iota. cbn [List.rev]. reflexivity.
  - cbn [forallb] in Hl. apply andb_prop in Hl. destruct Hl as [Hc Hl].
    apply negb_true_iff in Hc.
    cbn [app Csv.lines_from]. rewrite Hc, IH by exact Hl.
    cbn [List.rev]. now rewrite <- !app_assoc.
Qed.

Lemma lines_export_text (rows : list (list string)) :
  forallb plain_row rows = true ->
  Csv.lines (export_text rows)
  = map (fun row => Str.chars (Str.join ";" row) ++ ["010"%char])%list rows.
Proof.
  unfold Csv.lines.
  induction rows as [|row rows IH]; intros Hp; [ reflexivity | ].
  cbn [forallb] in Hp. apply andb_prop in Hp. destruct Hp as [Hr Hp].
  cbn [export_text fold_right map]. unfold export_line, line.
  rewrite !chars_app. change (Str.chars (String "010" "")) with ["010"%char].
  rewrite <- !app_assoc. cbn [app].
  rewrite lines_from_line
    by (apply plain_line_no_newline; now apply plain_row_fields).
  cbn [List.rev app]. f_equal. apply IH. exact Hp.
Qed.

Lemma records_plain_lines (rows : list (list string)) :
  forallb plain_row rows = true ->
  Csv.records
    (map (fun row => Str.chars (Str.join ";" row) ++ ["010"%char])%list rows)
    Csv.parse_reset
  = (rows, None).
Proof.
  induction rows as [|row rows IH]; intros Hp; [ reflexivity | ].
  cbn [forallb] in Hp. apply andb_prop in Hp. destruct Hp as [Hr Hp].
  destruct (plain_row_not_empty row Hr) as [Hne Hne1].
  cbn [map Csv.records]. unfold Csv.parse_reset at 1.
  rewrite (feed_plain_line row Csv.START_RECORD []);
    [ | exact Hne | now apply plain_row_fields | right; auto ].
  cbn [Csv.state Csv.state_eqb Csv.fields app].
  now rewrite (IH Hp).
Qed.

(** X13: an export written row by row, the fields of a row with [;]
    between them and a line feed after them, is read back as these rows
    when no field holds [;], a quote, a carriage return or a line feed
    and no row is the row of one empty field.  The standard report then
    gives the records of the rows after the first that hold more than
    one field and a non-empty [ID], under the header without its last
    field. *)
Theorem plain_export_is_read_back
        (pads : bool) (self : Parser.ParseVendors)
        (hdr : list string) (rows : list (list string)) :
  forallb plain_row (hdr :: rows) = true ->
  Csv.reader_rows (export_text (hdr :: rows)) = (hdr :: rows, None)
  /\ Parser._parse_csv_payments pads self (export_text (hdr :: rows)) false
     = Ok (filter Parser.has_id
                  (map (record_of pads (removelast hdr)) (data_rows rows))).
Proof.
  intros Hp.
  assert (Hr : Csv.reader_rows (export_text (hdr :: rows)) = (hdr :: rows, None)).
  { unfold Csv.reader_rows. rewrite lines_export_text by exact Hp.
    now apply records_plain_lines. }
  split; [ exact Hr | ].
  unfold Parser._parse_csv_payments. rewrite Hr.
  rewrite parse_rows_standard. reflexivity.
Qed.

Lemma plain_export_is_read_back_witness :
  Csv.reader_rows sample_export
  = ([ ["ID"; "MEMBER_ID"; "DATE_OF_USE"; ""];
       ["7"; "abc"; "15.07.2024"; ""] ], None).
Proof.
  exact (proj1 (plain_export_is_read_back
                  false (Parser.Self (DateTime.Date 2024 7 16) "0af9")
                  ["ID"; "MEMBER_ID"; "DATE_OF_USE"; ""]
                  [ ["7"; "abc"; "15.07.2024"; ""] ] eq_refl)).
Defined.

(* ------------------------------------------------------------------ *)
(** ** The records of a report as a batch *)

(** The keys after a series of assignments depend on the keys before
    and on the keys assigned only. *)
Lemma keys_fold_set (V : Type) (g g' : string * string -> V)
      (kvs kvs' : list (string * string)) :
  map fst kvs = map fst kvs' ->
  forall p p' : dict V,
    keys p = keys p' ->
    keys (fold_left (fun p kv => dict_set p (fst kv) (g kv)) kvs p)
    = keys (fold_left (fun p kv => dict_set p (fst kv) (g' kv)) kvs' p').
Proof.
  revert kvs'. induction kvs as [|kv kvs IH]; intros [|kv' kvs'] E p p' Hp;
    try discriminate E; [ exact Hp | ].
  injection E as Ek E. cbn [fold_left]. apply IH; [ exact E | ].
  rewrite !keys_dict_set, Hp, Ek. reflexivity.
Qed.

Lemma keys_fold_set_fresh (V : Type) (g : string * string -> V)
      (kvs : list (string * string)) :
  forall p : dict V,
    NoDup (keys p ++ map fst kvs) ->
    keys (fold_left (fun p kv => dict_set p (fst kv) (g kv)) kvs p)
    = (keys p ++ map fst kvs)%list.
Proof.
  induction kvs as [|kv kvs IH]; intros p Hnd; cbn [fold_left map].
  - now rewrite app_nil_r.
  - cbn [map] in Hnd.
    assert (Hk : ~ In (fst kv) (keys p)).
    { apply NoDup_remove_2 in Hnd. intros Hin. apply Hnd.
      apply in_or_app. now left. }
    rewrite IH.
    + rewrite keys_dict_set_new by exact Hk.
      unfold keys. rewrite map_app, <- app_assoc. reflexivity.
    + rewrite keys_dict_set_new by exact Hk.
      unfold keys in *. rewrite map_app, <- app_assoc. exact Hnd.
Qed.

Lemma map_fst_combine_long (header row : list string) :
  List.length header <= List.length row ->
  map fst (combine header row) = header.
Proof.
  revert row. induction header as [|h header IH]; intros row Hl;
    [ reflexivity | ].
  destruct row as [|x row]; simpl in Hl; [ lia | ].
  simpl. f_equal. apply IH. lia.
Qed.

(** A record under a header has the keys of the header. *)
Lemma keys_record_of (pads : bool) (header row row' : list string) :
  List.length header <= List.length row ->
  List.length header <= List.length row' ->
  keys (record_of pads header row) = keys (record_of pads header row').
Proof.
  intros H H'. unfold record_of.
  apply (keys_fold_set Py.value
           (fun kv => field_value pads (fst kv) (snd kv))
           (fun kv => field_value pads (fst kv) (snd kv)));
    [ | reflexivity ].
  now rewrite !map_fst_combine_long.
Qed.

Lemma keys_record_of_nodup (pads : bool) (header row : list string) :
  NoDup header ->
  List.length header <= List.length row ->
  keys (record_of pads header row) = header.
Proof.
  intros Hnd Hl. unfold record_of.
  rewrite (keys_fold_set_fresh Py.value
             (fun kv => field_value pads (fst kv) (snd kv))).
  - simpl. now apply map_fst_combine_long.
  - simpl. now rewrite map_fst_combine_long.
Qed.

Lemma keys_premium_of (pads : bool) (self : Parser.ParseVendors)
      (p p' : Parser.payment) :
  keys p = keys p' ->
  keys (premium_of pads self p) = keys (premium_of pads self p').
Proof.
  intros H. unfold premium_of. rewrite !keys_dict_set, H. reflexivity.
Qed.

Lemma set_eqb_refl (a : list string) : set_eqb a a = true.
Proof. apply set_eqb_spec. tauto. Qed.

(** The chunks hold records of the list, and one at least. *)
Lemma chunks_forall (A : Type) (P : A -> Prop) (l : list A) :
  Forall P l ->
  Forall (fun chunk => chunk <> [] /\ Forall P chunk) (Index.chunks A l).
Proof.
  induction l as [ | l Hl IH ] using chunks_induction; intros HP;
    [ constructor | ].
  rewrite chunks_step by exact Hl.
  rewrite <- (firstn_skipn Index.chunk_size l) in HP.
  apply Forall_app in HP. destruct HP as [HP1 HP2].
  constructor; [ | now apply IH ].
  split; [ | exact HP1 ].
  destruct l; [ congruence | discriminate ].
Qed.

Lemma same_structure_same_keys (columns : list string)
      (chunk : list Ydb.record) :
  Forall (fun r => keys r = columns) chunk ->
  Ydb.same_structure columns chunk = true.
Proof.
  intros H. unfold Ydb.same_structure. apply forallb_forall.
  rewrite Forall_forall in H. intros r Hr. rewrite (H r Hr).
  apply set_eqb_refl.
Qed.

(** X14: when every row of more than one field has as many fields as
    the header at least, the records of a report all have the same
    keys, in the same order: the columns of the header for the standard
    report, when no column comes twice.  So every chunk that [handler]
    makes of them has a first record and passes the check of
    [upset_data] on the structure of the batch. *)
Theorem parsed_records_share_structure
        (pads : bool) (self : Parser.ParseVendors) (content : string)
        (is_premium : bool) (hdr : list string) (rows : list (list string))
        (records : list Parser.payment) :
  Csv.reader_rows content = (hdr :: rows, None) ->
  Forall (fun row => List.length (removelast hdr) <= List.length row)
         (data_rows rows) ->
  Parser._parse_csv_payments pads self content is_premium = Ok records ->
  (exists columns,
      Forall (fun r => keys r = columns) records
      /\ (NoDup (removelast hdr) -> is_premium = false ->
          columns = removelast hdr))
  /\ Forall (fun chunk =>
               exists first rest,
                 chunk = first :: rest
                 /\ Ydb.same_structure (keys first) chunk = true)
            (Index.chunks Ydb.record records).
Proof.
  intros Hr Hlen Hparse.
  set (header := removelast hdr) in *.
  set (columns := keys (record_of pads header header)).
  assert (Hrec : Forall (fun r => keys r = columns)
                        (map (record_of pads header) (data_rows rows))).
  { apply Forall_map. apply Forall_impl with (2 := Hlen).
    intros row Hrow. now apply keys_record_of. }
  unfold Parser._parse_csv_payments in Hparse. rewrite Hr in Hparse.
  fold header in Hparse. cbn [bind] in Hparse.
  assert (Hall : exists cols,
             Forall (fun r => keys r = cols) records
             /\ (NoDup header -> is_premium = false -> cols = header)).
  { destruct is_premium.
    - exists (keys (premium_of pads self (record_of pads header header))).
      split; [ | discriminate ].
      destruct (Forall_Exists_dec (reaches_member header)) with (l := data_rows rows)
        as [HF | HE].
      + intros row. unfold reaches_member. apply in_dec. apply string_dec.
      + rewrite (parse_rows_premium pads self header rows HF) in Hparse.
        cbn [app bind] in Hparse. injection Hparse as <-.
        apply Forall_map. apply Forall_impl with (2 := Hlen).
        intros row Hrow. apply keys_premium_of. now apply keys_record_of.
      + assert (HE' : Exists (fun row => ~ reaches_member header row)
                             (data_rows rows)) by exact HE.
        rewrite (parse_rows_premium_raise pads self header rows HE') in Hparse.
        discriminate Hparse.
    - exists columns. split.
      + rewrite parse_rows_standard in Hparse.
        cbn [app bind] in Hparse. injection Hparse as <-.
        apply Forall_forall. intros r Hin. apply filter_In in Hin.
        rewrite Forall_forall in Hrec. now apply Hrec.
      + intros Hnd _. subst columns. now apply keys_record_of_nodup. }
  split; [ exact Hall | ].
  destruct Hall as (cols & Hcols & _).
  apply Forall_impl with (2 := chunks_forall _ _ records Hcols).
  intros chunk [Hne HF].
  destruct chunk as [|first rest]; [ congruence | ].
  exists first, rest. split; [ reflexivity | ].
  apply same_structure_same_keys.
  rewrite (Forall_inv HF). exact HF.
Qed.

Lemma parsed_records_share_structure_witness :
  exists records,
    Parser._parse_csv_payments
      false (Parser.Self (DateTime.Date 2024 7 16) "0af9") sample_export false
    = Ok records
    /\ Forall (fun chunk =>
                 exists first rest,
                   chunk = first :: rest
                   /\ Ydb.same_structure (keys first) chunk = true)
              (Index.chunks Ydb.record records).
Proof.
  destruct (Parser._parse_csv_payments
              false (Parser.Self (DateTime.Date 2024 7 16) "0af9")
              sample_export false) as [records|] eqn:E;
    [ | vm_compute in E; discriminate E ].
  assert (Hlen : Forall (fun row => List.length
                                      (removelast ["ID"; "MEMBER_ID";
                                                   "DATE_OF_USE"; ""])
                                    <= List.length row)
                        (data_rows [ ["7"; "abc"; "15.07.2024"; ""] ])).
  { repeat constructor. }
  pose proof (parsed_records_share_structure
                false (Parser.Self (DateTime.Date 2024 7 16) "0af9")
                sample_export false
                ["ID"; "MEMBER_ID"; "DATE_OF_USE"; ""]
                [ ["7"; "abc"; "15.07.2024"; ""] ] records
                eq_refl Hlen E) as [_ H].
  exists records. split; [ reflexivity | exact H ].
Defined.

(* ------------------------------------------------------------------ *)
(** ** Identifiers written in decimal *)

Lemma lstrip_by_clean (sp : ascii -> bool) (l : list ascii) :
  match l with
  | [] => True
  | c :: _ => sp c = false
  end ->
  Str.lstrip_by sp l = l.
Proof. destruct l as [|c l]; simpl; [ reflexivity | now intros -> ]. Qed.

(** Stripping leaves a text that starts and ends with characters that
    are not blanks as it is. *)
Lemma strip_by_clean (sp : ascii -> bool) (l : list ascii) :
  match l with
  | [] => True
  | c :: _ => sp c = false
  end ->
  match List.rev l with
  | [] => True
  | c :: _ => sp c = false
  end ->
  Str.strip_by sp l = l.
Proof.
  intros Hh Hl. unfold Str.strip_by.
  rewrite (lstrip_by_clean sp l Hh), (lstrip_by_clean sp (List.rev l) Hl).
  apply rev_involutive.
Qed.

Lemma strip_by_no_blank (sp : ascii -> bool) (l : list ascii) :
  forallb (fun c => negb (sp c)) l = true -> Str.strip_by sp l = l.
Proof.
  intros H. rewrite forallb_forall in H.
  apply strip_by_clean.
  - destruct l as [|c l]; [ exact I | ].
    apply negb_true_iff. apply H. now left.
  - destruct (List.rev l) as [|c r] eqn:E; [ exact I | ].
    apply negb_true_iff. apply H. apply in_rev. rewrite E. now left.
Qed.

Lemma digit_not_number_space (c : ascii) :
  Str.is_digit c = true -> Str.is_number_space c = false.
Proof.
  unfold Str.is_digit, Str.is_number_space. intros H.
  apply andb_prop in H. destruct H as [H1 H2].
  apply Nat.leb_le in H1, H2.
  repeat (apply orb_false_iff; split);
    try (apply andb_false_iff; right; apply Nat.leb_gt; lia);
    apply Nat.eqb_neq; lia.
Qed.

Lemma digit_not_underscore (c : ascii) :
  Str.is_digit c = true -> Py.is_underscore c = false.
Proof.
  intros H. unfold Py.is_underscore. apply Ascii.eqb_neq. intros ->.
  discriminate H.
Qed.

Lemma drop_underscores_digits (ds : list ascii) :
  forallb Str.is_digit ds = true ->
  forall prev,
    match prev with
    | Some p => Py.is_underscore p = false
    | None => True
    end ->
    Py.drop_underscores prev ds = Some ds.
Proof.
  induction ds as [|c ds IH]; intros Hd prev Hp.
  - simpl. destruct prev as [p|]; [ now rewrite Hp | reflexivity ].
  - cbn [forallb] in Hd. apply andb_prop in Hd. destruct Hd as [Hc Hd].
    pose proof (digit_not_underscore c Hc) as Hu.
    cbn [Py.drop_underscores]. rewrite Hu.
    rewrite (IH Hd (Some c) Hu).
    destruct prev as [p|]; [ now rewrite Hp | reflexivity ].
Qed.

Lemma split_sign_digit (c : ascii) (l : list ascii) :
  Str.is_digit c = true -> Py.split_sign (c :: l) = (false, c :: l).
Proof.
  intros H.
  destruct c as [[] [] [] [] [] [] [] []]; try discriminate H; reflexivity.
Qed.

Lemma Z_of_digits_nat (l : list ascii) :
  Str.Z_of_digits l = Z.of_nat (Str.nat_of_digits l).
Proof.
  unfold Str.Z_of_digits, Str.nat_of_digits.
  assert (H : forall acc : nat,
             fold_left (fun a c => (10 * a + Z.of_nat (Str.digit_value c))%Z)
                       l (Z.of_nat acc)
             = Z.of_nat (fold_left (fun a c => 10 * a + Str.digit_value c)
                                   l acc)).
  { induction l as [|c l IH]; intros acc; cbn [fold_left]; [ reflexivity | ].
    replace (10 * Z.of_nat acc + Z.of_nat (Str.digit_value c))%Z
      with (Z.of_nat (10 * acc + Str.digit_value c)) by lia.
    apply IH. }
  exact (H 0).
Qed.

Lemma of_nat_not_empty (n : nat) : Str.chars (Str.of_nat n) <> [].
Proof.
  intros E. pose proof (of_nat_value n) as Hv. rewrite E in Hv.
  pose proof (of_nat_value 0) as H0.
  destruct n as [|n]; [ | discriminate Hv ].
  vm_compute in E. discriminate E.
Qed.

Lemma forallb_of_Forall (A : Type) (p : A -> bool) (l : list A) :
  Forall (fun x => p x = true) l -> forallb p l = true.
Proof. intros H. apply forallb_forall. now apply Forall_forall. Qed.

(** [int] of the decimal text of a natural number. *)
Lemma int_of_digits (neg : bool) (n : nat) :
  let ds := Str.chars (Str.of_nat n) in
  List.length ds <= Py.int_max_str_digits ->
  forall l,
    Py.split_sign l = (neg, ds) ->
    forallb (fun c => negb (Str.is_number_space c)) l = true ->
    Py.int_of_string (Str.of_chars l) = Ok (Py.signed neg (Z.of_nat n)).
Proof.
  intros ds Hlen l Hs Hsp. unfold Py.int_of_string.
  rewrite chars_of_chars, (strip_by_no_blank _ l Hsp), Hs.
  pose proof (forallb_of_Forall _ _ _ (of_nat_digits n)) as Hd.
  fold ds in Hd.
  rewrite (drop_underscores_digits ds Hd None I), Hd.
  assert (Hne : (List.length ds =? 0) = false).
  { apply Nat.eqb_neq. intros E. apply (of_nat_not_empty n).
    now apply length_zero_iff_nil. }
  rewrite Hne. cbn [negb andb].
  apply Nat.leb_le in Hlen. rewrite Hlen.
  rewrite Z_of_digits_nat. unfold ds. now rewrite of_nat_value.
Qed.

Lemma int_of_Z_text (z : Z) :
  String.length (Str.of_nat (Z.abs_nat z)) <= 4300 ->
  Py.int_of_string (Str.of_Z z) = Ok z.
Proof.
  intros Hlen. rewrite <- length_chars in Hlen.
  assert (Hpos : forall n,
             List.length (Str.chars (Str.of_nat n)) <= 4300 ->
             Py.int_of_string (Str.of_nat n) = Ok (Z.of_nat n)).
  { intros n Hn. rewrite <- (of_chars_chars (Str.of_nat n)).
    apply (int_of_digits false n Hn).
    - pose proof (of_nat_digits n) as Hd. pose proof (of_nat_not_empty n) as Hne.
      destruct (Str.chars (Str.of_nat n)) as [|c l]; [ congruence | ].
      apply split_sign_digit. now inversion Hd.
    - apply forallb_forall. intros c Hc. apply negb_true_iff.
      apply digit_not_number_space.
      pose proof (of_nat_digits n) as Hd. rewrite Forall_forall in Hd.
      now apply Hd. }
  destruct z as [|p|p].
  - reflexivity.
  - unfold Str.of_Z. rewrite Hpos; [ | exact Hlen ].
    now rewrite Z2Nat.id by lia.
  - unfold Str.of_Z.
    change ("-" ++ Str.of_nat (Pos.to_nat p))
      with (Str.of_chars ("-"%char :: Str.chars (Str.of_nat (Pos.to_nat p))))
      || rewrite <- (of_chars_chars ("-" ++ Str.of_nat (Pos.to_nat p))).
    rewrite ?chars_app. change (Str.chars "-") with ["-"%char]. cbn [app].
    rewrite (int_of_digits true (Pos.to_nat p)).
    + cbn [Py.signed]. f_equal. lia.
    + exact Hlen.
    + reflexivity.
    + cbn [forallb]. apply andb_true_intro. split; [ reflexivity | ].
      apply forallb_forall. intros c Hc. apply negb_true_iff.
      apply digit_not_number_space.
      pose proof (of_nat_digits (Pos.to_nat p)) as Hd.
      rewrite Forall_forall in Hd. now apply Hd.
Qed.

(** X15: an identifier written in decimal is bound as the integer it
    writes: [int] of the [str] of an integer is that integer (up to the
    4300 digits [int] accepts), so under a column whose upper case is
    [ID] the parameter of a record that holds this text, or the integer
    itself, is that integer. *)
Theorem decimal_id_binds_its_number
        (float_repr : spec_float -> string) (c : string) (row : Ydb.record)
        (z : Z) :
  String.length (Str.of_nat (Z.abs_nat z)) <= 4300 ->
  Ydb.is_id c = true ->
  dict_get row c = Some (Py.VStr (Str.of_Z z))
  \/ dict_get row c = Some (Py.VInt z) ->
  Py.int (Py.VStr (Str.of_Z z)) = Ok z
  /\ Ydb.param_value float_repr c row = Ok (Py.VInt z).
Proof.
  intros Hlen Hid Hget.
  pose proof (int_of_Z_text z Hlen) as Hint.
  split; [ exact Hint | ].
  unfold Ydb.param_value, dict_item.
  destruct Hget as [-> | ->]; cbn [bind]; rewrite Hid; cbn [Py.int].
  - now rewrite Hint.
  - reflexivity.
Qed.

Lemma decimal_id_binds_its_number_witness :
  Ydb.param_value sample_float_repr "Id" [("Id", Py.VStr "-42")]
  = Ok (Py.VInt (-42)).
Proof.
  assert (Hlen : String.length (Str.of_nat (Z.abs_nat (-42))) <= 4300).
  { apply Nat.leb_le. reflexivity. }
  exact (proj2 (decimal_id_binds_its_number
                  sample_float_repr "Id" [("Id", Py.VStr "-42")] (-42)%Z
                  Hlen eq_refl (or_introl eq_refl))).
Defined.

(* ------------------------------------------------------------------ *)
(** ** The records of the listings *)

Lemma lstrip_by_head (sp : ascii -> bool) (l : list ascii) :
  match Str.lstrip_by sp l with
  | [] => True
  | c :: _ => sp c = false
  end.
Proof.
  induction l as [|c l IH]; simpl; [ exact I | ].
  destruct (sp c) eqn:E; [ exact IH | exact E ].
Qed.

Lemma lstrip_by_suffix (sp : ascii -> bool) (l : list ascii) :
  exists s, l = (s ++ Str.lstrip_by sp l)%list.
Proof.
  induction l as [|c l [s IH]]; simpl; [ now exists [] | ].
  destruct (sp c); [ | now exists [] ].
  exists (c :: s). simpl. now rewrite <- IH.
Qed.

(** What [strip] returns has no blank at either end. *)
Lemma strip_by_ends (sp : ascii -> bool) (l : list ascii) :
  match Str.strip_by sp l with
  | [] => True
  | c :: _ => sp c = false
  end
  /\ match List.rev (Str.strip_by sp l) with
     | [] => True
     | c :: _ => sp c = false
     end.
Proof.
  unfold Str.strip_by.
  set (a := Str.lstrip_by sp l).
  set (b := Str.lstrip_by sp (List.rev a)).
  split; [ | rewrite rev_involutive; apply lstrip_by_head ].
  destruct (lstrip_by_suffix sp (List.rev a)) as [s Hs]. fold b in Hs.
  apply (f_equal (@List.rev ascii)) in Hs.
  rewrite rev_involutive, rev_app_distr in Hs.
  pose proof (lstrip_by_head sp l) as Ha. fold a in Ha.
  destruct (List.rev b) as [|c r]; [ exact I | ].
  rewrite Hs in Ha. exact Ha.
Qed.

Lemma strip_idempotent (s : string) : Str.strip (Str.strip s) = Str.strip s.
Proof.
  unfold Str.strip. rewrite chars_of_chars. f_equal.
  destruct (strip_by_ends Str.is_unicode_space (Str.chars s)) as [Hh Hl].
  now apply strip_by_clean.
Qed.

Lemma digit_not_unicode_space (c : ascii) :
  Str.is_digit c = true -> Str.is_unicode_space c = false.
Proof.
  unfold Str.is_digit, Str.is_unicode_space. intros H.
  apply andb_prop in H. destruct H as [H1 H2].
  apply Nat.leb_le in H1, H2.
  repeat (apply orb_false_iff; split);
    try (apply andb_false_iff; right; apply Nat.leb_gt; lia);
    apply Nat.eqb_neq; lia.
Qed.

Lemma strip_digit_word (g : string) : is_digit_word g -> Str.strip g = g.
Proof.
  intros [_ Hd]. unfold Str.strip.
  rewrite strip_by_no_blank; [ apply of_chars_chars | ].
  apply forallb_forall. intros c Hc. apply negb_true_iff.
  apply digit_not_unicode_space.
  rewrite forallb_forall in Hd. now apply Hd.
Qed.

Lemma in_keys_dict_set_iff (V : Type) (d : dict V) (k k0 : string) (v0 : V) :
  In k (keys (dict_set d k0 v0)) <-> k = k0 \/ In k (keys d).
Proof.
  rewrite keys_dict_set.
  destruct (in_dec string_dec k0 (keys d)) as [Hin | Hn].
  - split; [ tauto | ]. intros [-> | H]; assumption.
  - rewrite in_app_iff. simpl. split; intros H; intuition (subst; auto).
Qed.

Lemma dict_set_values (V : Type) (P : V -> Prop) (d : dict V)
      (k0 : string) (v0 : V) :
  (forall k v, dict_get d k = Some v -> P v) -> P v0 ->
  forall k v, dict_get (dict_set d k0 v0) k = Some v -> P v.
Proof.
  intros Hd H0 k v.
  destruct (string_dec k0 k) as [-> | Hne].
  - rewrite dict_get_set_same. now intros [= <-].
  - rewrite dict_get_set_other by exact Hne. apply Hd.
Qed.

(** The record of the cells of a row. *)
Lemma row_data_shape (hcs : list (string * string)) :
  forall d : Scraper.listing,
    wf_dict d ->
    (forall k v, dict_get d k = Some v -> Str.strip v = v) ->
    let r := fold_left (fun d hc => dict_set d (fst hc) (Str.strip (snd hc)))
                       hcs d in
    wf_dict r
    /\ (forall k, In k (keys r) <-> In k (keys d) \/ In k (map fst hcs))
    /\ (forall k v, dict_get r k = Some v -> Str.strip v = v).
Proof.
  induction hcs as [|[h c] hcs IH]; intros d Hwf Hv; cbn [fold_left map].
  - split; [ exact Hwf | ]. split; [ | exact Hv ]. simpl. tauto.
  - destruct (IH (dict_set d h (Str.strip c))) as (Hw & Hk & Hvs).
    + now apply dict_set_wf.
    + apply dict_set_values; [ exact Hv | apply strip_idempotent ].
    + split; [ exact Hw | ]. split; [ | exact Hvs ].
      intros k. rewrite Hk, in_keys_dict_set_iff. simpl. intuition (subst; auto).
Qed.

Lemma row_data_clean (headers cells : list string) :
  List.length headers <= List.length cells ->
  ~ In "" headers ->
  clean_listing (Scraper.row_data headers cells)
  /\ forall k, In k (keys (Scraper.row_data headers cells)) <-> In k headers.
Proof.
  intros Hlen Hne. unfold Scraper.row_data.
  destruct (row_data_shape (combine headers cells) []) as (Hw & Hk & Hv).
  - constructor.
  - intros k v. discriminate.
  - rewrite map_fst_combine_long in Hk by exact Hlen.
    assert (Hk' : forall k,
               In k (keys (fold_left
                             (fun d hc => dict_set d (fst hc) (Str.strip (snd hc)))
                             (combine headers cells) []))
               <-> In k headers).
    { intros k. rewrite Hk. simpl. tauto. }
    split; [ | exact Hk' ].
    split; [ exact Hw | ]. split; [ | exact Hv ].
    intros H. apply Hne. now apply Hk'.
Qed.

Lemma app_row_data_clean (headers : list string) (row : Scraper.app_row) :
  List.length headers <= List.length (Scraper.cells row) ->
  ~ In "" headers ->
  clean_listing (Scraper.app_row_data headers row).
Proof.
  intros Hlen Hne.
  destruct (row_data_clean headers (Scraper.cells row) Hlen Hne)
    as [(Hw & He & Hv) Hk].
  unfold Scraper.app_row_data.
  destruct (Scraper.data_actions row) as [actions|];
    [ | repeat split; assumption ].
  destruct (Scraper.search_clients (Str.chars actions)) as [g|] eqn:Eg;
    [ | repeat split; assumption ].
  destruct (search_clients_sound actions g Eg) as [Hg _].
  split; [ now apply dict_set_wf | ]. split.
  - rewrite in_keys_dict_set_iff. intros [H | H]; [ discriminate H | auto ].
  - apply dict_set_values; [ exact Hv | now apply strip_digit_word ].
Qed.

Lemma app_headers_not_empty (ths : list string) :
  ~ In "" (Scraper.app_headers ths).
Proof.
  unfold Scraper.app_headers. intros H. apply filter_In in H.
  destruct H as [_ H]. discriminate H.
Qed.

Lemma client_headers_not_empty (tds : list string) :
  ~ In "" (Scraper.client_headers tds).
Proof.
  unfold Scraper.client_headers. intros H. apply in_map_iff in H.
  destruct H as (t & Ht & _).
  destruct (String.eqb (Str.strip t) "") eqn:E; [ discriminate Ht | ].
  apply String.eqb_neq in E. congruence.
Qed.

Lemma app_page_clean (t : option Scraper.app_table)
      (rows : list Scraper.listing) :
  Scraper.app_page t = Scraper.Continue rows -> Forall clean_listing rows.
Proof.
  unfold Scraper.app_page.
  destruct t as [table|]; [ | discriminate ].
  destruct (Scraper.thead table) as [ths|]; [ | discriminate ].
  pose proof (app_headers_not_empty ths) as Hne.
  destruct (Scraper.app_headers ths) as [|h hs]; [ discriminate | ].
  destruct (Scraper.grid_rows table) as [|row0 rows0]; [ discriminate | ].
  intros [= <-]. unfold Scraper.app_page_rows.
  apply Forall_map. apply Forall_forall. intros row Hin.
  apply filter_In in Hin. destruct Hin as [_ Hlen].
  apply negb_true_iff in Hlen. apply Nat.ltb_ge in Hlen.
  now apply app_row_data_clean.
Qed.

Lemma client_page_clean (t : option Scraper.client_table)
      (rows : list Scraper.listing) :
  Scraper.client_page t = Scraper.Continue rows -> Forall clean_listing rows.
Proof.
  unfold Scraper.client_page.
  destruct t as [table|]; [ | discriminate ].
  destruct (Scraper.head_row table) as [tds|]; [ | discriminate ].
  destruct (List.length (Scraper.client_rows table) <=? 1); [ discriminate | ].
  intros [= <-]. unfold Scraper.client_page_rows.
  apply Forall_map. apply Forall_forall. intros cs Hin.
  apply filter_In in Hin. destruct Hin as [_ Hlen].
  apply Nat.leb_le in Hlen.
  apply row_data_clean; [ exact Hlen | apply client_headers_not_empty ].
Qed.

Section Listings.

Variable World : Type.
Variable http_get : World -> Scraper.request -> World * result string.
Variable soup_app_table : string -> option Scraper.app_table.
Variable soup_client_table : string -> option Scraper.client_table.

(** What holds of the rows of every page holds of the result. *)
Lemma scrape_forall (A : Type) (P : A -> Prop)
      (req : nat -> Scraper.request) (page_step : string -> Scraper.step A) :
  (forall text rows, page_step text = Scraper.Continue rows -> Forall P rows) ->
  forall (pages : list nat) (n n' : Scraper.net World) (acc res : list A),
    Forall P acc ->
    @Scraper.scrape World http_get A req page_step pages n acc = (n', Ok res) ->
    Forall P res.
Proof.
  intros Hstep. induction pages as [|page pages IH]; intros n n' acc res Hacc.
  - cbn [Scraper.scrape]. now intros [= _ <-].
  - cbn [Scraper.scrape]. unfold Scraper.session_get.
    destruct (http_get (Scraper.world n) (req page)) as [w [text | e]].
    + destruct (page_step text) as [ | rows | e] eqn:Es.
      * now intros [= _ <-].
      * apply IH. apply Forall_app. split; [ exact Hacc | ].
        now apply (Hstep text).
      * discriminate.
    + destruct e; try discriminate. now intros [= _ <-].
Qed.

(** X16: every record [get_app_list] and [get_client_list] return has
    distinct keys, none of them the empty string, and values without
    blanks at their ends. *)
Theorem listings_are_clean :
  (forall self n n' rows,
      @Scraper.get_app_list World http_get soup_app_table self n = (n', Ok rows) ->
      Forall clean_listing rows)
  /\ (forall app_id n n' rows,
         @Scraper.get_client_list World http_get soup_client_table app_id n
         = (n', Ok rows) ->
         Forall clean_listing rows).
Proof.
  split.
  - intros self n n' rows. unfold Scraper.get_app_list.
    apply scrape_forall; [ | constructor ].
    intros text rs. apply app_page_clean.
  - intros app_id n n' rows. unfold Scraper.get_client_list.
    apply scrape_forall; [ | constructor ].
    intros text rs. apply client_page_clean.
Qed.

End Listings.

(* ------------------------------------------------------------------ *)
(** ** The identifier of an application *)

(** X17: [get_app_list] adds the key [id] to the record of a row
    exactly when the [data-actions] attribute of the row holds a call
    of [bx24vendorClients] on a number; the value is then the number of
    such a call, a word of decimal digits.  Without the attribute, or
    without such a call in it, the record is the record of the cells. *)
Theorem app_row_id (headers : list string) (row : Scraper.app_row) :
  match Scraper.data_actions row with
  | Some actions =>
      ((exists id, is_digit_word id /\ has_clients_call actions id) ->
       exists g,
         Scraper.app_row_data headers row
         = dict_set (Scraper.row_data headers (Scraper.cells row)) "id" g
         /\ dict_get (Scraper.app_row_data headers row) "id" = Some g
         /\ is_digit_word g /\ has_clients_call actions g)
      /\ ((forall id, is_digit_word id -> ~ has_clients_call actions id) ->
          Scraper.app_row_data headers row
          = Scraper.row_data headers (Scraper.cells row))
  | None =>
      Scraper.app_row_data headers row
      = Scraper.row_data headers (Scraper.cells row)
  end.
Proof.
  unfold Scraper.app_row_data.
  destruct (Scraper.data_actions row) as [actions|]; [ | reflexivity ].
  split.
  - intros (id & Hid & Hc).
    destruct (search_clients_complete actions id Hid Hc) as [g Hg].
    rewrite Hg. exists g.
    split; [ reflexivity | ]. split; [ apply dict_get_set_same | ].
    now apply search_clients_sound.
  - intros Hn.
    destruct (Scraper.search_clients (Str.chars actions)) as [g|] eqn:Eg;
      [ | reflexivity ].
    destruct (search_clients_sound actions g Eg) as [Hg Hc].
    elim (Hn g Hg Hc).
Qed.

(* ------------------------------------------------------------------ *)
(** ** What the parser of the exports raises *)

Lemma process_char_raises (r : Csv.reader) (i : Csv.input) (e : exn) :
  Csv.parse_process_char r i = Raise e -> exists why, e = CsvError why.
Proof.
  unfold Csv.parse_process_char, Csv.start_field, Csv.parse_add_char.
  destruct (Csv.state r); destruct i as [c|];
    repeat match goal with
           | |- context [if ?b then _ else _] => destruct b
           end;
    intros H; try discriminate H; injection H as <-; eauto.
Qed.

Lemma feed_line_raises (l : list ascii) :
  forall (r : Csv.reader) (e : exn),
    Csv.feed_line r l = Raise e -> exists why, e = CsvError why.
Proof.
  induction l as [|c l IH]; intros r e; cbn [Csv.feed_line].
  - apply process_char_raises.
  - destruct (Csv.parse_process_char r (Csv.Char c)) as [r'|e'] eqn:E;
      cbn [bind].
    + apply IH.
    + intros [= <-]. now apply (process_char_raises r (Csv.Char c)).
Qed.

(** At the end of a line the reader is between two records or inside a
    quoted field. *)
Lemma feed_line_state (l : list ascii) :
  forall r r' : Csv.reader,
    Csv.feed_line r l = Ok r' ->
    Csv.state r' = Csv.START_RECORD \/ Csv.state r' = Csv.IN_QUOTED_FIELD.
Proof.
  induction l as [|c l IH]; intros r r'; cbn [Csv.feed_line].
  - unfold Csv.parse_process_char.
    destruct (Csv.state r) eqn:Es; intros [= <-]; cbn; auto.
  - destruct (Csv.parse_process_char r (Csv.Char c)) as [r1|e] eqn:E;
      cbn [bind]; [ apply IH | discriminate ].
Qed.

Lemma records_in_quoted (ls : list (list ascii)) :
  forall r : Csv.reader,
    Csv.state r = Csv.IN_QUOTED_FIELD ->
    fst (Csv.records ls r) <> [] \/ snd (Csv.records ls r) <> None.
Proof.
  induction ls as [|line ls IH]; intros r Hs; cbn [Csv.records].
  - rewrite Hs. cbn [Csv.state_eqb]. rewrite orb_true_r. left. discriminate.
  - destruct (Csv.feed_line r line) as [r'|e] eqn:E;
      [ | right; discriminate ].
    destruct (feed_line_state line r r' E) as [H | H]; rewrite H;
      cbn [Csv.state_eqb].
    + destruct (Csv.records ls Csv.parse_reset). left. discriminate.
    + now apply IH.
Qed.

Lemma records_raises (ls : list (list ascii)) :
  forall (r : Csv.reader) (e : exn),
    snd (Csv.records ls r) = Some e -> exists why, e = CsvError why.
Proof.
  induction ls as [|line ls IH]; intros r e; cbn [Csv.records].
  - destruct (_ || _); discriminate.
  - destruct (Csv.feed_line r line) as [r'|e'] eqn:E.
    + destruct (Csv.state_eqb (Csv.state r') Csv.START_RECORD).
      * destruct (Csv.records ls Csv.parse_reset) as [rows err] eqn:Er.
        cbn [snd]. intros ->.
        apply (IH Csv.parse_reset). now rewrite Er.
      * apply IH.
    + cbn [snd]. intros [= <-]. now apply (feed_line_raises line r).
Qed.

Lemma lines_from_not_nil (l : list ascii) :
  forall cur, Csv.lines_from cur l = [] -> cur = [] /\ l = [].
Proof.
  induction l as [|c l IH]; intros cur; cbn [Csv.lines_from].
  - destruct cur; [ auto | discriminate ].
  - destruct (Ascii.eqb c "010"); [ discriminate | ].
    intros H. destruct (IH _ H) as [Hc _]. discriminate Hc.
Qed.

(** The reader yields no row and no error on the empty text only. *)
Lemma reader_rows_nothing (content : string) :
  Csv.reader_rows content = ([], None) -> content = "".
Proof.
  unfold Csv.reader_rows, Csv.lines.
  destruct (Csv.lines_from [] (Str.chars content)) as [|line ls] eqn:El.
  - intros _. apply lines_from_not_nil in El. destruct El as [_ El].
    now apply chars_nil.
  - cbn [Csv.records].
    destruct (Csv.feed_line Csv.parse_reset line) as [r'|e] eqn:E;
      [ | discriminate ].
    destruct (feed_line_state line _ r' E) as [H | H]; rewrite H;
      cbn [Csv.state_eqb].
    + destruct (Csv.records ls Csv.parse_reset). discriminate.
    + intros Hr. destruct (records_in_quoted ls r' H) as [Hn | Hn];
        rewrite Hr in Hn; now elim Hn.
Qed.

(** X18: the exceptions of [_parse_csv_payments].  It raises
    [StopIteration] on the empty export and on no other; apart from
    that it raises only the [csv.Error] of the reader and, in the
    premium report, the [KeyError] of a row without [MEMBER_ID]. *)
Theorem parser_exceptions
        (pads : bool) (self : Parser.ParseVendors) (content : string)
        (is_premium : bool) :
  (content = "" ->
   Parser._parse_csv_payments pads self content is_premium
   = Raise StopIteration)
  /\ forall e,
      Parser._parse_csv_payments pads self content is_premium = Raise e ->
      (e = StopIteration /\ content = "")
      \/ (exists why, e = CsvError why)
      \/ (is_premium = true /\ e = KeyError "MEMBER_ID").
Proof.
  split; [ now intros -> | ].
  intros e. unfold Parser._parse_csv_payments.
  destruct (Csv.reader_rows content) as [rows err] eqn:Er.
  assert (Herr : forall e0, err = Some e0 -> exists why, e0 = CsvError why).
  { intros e0 ->. apply (records_raises (Csv.lines content) Csv.parse_reset).
    unfold Csv.reader_rows in Er. now rewrite Er. }
  destruct rows as [|first rest].
  - destruct err as [e0|].
    + intros [= <-]. right. left. now apply Herr.
    + intros [= <-]. left. split; [ reflexivity | ].
      now apply reader_rows_nothing.
  - assert (Hok : forall payments,
               match err with
               | Some e0 => Raise e0
               | None => Ok payments
               end = @Raise (list Parser.payment) e ->
               exists why, e = CsvError why).
    { intros payments. destruct err as [e0|]; [ | discriminate ].
      intros [= <-]. now apply Herr. }
    destruct is_premium.
    + destruct (Forall_Exists_dec (reaches_member (removelast first)))
        with (l := data_rows rest) as [HF | HE].
      * intros row. unfold reaches_member. apply in_dec. apply string_dec.
      * rewrite (parse_rows_premium pads self _ rest HF). cbn [bind].
        intros H. right. left. exact (Hok _ H).
      * assert (HE' : Exists (fun row => ~ reaches_member (removelast first) row)
                             (data_rows rest)) by exact HE.
        rewrite (parse_rows_premium_raise pads self _ rest HE'). cbn [bind].
        intros [= <-]. right. right. auto.
    + rewrite parse_rows_standard. cbn [bind].
      intros H. right. left. exact (Hok _ H).
Qed.

(* ------------------------------------------------------------------ *)
(** ** A failure in the middle of the chunks *)

Section UploadFailure.

Variable float_repr : spec_float -> string.
Variable Store : Type.
Variable store_prepare : Store -> string -> Store * result unit.
Variable store_execute : Store -> string -> dict Py.value -> Store * result unit.

Local Abbreviation upload :=
  (Index.upload float_repr Store store_prepare store_execute).
Local Abbreviation upset_data :=
  (@Ydb.upset_data float_repr Store store_prepare store_execute).

(** X19: the chunks of a table are written one after the other, each in
    a call of [upset_data] of its own, and nothing is undone: when the
    upload raises, the chunks before the one that failed have all been
    written, the exception is the one [upset_data] raised on that
    chunk, and the chunks after it have not been sent. *)
Theorem upload_stops_at_first_failure
        (table : string) (batches : list (list Ydb.record))
        (s : Ydb.db Store) (e : exn) :
  snd (upload table batches s) = Raise e ->
  exists written failed rest s1,
    batches = (written ++ failed :: rest)%list
    /\ upload table written s = (s1, Ok tt)
    /\ Ydb.calls s1
       = (Ydb.calls s ++ flat_map (batch_calls float_repr table) written)%list
    /\ upset_data table failed s1 = (fst (upload table batches s), Raise e).
Proof.
  revert s. induction batches as [|chunk batches IH]; intros s;
    cbn [Index.upload]; [ discriminate | ].
  destruct (upset_data table chunk s) as [s' [b | e']] eqn:E.
  - intros H. destruct (IH s' H) as (written & failed & rest & s1 & -> & Hw & Hc & Hf).
    exists (chunk :: written), failed, rest, s1.
    split; [ reflexivity | ].
    cbn [Index.upload]. rewrite E.
    split; [ exact Hw | ]. split; [ | exact Hf ].
    destruct (upset_data_log float_repr Store store_prepare store_execute
                             table chunk s) as (k & Hk & Hl & Hb).
    rewrite E in Hl, Hb. cbn [fst snd] in Hl, Hb.
    destruct (Hb b eq_refl) as (_ & -> & Hlen).
    rewrite firstn_all2 in Hl by lia.
    cbn [flat_map]. rewrite Hc, Hl, <- app_assoc. reflexivity.
  - cbn [snd fst]. intros [= ->].
    exists [], chunk, batches, s.
    split; [ reflexivity | ]. split; [ reflexivity | ].
    split; [ cbn [flat_map]; now rewrite app_nil_r | exact E ].
Qed.

End UploadFailure.

Lemma upload_stops_at_first_failure_witness :
  exists written failed rest s1,
    [batch_two_orders; batch_bad_id; batch_two_orders]
    = (written ++ failed :: rest)%list
    /\ Index.upload sample_float_repr nat counting_prepare counting_execute
                    "payments" written (Ydb.Db 0 [])
       = (s1, Ok tt)
    /\ exists e,
        snd (Ydb.upset_data sample_float_repr counting_prepare counting_execute
                            "payments" failed s1)
        = Raise e.
Proof.
  destruct (Index.upload sample_float_repr nat counting_prepare
                         counting_execute "payments"
                         [batch_two_orders; batch_bad_id; batch_two_orders]
                         (Ydb.Db 0 [])) as [s' [u | e]] eqn:E;
    [ apply (f_equal snd) in E; vm_compute in E; discriminate E | ].
  pose proof (upload_stops_at_first_failure
                sample_float_repr nat counting_prepare counting_execute
                "payments" [batch_two_orders; batch_bad_id; batch_two_orders]
                (Ydb.Db 0 []) e) as H.
  rewrite E in H.
  destruct (H eq_refl) as (written & failed & rest & s1 & Hb & Hw & _ & Hf).
  exists written, failed, rest, s1.
  split; [ exact Hb | ]. split; [ exact Hw | ].
  exists e. now rewrite Hf.
Defined.

(* ------------------------------------------------------------------ *)
(** ** Identifiers that [int()] refuses *)

Lemma in_lstrip_by (sp : ascii -> bool) (c : ascii) (l : list ascii) :
  In c l -> sp c = false -> In c (Str.lstrip_by sp l).
Proof.
  intros Hin Hc. induction l as [|a l IH]; [ destruct Hin | ].
  cbn [Str.lstrip_by]. destruct (sp a) eqn:Ea; [ | exact Hin ].
  destruct Hin as [-> | Hin]; [ congruence | now apply IH ].
Qed.

Lemma in_strip_by (sp : ascii -> bool) (c : ascii) (l : list ascii) :
  In c l -> sp c = false -> In c (Str.strip_by sp l).
Proof.
  intros Hin Hc. unfold Str.strip_by.
  apply in_rev. rewrite rev_involutive.
  apply in_lstrip_by; [ | exact Hc ].
  apply -> in_rev. now apply in_lstrip_by.
Qed.

Lemma split_sign_cons (a : ascii) (l : list ascii) :
  Py.split_sign (a :: l)
  = if Ascii.eqb a "-" then (true, l)
    else if Ascii.eqb a "+" then (false, l)
    else (false, a :: l).
Proof. destruct a as [[] [] [] [] [] [] [] []]; reflexivity. Qed.

Lemma in_split_sign (c : ascii) (l : list ascii) :
  In c l -> Ascii.eqb c "+" = false -> Ascii.eqb c "-" = false ->
  In c (snd (Py.split_sign l)).
Proof.
  intros Hin Hp Hm. destruct l as [|a l]; [ destruct Hin | ].
  rewrite split_sign_cons.
  destruct (Ascii.eqb a "-") eqn:Ea.
  - destruct Hin as [-> | Hin]; [ congruence | exact Hin ].
  - destruct (Ascii.eqb a "+") eqn:Eb; [ | exact Hin ].
    destruct Hin as [-> | Hin]; [ congruence | exact Hin ].
Qed.

Lemma in_drop_underscores (c : ascii) (l : list ascii) :
  Py.is_underscore c = false ->
  forall prev ds,
    Py.drop_underscores prev l = Some ds -> In c l -> In c ds.
Proof.
  intros Hc. induction l as [|a l IH]; intros prev ds Hd Hin;
    [ destruct Hin | ].
  cbn [Py.drop_underscores] in Hd.
  destruct (Py.is_underscore a) eqn:Ea.
  - destruct Hin as [-> | Hin]; [ congruence | ].
    destruct prev as [p|]; [ | discriminate Hd ].
    destruct (Str.is_digit p); [ | discriminate Hd ].
    now apply (IH (Some a) ds).
  - assert (Hrec : option_map (cons a) (Py.drop_underscores (Some a) l) = Some ds).
    { destruct prev as [p|]; [ | exact Hd ].
      destruct (Py.is_underscore p && negb (Str.is_digit a));
        [ discriminate Hd | exact Hd ]. }
    destruct (Py.drop_underscores (Some a) l) as [ds'|] eqn:Ed;
      [ | discriminate Hrec ].
    injection Hrec as <-.
    destruct Hin as [-> | Hin]; [ now left | right ].
    now apply (IH (Some a) ds').
Qed.

(** A string with a character that no integer literal holds is refused
    by [int()]. *)
Lemma int_of_string_foreign (str : string) (c : ascii) :
  In c (Str.chars str) -> foreign_to_int c = true ->
  exists why, Py.int_of_string str = Raise (ValueError why).
Proof.
  intros Hin Hf. unfold foreign_to_int in Hf. apply negb_true_iff in Hf.
  apply orb_false_iff in Hf. destruct Hf as [Hf Hsp].
  apply orb_false_iff in Hf. destruct Hf as [Hf Hu].
  apply orb_false_iff in Hf. destruct Hf as [Hf Hm].
  apply orb_false_iff in Hf. destruct Hf as [Hd Hp].
  unfold Py.int_of_string.
  pose proof (in_split_sign c _ (in_strip_by Str.is_number_space c _ Hin Hsp)
                            Hp Hm) as Hb.
  destruct (Py.split_sign (Str.strip_by Str.is_number_space (Str.chars str)))
    as [neg body]. cbn [snd] in Hb.
  destruct (Py.drop_underscores None body) as [ds|] eqn:Ed; [ | eauto ].
  pose proof (in_drop_underscores c body Hu None ds Ed Hb) as Hds.
  assert (Hall : forallb Str.is_digit ds = false).
  { destruct (forallb Str.is_digit ds) eqn:E; [ | reflexivity ].
    rewrite forallb_forall in E. rewrite (E c Hds) in Hd. discriminate Hd. }
  rewrite Hall, andb_false_r. eauto.
Qed.

Section UnparsableId.

Variable float_repr : spec_float -> string.
Variable Store : Type.
Variable store_prepare : Store -> string -> Store * result unit.
Variable store_execute : Store -> string -> dict Py.value -> Store * result unit.

Local Abbreviation upset_data :=
  (@Ydb.upset_data float_repr Store store_prepare store_execute).
Local Abbreviation build := (Ydb.build float_repr).
Local Abbreviation param_value := (Ydb.param_value float_repr).

(** The exception of the construction is the one of a cell. *)
Lemma bind_columns_raise_origin (i : nat) (row : Ydb.record)
      (cols : list string) :
  forall (st : Ydb.statement) (bv : list string) (e : exn),
    Ydb.bind_columns float_repr i row cols st bv = Raise e ->
    exists c, In c cols /\ param_value c row = Raise e.
Proof.
  induction cols as [|c cols IH]; intros st bv e; cbn [Ydb.bind_columns];
    [ discriminate | ].
  destruct (param_value c row) as [v|e'] eqn:E; cbn [bind].
  - intros H. destruct (IH _ _ _ H) as (c' & Hc' & He).
    exists c'. split; [ now right | exact He ].
  - intros [= <-]. exists c. split; [ now left | exact E ].
Qed.

Lemma bind_rows_raise_origin (columns : list string) (rows : list Ydb.record) :
  forall (i : nat) (st : Ydb.statement) (e : exn),
    Ydb.bind_rows float_repr columns i rows st = Raise e ->
    exists j row c,
      nth_error rows j = Some row /\ In c columns
      /\ param_value c row = Raise e.
Proof.
  induction rows as [|row rows IH]; intros i st e; cbn [Ydb.bind_rows];
    [ discriminate | ].
  destruct (Ydb.bind_columns float_repr i row columns st [])
    as [[st1 bv]|e'] eqn:E; cbn [bind].
  - intros H. destruct (IH _ _ _ H) as (j & row' & c & Hj & Hc & He).
    exists (S j), row', c. auto.
  - intros [= <-].
    destruct (bind_columns_raise_origin i row columns st [] e' E)
      as (c & Hc & He).
    exists 0, row, c. auto.
Qed.

Lemma param_value_raise_id (c : string) (row : Ydb.record) (x : Py.value)
      (e : exn) :
  dict_get row c = Some x -> param_value c row = Raise e ->
  Ydb.is_id c = true /\ Py.int x = Raise e.
Proof.
  intros Hx. unfold Ydb.param_value, dict_item. rewrite Hx. cbn [bind].
  destruct (Ydb.is_id c); [ | discriminate ].
  destruct (Py.int x) as [z|e']; cbn [bind]; [ discriminate | ].
  intros [= <-]. auto.
Qed.

(** C10, amended: in a batch of one structure, under a column whose
    upper-cased name is [ID], [upset_data] passes the value of each
    record to [int()] while it builds the parameters.  When [int()]
    accepts all of them the statement is built, the parameter of each
    such cell is bound to the integer [int()] gave and the store is
    asked to prepare the statement.  When [int()] raises for one of
    them, [upset_data] raises an exception that [int()] raised for such
    a cell, and the store is the one before the call and has received
    no call.  [int()] raises for a string with a character that no
    integer literal holds and accepts the decimal text of an integer;
    it accepts an integer as it is, and a float through [int_of_float],
    which cuts a finite float to an integer and raises for the
    others. *)
Theorem unparsable_id_stops_before_any_call :
  forall (table : string) (first : Ydb.record) (rest : list Ydb.record)
         (s : Ydb.db Store),
    let data := first :: rest in
    let columns := keys first in
    wf_dict first ->
    Ydb.same_structure columns data = true ->
    (forall st i row c,
        build columns data = Ok st ->
        nth_error data i = Some row -> In c columns -> Ydb.is_id c = true ->
        exists x z,
          dict_get row c = Some x /\ Py.int x = Ok z
          /\ dict_get (Ydb.param_values st) (Ydb.param_name c i)
             = Some (Py.VInt z))
    /\ (forall i row c x e,
           nth_error data i = Some row -> In c columns -> Ydb.is_id c = true ->
           dict_get row c = Some x -> Py.int x = Raise e ->
           exists e',
             upset_data table data s = (s, Raise e')
             /\ exists i' row' c' x',
                 nth_error data i' = Some row' /\ In c' columns
                 /\ Ydb.is_id c' = true /\ dict_get row' c' = Some x'
                 /\ Py.int x' = Raise e')
    /\ (forall str, Py.int (Py.VStr str) = Py.int_of_string str)
    /\ ((forall i row c x,
            nth_error data i = Some row -> In c columns ->
            Ydb.is_id c = true -> dict_get row c = Some x ->
            exists z, Py.int x = Ok z) ->
        exists st,
          build columns data = Ok st
          /\ (forall i row c,
                 nth_error data i = Some row -> In c columns ->
                 Ydb.is_id c = true ->
                 exists x z,
                   dict_get row c = Some x /\ Py.int x = Ok z
                   /\ dict_get (Ydb.param_values st) (Ydb.param_name c i)
                      = Some (Py.VInt z))
          /\ exists tail,
              Ydb.calls (fst (upset_data table data s))
              = (Ydb.calls s
                   ++ Ydb.Prepare (Ydb.query_text table columns st) :: tail)%list)
    /\ (forall z, Py.int (Py.VInt z) = Ok z)
    /\ (forall f, Py.int (Py.VFloat f) = Py.int_of_float f)
    /\ (forall str c,
           In c (Str.chars str) -> foreign_to_int c = true ->
           exists why, Py.int (Py.VStr str) = Raise (ValueError why))
    /\ (forall z,
           String.length (Str.of_nat (Z.abs_nat z)) <= 4300 ->
           Py.int (Py.VStr (Str.of_Z z)) = Ok z).
Proof.
  intros table first rest s data columns Hwf Hs.
  assert (Hbound : forall st i row c,
             build columns data = Ok st ->
             nth_error data i = Some row -> In c columns ->
             Ydb.is_id c = true ->
             exists x z,
               dict_get row c = Some x /\ Py.int x = Ok z
               /\ dict_get (Ydb.param_values st) (Ydb.param_name c i)
                  = Some (Py.VInt z)).
  { intros st i row c Hb Hrow Hc Hid.
    destruct (build_closed float_repr columns data st Hwf Hb)
      as [_ [_ [_ Hget]]].
    destruct (Hget i row c Hrow Hc) as [v [Hv Hg]].
    destruct (param_value_id float_repr c row v Hid Hv) as [x [z [Hx [Hz ->]]]].
    exists x, z. auto. }
  split; [ exact Hbound | ].
  split; [ | split; [ reflexivity | ] ].
  - intros i row c x e Hrow Hc Hid Hx He.
    assert (Hex : Exists (fun row => Exists (fun c => exists e,
                                               param_value c row = Raise e)
                                            columns) data).
    { apply Exists_exists. exists row. split; [ now apply nth_error_In with i | ].
      apply Exists_exists. exists c. split; [ exact Hc | ].
      exists e. now apply param_value_id_raise with x. }
    destruct (bind_rows_raise float_repr columns data Hex 0
                              (Ydb.Statement [] [] [])) as [e' He'].
    exists e'.
    split; [ now apply upset_data_build_raise | ].
    destruct (bind_rows_raise_origin columns data 0 _ e' He')
      as (i' & row' & c' & Hi' & Hc' & Hp').
    destruct (same_structure_get columns data row' c' Hs
                                 (nth_error_In _ _ Hi') Hc') as [x' Hx'].
    destruct (param_value_raise_id c' row' x' e' Hx' Hp') as [Hid' Hint'].
    exists i', row', c', x'. auto.
  - split; [ | split; [ reflexivity | split; [ reflexivity | split ] ] ].
    + intros Hall.
      assert (Htot : Forall (fun row =>
                               Forall (fun c => exists v,
                                           param_value c row = Ok v)
                                      columns) data).
      { apply param_value_total; [ exact Hs | ].
        apply Forall_forall. intros row Hrow.
        apply Forall_forall. intros c Hc Hid x Hx.
        destruct (In_nth_error _ _ Hrow) as [i Hi].
        now apply (Hall i row c x). }
      destruct (bind_rows_total float_repr columns data Htot 0
                                (Ydb.Statement [] [] [])) as [st Hst].
      exists st. split; [ exact Hst | ].
      split; [ intros i row c; now apply Hbound | ].
      now apply upset_data_build_ok.
    + intros str c Hin Hf. cbn [Py.int]. now apply (int_of_string_foreign str c).
    + intros z Hz. cbn [Py.int]. now apply int_of_Z_text.
Qed.

End UnparsableId.

(** C10, as the specification states it, fails: the float 3.9 is not an
    integer string, and [int()] does not refuse it: the batch is
    prepared and executed, with 3 as the identifier. *)
Lemma float_id_is_truncated_and_sent :
  Py.int (Py.VFloat float_3_9) = Ok 3%Z
  /\ exists query,
      upset_sample "payments" batch_float_id
      = (Ydb.Db 2 [Ydb.Prepare query;
                   Ydb.Execute query [("$ID_0", Py.VInt 3);
                                      ("$NAME_0", Py.VStr "a")]],
         Ok true).
Proof.
  split; [ vm_compute; reflexivity | ].
  eexists. vm_compute. reflexivity.
Qed.

Lemma unparsable_id_stops_before_any_call_witness :
  (exists e,
      upset_sample "payments" batch_bad_id = (Ydb.Db 0 [], Raise e)
      /\ Py.int (Py.VStr "x2") = Raise e)
  /\ exists st,
      Ydb.build sample_float_repr ["ID"; "NAME"] batch_two_orders = Ok st
      /\ dict_get (Ydb.param_values st) "$ID_1" = Some (Py.VInt 2).
Proof.
  assert (Hwf : wf_dict [("id", Py.VStr "1"); ("NAME", Py.VStr "a")]).
  { repeat constructor; simpl; intuition discriminate. }
  assert (Hwf' : wf_dict [("ID", Py.VStr "1"); ("NAME", Py.VStr "a")]).
  { repeat constructor; simpl; intuition discriminate. }
  split.
  - pose proof (unparsable_id_stops_before_any_call sample_float_repr nat
                  counting_prepare counting_execute "payments"
                  [("id", Py.VStr "1"); ("NAME", Py.VStr "a")]
                  [[("id", Py.VStr "x2"); ("NAME", Py.VStr "b")]]
                  (Ydb.Db 0 []) Hwf eq_refl) as [_ [H _]].
    destruct (H 1 [("id", Py.VStr "x2"); ("NAME", Py.VStr "b")] "id"
                (Py.VStr "x2") (ValueError (InvalidIntLiteral "x2"))
                eq_refl (or_introl eq_refl) eq_refl eq_refl eq_refl)
      as (e' & Hup & i' & row' & c' & x' & Hi' & Hc' & Hid' & Hx' & Hint').
    exists e'. split; [ exact Hup | ].
    unfold upset_sample in Hup. vm_compute in Hup.
    injection Hup as <-. vm_compute. reflexivity.
  - pose proof (unparsable_id_stops_before_any_call sample_float_repr nat
                  counting_prepare counting_execute "payments"
                  [("ID", Py.VStr "1"); ("NAME", Py.VStr "a")]
                  [[("NAME", Py.VStr "b"); ("ID", Py.VStr "2")]]
                  (Ydb.Db 0 []) Hwf' eq_refl) as (_ & _ & _ & H & _).
    destruct H as (st & Hst & Hb & _).
    { intros i row c x Hi Hc Hid Hx.
      destruct i as [|[|i]]; cbn in Hi;
        [ | | destruct i; discriminate Hi ];
        injection Hi as <-;
        (destruct Hc as [<- | [<- | []]]; [ | discriminate Hid ]);
        injection Hx as <-; eexists; vm_compute; reflexivity. }
    exists st. split; [ exact Hst | ].
    destruct (Hb 1 [("NAME", Py.VStr "b"); ("ID", Py.VStr "2")] "ID"
                 eq_refl (or_introl eq_refl) eq_refl)
      as (x & z & Hx & Hz & Hg).
    injection Hx as <-. vm_compute in Hz. injection Hz as <-. exact Hg.
Defined.

(* ------------------------------------------------------------------ *)
(** ** Amounts and dates in general *)

Lemma flat_map_flat_map (A B C : Type) (f : A -> list B) (g : B -> list C)
      (l : list A) :
  flat_map g (flat_map f l) = flat_map (fun a => flat_map g (f a)) l.
Proof.
  induction l as [|a l IH]; simpl; [ reflexivity | ].
  now rewrite flat_map_app, IH.
Qed.

(** The normalisation takes every blank away and turns every comma into
    a period. *)
Lemma normalize_amount_chars (value : string) :
  Str.chars (Parser.normalize_amount value)
  = flat_map amount_char (Str.chars value).
Proof.
  unfold Parser.normalize_amount, Str.replace_char.
  rewrite !chars_of_chars, flat_map_flat_map.
  apply flat_map_ext. intros c. unfold amount_char.
  destruct (Ascii.eqb c " ") eqn:Eb; [ reflexivity | ].
  cbn [flat_map]. rewrite app_nil_r.
  destruct (Ascii.eqb c ","); reflexivity.
Qed.

Lemma span_all (p : ascii -> bool) (l : list ascii) :
  forallb p l = true -> Py.span p l = (l, []).
Proof.
  induction l as [|c l IH]; intros H; [ reflexivity | ].
  cbn [forallb] in H. apply andb_prop in H. destruct H as [Hc Hl].
  cbn [Py.span]. now rewrite Hc, (IH Hl).
Qed.

Lemma drop_underscores_none (l : list ascii) :
  forallb (fun c => negb (Py.is_underscore c)) l = true ->
  forall prev,
    match prev with
    | Some p => Py.is_underscore p = false
    | None => True
    end ->
    Py.drop_underscores prev l = Some l.
Proof.
  induction l as [|c l IH]; intros Hl prev Hp.
  - simpl. destruct prev as [p|]; [ now rewrite Hp | reflexivity ].
  - cbn [forallb] in Hl. apply andb_prop in Hl. destruct Hl as [Hc Hl].
    apply negb_true_iff in Hc.
    cbn [Py.drop_underscores]. rewrite Hc, (IH Hl (Some c) Hc).
    destruct prev as [p|]; [ now rewrite Hp | reflexivity ].
Qed.

Lemma digit_head_not_a_word (d : ascii) (t : list ascii) :
  Str.is_digit d = true ->
  Py.lower_eqb (d :: t) "inf" = false
  /\ Py.lower_eqb (d :: t) "infinity" = false
  /\ Py.lower_eqb (d :: t) "nan" = false.
Proof.
  intros H. unfold Py.lower_eqb.
  destruct d as [[] [] [] [] [] [] [] []]; try discriminate H;
    repeat split; reflexivity.
Qed.

(** [float()] of an integer part, a period and a fractional part: the
    float nearest to the decimal number. *)
Lemma float_of_decimal_text (ip fp : list ascii) :
  ip <> [] ->
  forallb Str.is_digit ip = true -> forallb Str.is_digit fp = true ->
  Py.float_of_string (Str.of_chars (ip ++ "."%char :: fp))
  = Ok (Py.float_of_decimal false (Str.Z_of_digits (ip ++ fp))
                            (- Z.of_nat (List.length fp))).
Proof.
  intros Hne Hip Hfp. unfold Py.float_of_string.
  rewrite chars_of_chars.
  assert (Hdig : forall l c, forallb Str.is_digit l = true -> In c l ->
                             Str.is_digit c = true).
  { intros l c Hl. rewrite forallb_forall in Hl. apply Hl. }
  assert (Hin : forall c, In c (ip ++ "."%char :: fp) ->
                          Str.is_digit c = true \/ c = "."%char).
  { intros c Hc. apply in_app_or in Hc.
    destruct Hc as [Hc | [<- | Hc]]; [ left | now right | left ];
      eauto. }
  rewrite strip_by_no_blank.
  2:{ apply forallb_forall. intros c Hc. apply negb_true_iff.
      destruct (Hin c Hc) as [Hd | ->];
        [ now apply digit_not_number_space | reflexivity ]. }
  rewrite drop_underscores_none; [ | | exact I ].
  2:{ apply forallb_forall. intros c Hc. apply negb_true_iff.
      destruct (Hin c Hc) as [Hd | ->];
        [ now apply digit_not_underscore | reflexivity ]. }
  destruct ip as [|d ip]; [ congruence | ].
  cbn [forallb] in Hip. apply andb_prop in Hip. destruct Hip as [Hd Hip'].
  unfold Py.parse_float_literal. cbn [app].
  rewrite (split_sign_digit d _ Hd).
  destruct (digit_head_not_a_word d (ip ++ "."%char :: fp) Hd)
    as (H1 & H2 & H3).
  rewrite H1, H2, H3. cbn [orb].
  change (d :: ip ++ "."%char :: fp)%list with ((d :: ip) ++ "."%char :: fp)%list.
  rewrite span_app; [ | cbn [forallb]; now rewrite Hd, Hip' | reflexivity ].
  rewrite (span_all Str.is_digit fp Hfp).
  cbn [List.length Nat.eqb andb Py.parse_exponent].
  reflexivity.
Qed.

Lemma of_nat_four (y : nat) :
  1000 <= y -> y <= 9999 -> String.length (Str.of_nat y) = 4.
Proof.
  intros Hl Hu. change 9999 with (99 * 101) in Hu.
  assert (Hall : forallb (fun y => String.length (Str.of_nat y) =? 4)
                         (seq 1000 (90 * 100)) = true)
    by (vm_compute; reflexivity).
  rewrite forallb_forall in Hall.
  apply Nat.eqb_eq. apply Hall. apply in_seq. lia.
Qed.

(** A year of four digits is written alike with and without the zeros
    on the left. *)
Lemma fmt_Y_four (pads : bool) (y : nat) :
  1000 <= y -> y <= 9999 -> DateTime.fmt_Y pads y = Str.zero_pad 4 y.
Proof.
  intros Hl Hu. destruct pads; [ reflexivity | ].
  unfold DateTime.fmt_Y, Str.zero_pad.
  rewrite (of_nat_four y Hl Hu). reflexivity.
Qed.

(** C3, amended: in standard-report mode the scenario's export gives one
    record, with [ID], the amount as the float 1234.56 and the date as
    [2024-06-01]; the last column of the header, [X], is dropped with its
    values, because line 179 takes the last element off the header.  The
    export with a [;] at the end of each line gives the record with the
    four fields.  In general, under [AMOUNT] and [ALL_AMOUNT] every
    blank of the field is taken away and every comma turned into a
    period, and [float()] reads the result: when that is an integer
    part, a period and a fractional part, the value is the float
    nearest to that decimal number.  Under [DATE_OF_USE],
    [SUBSCRIPTION_START] and [SUBSCRIPTION_END] the text of a date a
    [datetime] can hold, day, month and year with dots between them,
    becomes the year, the month and the day with dashes between them,
    the month and the day on two digits, the year on four from the
    year 1000 on. *)
Theorem scenario_standard_report :
  forall (pads : bool) (self : Parser.ParseVendors),
    Parser._parse_csv_payments pads self scenario_body false
    = Ok [scenario_record_without_X]
    /\ Parser._parse_csv_payments pads self scenario_body_trailing false
       = Ok [scenario_record]
    /\ (forall key value,
           In key Parser.amount_keys ->
           Str.chars (Parser.normalize_amount value)
           = flat_map amount_char (Str.chars value)
           /\ Parser.convert pads key value
              = (f <- Py.float_of_string (Parser.normalize_amount value) ;;
                 Ok (Py.VFloat f)))
    /\ (forall key value ip fp,
           In key Parser.amount_keys ->
           flat_map amount_char (Str.chars value)
           = (ip ++ "."%char :: fp)%list ->
           ip <> [] ->
           forallb Str.is_digit ip = true -> forallb Str.is_digit fp = true ->
           Parser.convert pads key value
           = Ok (Py.VFloat
                   (Py.float_of_decimal false (Str.Z_of_digits (ip ++ fp))
                                        (- Z.of_nat (List.length fp)))))
    /\ (forall key dt dtext mtext,
           In key Parser.date_keys ->
           DateTime.valid dt = true ->
           dtext = DateTime.fmt_2 (DateTime.day dt)
           \/ dtext = Str.of_nat (DateTime.day dt) ->
           mtext = DateTime.fmt_2 (DateTime.month dt)
           \/ mtext = Str.of_nat (DateTime.month dt) ->
           Parser.convert pads key
             (dtext ++ "." ++ mtext ++ "."
                    ++ Str.zero_pad 4 (DateTime.year dt))
           = Ok (Py.VStr (DateTime.fmt_Y pads (DateTime.year dt) ++ "-"
                          ++ DateTime.fmt_2 (DateTime.month dt) ++ "-"
                          ++ DateTime.fmt_2 (DateTime.day dt)))
           /\ (1000 <= DateTime.year dt ->
               DateTime.fmt_Y pads (DateTime.year dt)
               = Str.zero_pad 4 (DateTime.year dt))).
Proof.
  intros pads self.
  assert (Hamount : forall key value,
             In key Parser.amount_keys ->
             Parser.convert pads key value
             = (f <- Py.float_of_string (Parser.normalize_amount value) ;;
                Ok (Py.VFloat f))).
  { intros key value Hk. unfold Parser.convert.
    now rewrite (proj2 (mem_spec key Parser.amount_keys) Hk). }
  split; [ destruct pads; vm_compute; reflexivity | ].
  split; [ destruct pads; vm_compute; reflexivity | ].
  split; [ | split ].
  - intros key value Hk.
    split; [ apply normalize_amount_chars | now apply Hamount ].
  - intros key value ip fp Hk Hn Hne Hip Hfp.
    rewrite (Hamount key value Hk).
    rewrite <- (of_chars_chars (Parser.normalize_amount value)).
    rewrite normalize_amount_chars, Hn.
    now rewrite (float_of_decimal_text ip fp Hne Hip Hfp).
  - intros key dt dtext mtext Hk Hv Hd Hm.
    destruct (valid_bounds dt Hv) as (Hdb & Hmb & Hyb).
    split; [ | intros Hy; apply fmt_Y_four; [ exact Hy | apply Hyb ] ].
    unfold Parser.convert.
    assert (Ham : mem key Parser.amount_keys = false).
    { destruct Hk as [<- | [<- | [<- | []]]]; reflexivity. }
    rewrite Ham, (proj2 (mem_spec key Parser.date_keys) Hk).
    unfold DateTime.strptime.
    rewrite (regex_match_date (DateTime.day dt) (DateTime.month dt)
                              (DateTime.year dt) dtext mtext)
      by (assumption || apply Hyb).
    destruct dt as [y m d]. cbn [DateTime.year DateTime.month DateTime.day] in *.
    rewrite Hv. reflexivity.
Qed.
